(** * Database connectivity layer: connectors, credential vault, factory, CRUD

    A shallow embedding of [api/common/src/connectorDB.py],
    [api/common/src/connector_manager.py] and [api/common/src/crud.py].

    Python objects that the code mutates (the connector's [connection]
    attribute, the configuration dictionaries of the connection manager) live
    in an explicit state that every method threads; exceptions are a result
    constructor; whatever a database driver, the file system or the cipher
    answers is a parameter of the development, so that every theorem holds for
    all of their behaviours. *)

From Stdlib Require Import ZArith Lia Ascii.
From stdpp Require Import gmap strings list pretty.

Local Open Scope Z_scope.

(** ** Python values and strings *)

(** The scalar values that travel through the layer: configuration entries,
    statement parameters and the cells of catalog rows. Floating-point cells
    and nested JSON values are outside the model. *)
Inductive pyval :=
| PNone
| PBool (b : bool)
| PInt (z : Z)
| PStr (s : string).

Definition is_empty_string (s : string) : bool :=
  match s with EmptyString => true | String _ _ => false end.

(** [bool(v)], the truth value Python's [if v:] and [not v] test. *)
Definition truthy (v : pyval) : bool :=
  match v with
  | PNone => false
  | PBool b => b
  | PInt z => negb (z =? 0)
  | PStr s => negb (is_empty_string s)
  end.

(** [d.get(k)]: a missing key reads as [None]. *)
Definition dict_get (d : gmap string pyval) (k : string) : pyval :=
  default PNone (d !! k).

(** [d.get(k, dflt)]. *)
Definition dict_get_default (d : gmap string pyval) (k : string) (dflt : pyval) : pyval :=
  default dflt (d !! k).

(** [s.startswith(p)]. *)
Fixpoint startswith (p s : string) : bool :=
  match p with
  | EmptyString => true
  | String a p' =>
      match s with
      | EmptyString => false
      | String b s' => Ascii.eqb a b && startswith p' s'
      end
  end.

(** [s[n:]]. *)
Fixpoint drop_string (n : nat) (s : string) : string :=
  match n, s with
  | O, _ => s
  | S n', String _ s' => drop_string n' s'
  | S _, EmptyString => EmptyString
  end.

(** [s[:n]]. *)
Fixpoint take_string (n : nat) (s : string) : string :=
  match n, s with
  | S n', String c s' => String c (take_string n' s')
  | _, _ => EmptyString
  end.

(** The characters [str.strip()] removes (the ASCII ones; strings are byte
    sequences here, so the whitespace code points above 127 are not seen). *)
Definition is_py_space (c : ascii) : bool :=
  let n := Ascii.N_of_ascii c in
  ((9 <=? n) && (n <=? 13) || (28 <=? n) && (n <=? 32))%N.

Fixpoint lstrip (s : string) : string :=
  match s with
  | String c s' => if is_py_space c then lstrip s' else s
  | EmptyString => EmptyString
  end.

Fixpoint rstrip (s : string) : string :=
  match s with
  | String c s' =>
      let r := rstrip s' in
      if is_py_space c && is_empty_string r then EmptyString else String c r
  | EmptyString => EmptyString
  end.

(** [s.strip()]. *)
Definition strip (s : string) : string := rstrip (lstrip s).

Definition lower_ascii (c : ascii) : ascii :=
  let n := Ascii.N_of_ascii c in
  if ((65 <=? n) && (n <=? 90))%N then Ascii.ascii_of_N (n + 32) else c.

(** [s.lower()] (on the ASCII letters). *)
Fixpoint lower (s : string) : string :=
  match s with
  | String c s' => String (lower_ascii c) (lower s')
  | EmptyString => EmptyString
  end.

(** [s.upper()] (on the ASCII letters). *)
Definition upper_ascii (c : ascii) : ascii :=
  let n := Ascii.N_of_ascii c in
  if ((97 <=? n) && (n <=? 122))%N then Ascii.ascii_of_N (n - 32) else c.

Fixpoint upper (s : string) : string :=
  match s with
  | String c s' => String (upper_ascii c) (upper s')
  | EmptyString => EmptyString
  end.

(** [sep.join(l)]. *)
Definition join (sep : string) (l : list string) : string := String.concat sep l.

(** [sub in s]. *)
Fixpoint contains (sub s : string) : bool :=
  startswith sub s ||
  match s with
  | String _ s' => contains sub s'
  | EmptyString => false
  end.

(** The number of positions of [s] at which [p] starts. *)
Fixpoint count_occurrences (p s : string) : nat :=
  match s with
  | String _ s' => ((if startswith p s then 1 else 0) + count_occurrences p s')%nat
  | EmptyString => 0%nat
  end.

(** ** Exceptions *)

(** The exception classes of the layer and the built-in ones it raises or
    lets through; each carries its message, which is what [str(e)] gives.
    [ConnectionError] is declared a subclass of [DatabaseError].
    [DriverError] stands for any [Exception] a driver raises. *)
Inductive exn :=
| ConfigError (msg : string)
| SecurityError (msg : string)
| DatabaseError (msg : string)
| ConnectionError (msg : string)
| ValueError (msg : string)
| TypeError (msg : string)
| ImportError (msg : string)
| KeyError (msg : string)
| IndexError (msg : string)
| AttributeError (msg : string)
| DriverError (msg : string).

Definition exn_str (e : exn) : string :=
  match e with
  | ConfigError m | SecurityError m | DatabaseError m | ConnectionError m
  | ValueError m | TypeError m | ImportError m | KeyError m | IndexError m
  | AttributeError m | DriverError m => m
  end.

(** [isinstance(e, DatabaseError)], what [except DatabaseError] catches. *)
Definition is_DatabaseError (e : exn) : bool :=
  match e with
  | DatabaseError _ | ConnectionError _ => true
  | _ => false
  end.

Definition is_ConfigError (e : exn) : bool :=
  match e with ConfigError _ => true | _ => false end.

Definition is_ImportError (e : exn) : bool :=
  match e with ImportError _ => true | _ => false end.

Definition is_ValueError (e : exn) : bool :=
  match e with ValueError _ => true | _ => false end.

Inductive result (A : Type) :=
| Ok (a : A)
| Raise (e : exn).
Arguments Ok {A} a.
Arguments Raise {A} e.

Definition nl : string := String (Ascii.ascii_of_nat 10) EmptyString.

(** [str(v)]. *)
Definition py_str (v : pyval) : string :=
  match v with
  | PNone => "None"
  | PBool true => "True"
  | PBool false => "False"
  | PInt z => pretty z
  | PStr s => s
  end.

Definition digit_of (c : ascii) : option Z :=
  let n := Ascii.N_of_ascii c in
  if ((48 <=? n) && (n <=? 57))%N then Some (Z.of_N n - 48) else None.

(** The digits of a decimal literal as [int(s)] accepts them: single
    underscores may separate digits. [prev_digit] tells whether the character
    just read was a digit. *)
Fixpoint parse_digits (acc : Z) (prev_digit : bool) (s : string) : option Z :=
  match s with
  | EmptyString => if prev_digit then Some acc else None
  | String c s' =>
      match digit_of c with
      | Some d => parse_digits (10 * acc + d) true s'
      | None =>
          if Ascii.eqb c "_" && prev_digit then parse_digits acc false s' else None
      end
  end.

(** [int(s)] for a string: surrounding whitespace, an optional sign, decimal
    digits. [None] is Python's [ValueError]. *)
Definition int_of_string (s : string) : option Z :=
  match strip s with
  | String "+" r => parse_digits 0 false r
  | String "-" r => Z.opp <$> parse_digits 0 false r
  | r => parse_digits 0 false r
  end.

(** [int(v)]. *)
Definition py_int (v : pyval) : result Z :=
  match v with
  | PNone => Raise (TypeError "int() argument must be a string, a bytes-like object or a real number, not 'NoneType'")
  | PBool b => Ok (if b then 1 else 0)
  | PInt z => Ok z
  | PStr s =>
      match int_of_string s with
      | Some z => Ok z
      | None => Raise (ValueError ("invalid literal for int() with base 10: " +:+ s))
      end
  end.

(** [_safe_int_conversion]: [None] for [None], for a blank string and for
    whatever [int] refuses. *)
Definition _safe_int_conversion (value : pyval) : option Z :=
  match value with
  | PNone => None
  | PStr s =>
      let value := strip s in
      if is_empty_string value then None
      else match py_int (PStr value) with
           | Ok z => Some z
           | Raise _ => None
           end
  | _ =>
      match py_int value with
      | Ok z => Some z
      | Raise _ => None
      end
  end.

(** ** Metadata records *)

Module ColumnMetadata.
Record t := mk {
    name : string;
    type : string;
    is_nullable : bool;
    default_value : option string;
    max_length : option Z;
    numeric_precision : option Z;
    numeric_scale : option Z;
    is_primary_key : bool;
    is_unique : bool;
    comment : option string }.
End ColumnMetadata.

Module ForeignKeyMetadata.
Record t := mk {
    name : string;
    column_name : string;
    referenced_table_name : string;
    referenced_column_name : string;
    on_update : option string;
    on_delete : option string }.
End ForeignKeyMetadata.

Module IndexMetadata.
Record t := mk {
    name : string;
    columns : list string;
    is_unique : bool;
    is_primary : bool;
    type : option string }.
End IndexMetadata.

Module TableMetadata.
Record t := mk {
    name : string;
    columns : list ColumnMetadata.t;
    primary_keys : list string;
    foreign_keys : list ForeignKeyMetadata.t;
    indexes : list IndexMetadata.t;
    size_bytes : option Z;
    row_count : option Z;
    comment : option string }.
End TableMetadata.

(** ** Connectors, drivers and the trace of what they do *)

(** The three connector classes. *)
Inductive dialect := Firebird | MySQL | PostgreSQL.

(** A row as a cursor hands it out: a tuple (Firebird) or a record keyed by
    column name (the dictionary cursors of MySQL and PostgreSQL). *)
Inductive row :=
| RowTuple (cells : list pyval)
| RowDict (cells : gmap string pyval).

(** A driver's connection object, as far as the code inspects it with
    [hasattr]. Connection objects define neither [__bool__] nor [__len__], so
    [if self.connection] and [self.connection is not None] agree. *)
Record dbconn := {
  has_begin : bool;
  has_commit : bool;
  has_rollback : bool;
  has_autocommit : bool;
  has_is_connected : bool;
  has_closed : bool }.

Inductive cursor_kind := PlainCursor | DictionaryCursor | DictCursorFactory.

(** Everything observable: the connector methods entered and the calls that
    reach the driver, in order. *)
Inductive event :=
| CallConnect
| CallDisconnect
| CallExecuteQuery (query : string) (params : option (list pyval))
| CallExecuteUpdate (query : string) (params : option (list pyval))
| CallStartTransaction
| CallCommitTransaction
| CallRollbackTransaction
| DrvConnect (d : dialect) (kwargs : gmap string pyval)
| DrvSetAutocommit
| DrvCursor (k : cursor_kind)
| DrvExecute (query : string) (params : list pyval)
| DrvFetchall
| DrvRowcount
| DrvCursorExit
| DrvBegin
| DrvCommit
| DrvRollback
| DrvClose
| DrvIsConnected
| DrvClosed.

(** A driver call is a round trip to the database: every [Drv] event. *)
Definition is_driver_event (e : event) : bool :=
  match e with
  | CallConnect | CallDisconnect | CallExecuteQuery _ _ | CallExecuteUpdate _ _
  | CallStartTransaction | CallCommitTransaction | CallRollbackTransaction => false
  | _ => true
  end.

Definition is_execute_update_call (e : event) : bool :=
  match e with CallExecuteUpdate _ _ => true | _ => false end.

Inductive outcome (A : Type) :=
| Returns (a : A)
| Throws (msg : string).
Arguments Returns {A} a.
Arguments Throws {A} msg.

(** What the driver answers to each call, given everything that happened
    before it. *)
Record driver := {
  on_connect : list event -> dialect -> gmap string pyval -> outcome dbconn;
  on_set_autocommit : list event -> outcome unit;
  on_cursor : list event -> cursor_kind -> outcome unit;
  on_execute : list event -> string -> list pyval -> outcome unit;
  on_fetchall : list event -> outcome (list row);
  on_rowcount : list event -> outcome Z;
  on_cursor_exit : list event -> outcome unit;
  on_begin : list event -> outcome unit;
  on_commit : list event -> outcome unit;
  on_rollback : list event -> outcome unit;
  on_close : list event -> outcome unit;
  on_is_connected : list event -> outcome bool;
  on_closed : list event -> outcome bool }.

(** The module-level flags set by the guarded driver imports.
    [psycopg2_extras_available] is assigned together with
    [psycopg2_available], so one flag stands for both. *)
Record modules := {
  fdb_available : bool;
  mysql_connector_available : bool;
  psycopg2_available : bool }.

(** A connector object ([IDBConnector.__init__] sets the three attributes)
    together with the trace. *)
Record world := {
  cls : dialect;
  config : gmap string pyval;
  db_type : string;
  connection : option dbconn;
  trace : list event }.

Definition set_connection (c : option dbconn) (w : world) : world :=
  {| cls := cls w; config := config w; db_type := db_type w;
     connection := c; trace := trace w |}.

Definition add_event (e : event) (w : world) : world :=
  {| cls := cls w; config := config w; db_type := db_type w;
     connection := connection w; trace := trace w ++ [e] |}.

(** [IDBConnector.__init__]: [.lower()] needs [db_type] to be a string. *)
Definition IDBConnector_init (c : dialect) (connection_config : gmap string pyval)
  : result world :=
  match dict_get_default connection_config "db_type" (PStr "unknown") with
  | PStr s =>
      Ok {| cls := c; config := connection_config; db_type := lower s;
            connection := None; trace := [] |}
  | _ => Raise (AttributeError "object has no attribute 'lower'")
  end.

(** ** The state and exception monad of the connector methods *)

Definition M (A : Type) : Type := world -> result A * world.

Definition ret {A} (a : A) : M A := fun w => (Ok a, w).

Definition raise {A} (e : exn) : M A := fun w => (Raise e, w).

Definition bind {A B} (m : M A) (k : A -> M B) : M B :=
  fun w =>
    match m w with
    | (Ok a, w') => k a w'
    | (Raise e, w') => (Raise e, w')
    end.

Notation "'do' x <- m ; k" := (bind m (fun x => k))
  (at level 10, x name, m at level 100, k at level 200).
Notation "'run' m ; k" := (bind m (fun _ => k))
  (at level 10, m at level 100, k at level 200).

(** [try: m  except Exception as e: h e]. *)
Definition try_except {A} (m : M A) (h : exn -> M A) : M A :=
  fun w =>
    match m w with
    | (Ok a, w') => (Ok a, w')
    | (Raise e, w') => h e w'
    end.

(** [try: m  except E as e: h e] for the classes [E] that [catches] accepts. *)
Definition try_except_if {A} (catches : exn -> bool) (m : M A) (h : exn -> M A) : M A :=
  try_except m (fun e => if catches e then h e else raise e).

Definition gets {A} (f : world -> A) : M A := fun w => (Ok (f w), w).

Definition modify (f : world -> world) : M unit := fun w => (Ok tt, f w).

Definition log (e : event) : M unit := modify (add_event e).

Definition lift {A} (r : result A) : M A := fun w => (r, w).

Definition when (b : bool) (m : M unit) : M unit := if b then m else ret tt.

(** [with cm as x: body], for a context manager whose [__exit__] returns a
    false value: [leave] runs on both paths and the exception of the body, if
    any, goes on afterwards (unless [leave] raises one of its own). [leave]
    is told the exception in flight. *)
Definition with_scope {A} (body : M A) (leave : option exn -> M unit) : M A :=
  fun w =>
    match body w with
    | (Ok a, w') => (run leave None; ret a) w'
    | (Raise e, w') => (run leave (Some e); raise e) w'
    end.

Section Connector.
Context (drv : driver) (mods : modules).

  (** A call into the driver: it is recorded, and the driver's answer may
      depend on the history. *)
Definition drv_call {A} (ev : event) (answer : list event -> outcome A) : M A :=
    fun w =>
      match answer (trace w) with
      | Returns a => (Ok a, add_event ev w)
      | Throws msg => (Raise (DriverError msg), add_event ev w)
      end.

Definition get_placeholder (c : dialect) : string :=
    match c with
    | Firebird => "?"
    | MySQL => "%s"
    | PostgreSQL => "%s"
    end.

  (** *** [BaseDBConnector] *)

Definition start_transaction : M unit :=
    run log CallStartTransaction;
    do conn <- gets connection;
    match conn with
    | Some c =>
        if has_begin c then
          try_except (drv_call DrvBegin (on_begin drv))
            (fun e => raise (DatabaseError ("Erro ao iniciar transação Firebird: " +:+ exn_str e)))
        else ret tt
    | None => ret tt
    end.

Definition commit_transaction : M unit :=
    run log CallCommitTransaction;
    do conn <- gets connection;
    do ty <- gets db_type;
    match conn with
    | None =>
        raise (ConnectionError ("Conexão com o banco de dados (" +:+ ty +:+ ") não estabelecida para commit."))
    | Some _ =>
        try_except (drv_call DrvCommit (on_commit drv))
          (fun e => raise (DatabaseError ("Erro ao confirmar transação " +:+ ty +:+ ": " +:+ exn_str e)))
    end.

Definition rollback_transaction : M unit :=
    run log CallRollbackTransaction;
    do conn <- gets connection;
    do ty <- gets db_type;
    match conn with
    | None =>
        raise (ConnectionError ("Conexão com o banco de dados (" +:+ ty +:+ ") não estabelecida para rollback."))
    | Some _ =>
        try_except (drv_call DrvRollback (on_rollback drv))
          (fun e => raise (DatabaseError ("Erro ao desfazer transação " +:+ ty +:+ ": " +:+ exn_str e)))
    end.

  (** [_get_cursor], per connector class. *)
Definition _get_cursor : M unit :=
    do c <- gets cls;
    do conn <- gets connection;
    match c with
    | Firebird =>
        match conn with
        | None => raise (ConnectionError "Nenhuma conexão Firebird para obter cursor.")
        | Some _ => drv_call (DrvCursor PlainCursor) (fun h => on_cursor drv h PlainCursor)
        end
    | MySQL =>
        match conn with
        | None => raise (ConnectionError "Nenhuma conexão MySQL para obter cursor.")
        | Some _ => drv_call (DrvCursor DictionaryCursor) (fun h => on_cursor drv h DictionaryCursor)
        end
    | PostgreSQL =>
        match conn with
        | None => raise (ConnectionError "Nenhuma conexão PostgreSQL para obter cursor.")
        | Some _ =>
            if negb (psycopg2_available mods) then
              raise (ImportError "psycopg2.extras (para DictCursor) não está disponível ou não pôde ser carregado.")
            else drv_call (DrvCursor DictCursorFactory) (fun h => on_cursor drv h DictCursorFactory)
        end
    end.

  (** The best-effort rollback of the two [except Exception] handlers. *)
Definition rollback_quietly : M unit :=
    do conn <- gets connection;
    match conn with
    | Some c =>
        if has_rollback c then
          try_except (drv_call DrvRollback (on_rollback drv)) (fun _ => ret tt)
        else ret tt
    | None => ret tt
    end.

  (** [params or ()]. *)
Definition params_or_empty (params : option (list pyval)) : list pyval :=
    match params with
    | Some (p :: ps) => p :: ps
    | _ => []
    end.

Definition execute_query (query : string) (params : option (list pyval))
    : M (list row) :=
    run log (CallExecuteQuery query params);
    do conn <- gets connection;
    do ty <- gets db_type;
    match conn with
    | None => raise (ConnectionError ("Conexão com o banco de dados (" +:+ ty +:+ ") não estabelecida."))
    | Some _ =>
        try_except
          (run _get_cursor;
           with_scope
             (run drv_call (DrvExecute query (params_or_empty params))
                    (fun h => on_execute drv h query (params_or_empty params));
              drv_call DrvFetchall (on_fetchall drv))
             (fun _ => drv_call DrvCursorExit (on_cursor_exit drv)))
          (fun db_err =>
             run rollback_quietly;
             raise (DatabaseError ("Erro ao executar consulta: " +:+ query +:+ nl +:+ " - " +:+ exn_str db_err)))
    end.

Definition execute_update (query : string) (params : option (list pyval))
    : M Z :=
    run log (CallExecuteUpdate query params);
    do conn <- gets connection;
    do ty <- gets db_type;
    match conn with
    | None => raise (ConnectionError ("Conexão com o banco de dados (" +:+ ty +:+ ") não estabelecida."))
    | Some _ =>
        try_except
          (run _get_cursor;
           with_scope
             (run drv_call (DrvExecute query (params_or_empty params))
                    (fun h => on_execute drv h query (params_or_empty params));
              drv_call DrvRowcount (on_rowcount drv))
             (fun _ => drv_call DrvCursorExit (on_cursor_exit drv)))
          (fun db_err =>
             run rollback_quietly;
             raise (DatabaseError ("Erro ao executar atualização: " +:+ query +:+ nl +:+ " - " +:+ exn_str db_err)))
    end.

  (** *** [connect] and [disconnect], per connector class *)

  (** [not v or not str(v).strip()]. *)
Definition blank (v : pyval) : bool :=
    negb (truthy v) || is_empty_string (strip (py_str v)).

  (** [{k: v for k, v in self.config.items() if k not in excluded}]. *)
Definition other_items (excluded : list string) (cfg : gmap string pyval)
    : gmap string pyval :=
    filter (fun kv : string * pyval => kv.1 ∉ excluded) cfg.

Definition Firebird_connect : M dbconn :=
    if negb (fdb_available mods) then
      raise (ImportError "Firebird driver não está instalado ou não pôde ser carregado.")
    else
      do cfg <- gets config;
      let host := dict_get cfg "host" in
      let port := dict_get_default cfg "port" (PInt 3050) in
      let database_path := dict_get cfg "database" in
      let user_val := dict_get cfg "user" in
      let password_val := dict_get cfg "password" in
      let charset := py_str (dict_get_default cfg "charset" (PStr "UTF8")) in
      if negb (truthy host) then
        raise (ConnectionError "Host Firebird não fornecido na configuração.")
      else if negb (truthy database_path) then
        raise (ConnectionError "Caminho do banco de dados Firebird não fornecido na configuração.")
      else if blank user_val then
        raise (ConnectionError "Nome de usuário Firebird não fornecido ou vazio após processamento da configuração.")
      else if blank password_val then
        raise (ConnectionError "Senha Firebird não fornecida ou vazia após processamento da configuração. Verifique a criptografia.")
      else
        let final_user := strip (py_str user_val) in
        let final_password := strip (py_str password_val) in
        let firebird_dsn := py_str host +:+ "/" +:+ py_str port +:+ ":" +:+ py_str database_path in
        let kwargs :=
          <["database" := PStr firebird_dsn]>
          (<["user" := PStr final_user]>
          (<["password" := PStr final_password]>
          (<["charset" := PStr charset]>
          (other_items ["host"; "port"; "database"; "user"; "password"; "charset"; "db_type"] cfg)))) in
        try_except
          (do c <- drv_call (DrvConnect Firebird kwargs) (fun h => on_connect drv h Firebird kwargs);
           run modify (set_connection (Some c));
           ret c)
          (fun e => raise (ConnectionError ("Erro ao conectar ao Firebird: " +:+ exn_str e))).

Definition MySQL_connect : M dbconn :=
    do conn <- gets connection;
    match conn with
    | Some c => ret c
    | None =>
      if negb (mysql_connector_available mods) then
        raise (ImportError "MySQL driver não está instalado ou não pôde ser carregado.")
      else
        do cfg <- gets config;
        let host := dict_get cfg "host" in
        let database := dict_get cfg "database" in
        let user_val := dict_get cfg "user" in
        let password_val := dict_get cfg "password" in
        do port <- lift (py_int (dict_get_default cfg "port" (PInt 3306)));
        if negb (truthy host) then
          raise (ConnectionError "Host MySQL não fornecido na configuração.")
        else if negb (truthy database) then
          raise (ConnectionError "Nome do banco de dados MySQL não fornecido na configuração.")
        else if blank user_val then
          raise (ConnectionError "Nome de usuário MySQL não fornecido ou vazio após processamento da configuração.")
        else if blank password_val then
          raise (ConnectionError "Senha MySQL não fornecida ou vazia após processamento da configuração. Verifique a criptografia.")
        else
          let final_user := strip (py_str user_val) in
          let final_password := strip (py_str password_val) in
          let kwargs :=
            <["host" := host]>
            (<["database" := database]>
            (<["user" := PStr final_user]>
            (<["password" := PStr final_password]>
            (<["port" := PInt port]>
            (other_items ["host"; "database"; "user"; "password"; "port"; "db_type"] cfg))))) in
          try_except
            (do c <- drv_call (DrvConnect MySQL kwargs) (fun h => on_connect drv h MySQL kwargs);
             run modify (set_connection (Some c));
             run when (has_autocommit c) (drv_call DrvSetAutocommit (on_set_autocommit drv));
             ret c)
            (fun e => raise (ConnectionError ("Erro ao conectar ao MySQL: " +:+ exn_str e)))
    end.

Definition PostgreSQL_connect : M dbconn :=
    do conn <- gets connection;
    match conn with
    | Some c => ret c
    | None =>
      if negb (psycopg2_available mods) then
        raise (ImportError "PostgreSQL driver não está instalado ou não pôde ser carregado.")
      else
        do cfg <- gets config;
        let host := dict_get cfg "host" in
        let dbname := dict_get cfg "database" in
        let user_val := dict_get cfg "user" in
        let password_val := dict_get cfg "password" in
        do port <- lift (py_int (dict_get_default cfg "port" (PInt 5432)));
        if negb (truthy host) then
          raise (ConnectionError "Host PostgreSQL não fornecido na configuração.")
        else if negb (truthy dbname) then
          raise (ConnectionError "Nome do banco de dados PostgreSQL não fornecido na configuração.")
        else if blank user_val then
          raise (ConnectionError "Nome de usuário PostgreSQL não fornecido ou vazio após processamento da configuração.")
        else if blank password_val then
          raise (ConnectionError "Senha PostgreSQL não fornecida ou vazia após processamento da configuração. Verifique a criptografia.")
        else
          let final_user := strip (py_str user_val) in
          let final_password := strip (py_str password_val) in
          let others := other_items ["host"; "database"; "user"; "password"; "port"; "db_type"] cfg in
          let kwargs :=
            <["host" := host]>
            (<["dbname" := dbname]>
            (<["user" := PStr final_user]>
            (<["password" := PStr final_password]>
            (<["port" := PInt port]> others)))) in
          try_except
            (* a [dbname] entry of the configuration would pass the keyword twice *)
            (run (match others !! "dbname" with
                  | Some _ => raise (TypeError "connect() got multiple values for keyword argument 'dbname'")
                  | None => ret tt
                  end);
             do c <- drv_call (DrvConnect PostgreSQL kwargs) (fun h => on_connect drv h PostgreSQL kwargs);
             run modify (set_connection (Some c));
             run drv_call DrvSetAutocommit (on_set_autocommit drv);
             ret c)
            (fun e => raise (ConnectionError ("Erro ao conectar ao PostgreSQL: " +:+ exn_str e)))
    end.

Definition connect : M dbconn :=
    run log CallConnect;
    do c <- gets cls;
    match c with
    | Firebird => Firebird_connect
    | MySQL => MySQL_connect
    | PostgreSQL => PostgreSQL_connect
    end.

Definition close_and_forget : M unit :=
    run drv_call DrvClose (on_close drv);
    modify (set_connection None).

Definition Firebird_disconnect : M unit :=
    do conn <- gets connection;
    match conn with
    | Some _ => try_except close_and_forget (fun _ => ret tt)
    | None => ret tt
    end.

Definition MySQL_disconnect : M unit :=
    do conn <- gets connection;
    match conn with
    | Some c =>
        try_except
          (do gone <- (if has_is_connected c
                       then do up <- drv_call DrvIsConnected (on_is_connected drv); ret (negb up)
                       else ret false);
           if gone then ret tt else close_and_forget)
          (fun _ => ret tt)
    | None => ret tt
    end.

Definition PostgreSQL_disconnect : M unit :=
    do conn <- gets connection;
    match conn with
    | Some c =>
        try_except
          (do closed <- (if has_closed c
                         then drv_call DrvClosed (on_closed drv)
                         else raise (AttributeError "object has no attribute 'closed'"));
           if closed then ret tt else close_and_forget)
          (fun _ => ret tt)
    | None => ret tt
    end.

Definition disconnect : M unit :=
    run log CallDisconnect;
    do c <- gets cls;
    match c with
    | Firebird => Firebird_disconnect
    | MySQL => MySQL_disconnect
    | PostgreSQL => PostgreSQL_disconnect
    end.

  (** *** The context manager *)

Definition __enter__ : M unit :=
    run connect; ret tt.

  (** [__exit__(exc_type, exc_val, exc_tb)]; [exc] is the exception in flight,
      if any. The method returns [None], so that exception goes on. *)
Definition __exit__ (exc : option exn) : M unit :=
    do conn <- gets connection;
    match conn with
    | Some c =>
        run (match exc with
             | Some _ =>
                 if has_rollback c then
                   try_except (drv_call DrvRollback (on_rollback drv)) (fun _ => ret tt)
                 else ret tt
             | None =>
                 if has_commit c then
                   try_except (drv_call DrvCommit (on_commit drv)) (fun _ => ret tt)
                 else ret tt
             end);
        disconnect
    | None => ret tt
    end.

  (** [with connector: body]. *)
Definition with_connector {A} (body : M A) : M A :=
    run __enter__;
    with_scope body __exit__.

End Connector.

(** ** The CRUD engine ([crud.py]) *)

(** A [Dict[str, Any]] argument: its items in insertion order. *)
Abbreviation pydict := (list (string * pyval)).

(** [not d]. *)
Definition dict_is_empty (d : pydict) : bool :=
  match d with [] => true | _ :: _ => false end.

Module CRUD.

(** A CRUD object: the connector it refers to is the one of the state; the
    placeholder is read from it once, by [__init__]. *)
Record t := { placeholder : string }.

(** The [f"{col} = {self.placeholder}"] clauses in the order of the items. *)
Definition equality_clauses (ph : string) (d : pydict) : list string :=
  map (fun kv : string * pyval => kv.1 +:+ " = " +:+ ph) d.

Definition create_query (ph table_name : string) (data : pydict) : string :=
  let columns := join ", " (map fst data) in
  let placeholders := join ", " (replicate (length data) ph) in
  "INSERT INTO " +:+ table_name +:+ " (" +:+ columns +:+ ") VALUES (" +:+ placeholders +:+ ")".

Definition create_params (data : pydict) : list pyval := map snd data.

Definition read_query (ph table_name : string) (conditions : option pydict) : string :=
  let query := "SELECT * FROM " +:+ table_name in
  match conditions with
  | Some (c :: cs) => query +:+ " WHERE " +:+ join " AND " (equality_clauses ph (c :: cs))
  | _ => query
  end.

Definition read_params (conditions : option pydict) : option (list pyval) :=
  match conditions with
  | Some (c :: cs) => Some (map snd (c :: cs))
  | _ => None
  end.

Definition update_query (ph table_name : string) (data conditions : pydict) : string :=
  "UPDATE " +:+ table_name +:+ " SET " +:+ join ", " (equality_clauses ph data)
  +:+ " WHERE " +:+ join " AND " (equality_clauses ph conditions).

Definition update_params (data conditions : pydict) : list pyval :=
  map snd data ++ map snd conditions.

Definition delete_query (ph table_name : string) (conditions : pydict) : string :=
  "DELETE FROM " +:+ table_name +:+ " WHERE " +:+ join " AND " (equality_clauses ph conditions).

Definition delete_params (conditions : pydict) : list pyval := map snd conditions.

Section Crud.
Context (drv : driver) (mods : modules).

Definition __init__ : M t :=
    do c <- gets cls;
    ret {| placeholder := get_placeholder c |}.

  (** [try: m  except DatabaseError as e: (log); raise]. *)
Definition reraising {A} (m : M A) : M A :=
    try_except_if is_DatabaseError m (fun e => raise e).

Definition create (self : t) (table_name : string) (data : pydict) : M Z :=
    if dict_is_empty data then ret 0
    else
      reraising
        (execute_update drv mods
           (create_query (placeholder self) table_name data)
           (Some (create_params data))).

Definition read (self : t) (table_name : string) (conditions : option pydict)
    : M (list row) :=
    reraising
      (execute_query drv mods
         (read_query (placeholder self) table_name conditions)
         (read_params conditions)).

Definition update (self : t) (table_name : string) (data conditions : pydict)
    : M Z :=
    if dict_is_empty data then ret 0
    else if dict_is_empty conditions then
      raise (ValueError "Condições devem ser fornecidas para a operação UPDATE para evitar atualizações em massa não intencionais.")
    else
      reraising
        (execute_update drv mods
           (update_query (placeholder self) table_name data conditions)
           (Some (update_params data conditions))).

Definition delete (self : t) (table_name : string) (conditions : pydict) : M Z :=
    if dict_is_empty conditions then
      raise (ValueError "Condições devem ser fornecidas para a operação DELETE para evitar exclusões em massa não intencionais.")
    else
      reraising
        (execute_update drv mods
           (delete_query (placeholder self) table_name conditions)
           (Some (delete_params conditions))).




End Crud.

End CRUD.

(** ** Dictionaries whose order matters *)

(** [d.get(k)] on a dictionary given by its items in insertion order. *)
Fixpoint assoc_get {V} (k : string) (d : list (string * V)) : option V :=
  match d with
  | [] => None
  | (k', v) :: d' => if String.eqb k k' then Some v else assoc_get k d'
  end.

(** [d[k] = v]: an existing key keeps its place, a new one goes last. *)
Fixpoint assoc_set {V} (k : string) (v : V) (d : list (string * V)) : list (string * V) :=
  match d with
  | [] => [(k, v)]
  | (k', v') :: d' =>
      if String.eqb k k' then (k', v) :: d' else (k', v') :: assoc_set k v d'
  end.

(** ** [repr] of strings and of lists of strings *)

Definition backslash : ascii := Ascii.ascii_of_nat 92.
Definition single_quote : ascii := Ascii.ascii_of_nat 39.
Definition double_quote : ascii := Ascii.ascii_of_nat 34.

Fixpoint has_char (c : ascii) (s : string) : bool :=
  match s with
  | String c' s' => Ascii.eqb c c' || has_char c s'
  | EmptyString => false
  end.

Definition hex_digit (n : N) : ascii :=
  if (n <? 10)%N then Ascii.ascii_of_N (48 + n) else Ascii.ascii_of_N (87 + n).

(** One character inside the quotes: the quote and the backslash are
    escaped, control characters are written as escapes, the rest (the bytes
    of printable characters) stays. *)
Definition repr_char (quote c : ascii) : string :=
  let n := Ascii.N_of_ascii c in
  if Ascii.eqb c quote || Ascii.eqb c backslash then String backslash (String c "")
  else if (n =? 9)%N then String backslash "t"
  else if (n =? 10)%N then String backslash "n"
  else if (n =? 13)%N then String backslash "r"
  else if (n <? 32)%N || (n =? 127)%N then
    String backslash (String "x" (String (hex_digit (n / 16)) (String (hex_digit (n mod 16)) "")))
  else String c "".

Fixpoint repr_chars (quote : ascii) (s : string) : string :=
  match s with
  | String c s' => repr_char quote c +:+ repr_chars quote s'
  | EmptyString => EmptyString
  end.

(** [repr(s)]: single quotes, unless the string holds one and no double
    quote. *)
Definition py_repr_str (s : string) : string :=
  let quote :=
    if has_char single_quote s && negb (has_char double_quote s)
    then double_quote else single_quote in
  String quote (repr_chars quote s) +:+ String quote "".

(** [str(l)] for a list of strings. *)
Definition py_repr_list (l : list string) : string :=
  "[" +:+ join ", " (map py_repr_str l) +:+ "]".

(** ** The connection manager of [connectorDB.py]: loader, vault, factory *)

Module DBConnectionManager.

(** What the cipher answers to [f.decrypt(token).decode()]. *)
Inductive decryption :=
| Decrypted (plaintext : string)
| InvalidToken
| OtherFailure (msg : string).

(** What reading and parsing the configuration file gives. *)
Inductive loading :=
| Loaded (d : gmap string pyval)
| JSONDecodeError (msg : string)
| ReadFailure (msg : string).

(** The surroundings of the manager: the file system, the process
    environment and the [cryptography.fernet] module. [cipher] is the type of
    [Fernet] objects. *)
Record environment (cipher : Type) := {
  path_exists : string -> bool;
  path_is_file : string -> bool;
  load_json : string -> loading;
  (** [config_file_path.parent / "secret.key"] *)
  sibling_secret_key : string -> string;
  read_text : string -> outcome string;
  (** [os.getenv("DB_ENCRYPTION_KEY")] *)
  getenv_DB_ENCRYPTION_KEY : option string;
  Fernet : string -> outcome cipher;
  decrypt : cipher -> string -> decryption }.
Arguments path_exists {cipher} _ _.
Arguments path_is_file {cipher} _ _.
Arguments load_json {cipher} _ _.
Arguments sibling_secret_key {cipher} _ _.
Arguments read_text {cipher} _ _.
Arguments getenv_DB_ENCRYPTION_KEY {cipher} _.
Arguments Fernet {cipher} _ _.
Arguments decrypt {cipher} _ _ _.

(** Dictionaries are objects: the store maps the identity of each one to its
    present contents, and the manager holds two references into it. *)
Record state := {
  heap : gmap nat (gmap string pyval);
  config_file_path : string;
  raw_config : nat;
  decrypted_config : nat }.

(** A new dictionary object. *)
Definition alloc (d : gmap string pyval) (h : gmap nat (gmap string pyval))
  : nat * gmap nat (gmap string pyval) :=
  let l := fresh (dom h) in (l, <[l := d]> h).

(** The contents of the object [l] refers to. *)
Definition deref (h : gmap nat (gmap string pyval)) (l : nat) : gmap string pyval :=
  default ∅ (h !! l).

(** [copy.deepcopy(obj)]: a new object with the same (immutable) entries. *)
Definition deepcopy (l : nat) (h : gmap nat (gmap string pyval))
  : nat * gmap nat (gmap string pyval) :=
  alloc (deref h l) h.

(** [obj[k] = v], in place. *)
Definition setitem (l : nat) (k : string) (v : pyval) (h : gmap nat (gmap string pyval))
  : gmap nat (gmap string pyval) :=
  alter (fun d => <[k := v]> d) l h.

Definition set_heap (h : gmap nat (gmap string pyval)) (st : state) : state :=
  {| heap := h; config_file_path := config_file_path st;
     raw_config := raw_config st; decrypted_config := decrypted_config st |}.

Definition sensitive_keys : list string := ["password"; "user"; "database"; "host"].

Section Manager.
Context {cipher : Type} (env : environment cipher) (mods : modules).

(** [_load_config]: the parsed file becomes the object [raw_config] refers
    to. The warning about wide file permissions changes nothing and is left
    out, like every other log line. *)
Definition _load_config (st : state) : result unit * state :=
  let path := config_file_path st in
  if negb (path_exists env path) then
    (Raise (ConfigError ("Arquivo de configuração não encontrado: " +:+ path)), st)
  else if negb (path_is_file env path) then
    (Raise (ConfigError ("Caminho fornecido não é um arquivo: " +:+ path)), st)
  else
    match load_json env path with
    | Loaded d =>
        let (l, h) := alloc d (heap st) in
        (Ok tt, {| heap := h; config_file_path := path;
                   raw_config := l; decrypted_config := decrypted_config st |})
    | JSONDecodeError msg =>
        (Raise (ConfigError ("Erro ao analisar o JSON do arquivo de configuração: " +:+ msg)), st)
    | ReadFailure msg =>
        (Raise (ConfigError ("Erro ao ler o arquivo de configuração: " +:+ msg)), st)
    end.

(** The location of the key file: [key_file_path] of the configuration when
    it is set ([Path] wants a string), the sibling [secret.key] otherwise. *)
Definition secret_key_path_candidate (path : string) (raw : gmap string pyval)
  : result string :=
  let key_file_path_from_config := dict_get raw "key_file_path" in
  if truthy key_file_path_from_config then
    match key_file_path_from_config with
    | PStr s => Ok s
    | _ => Raise (TypeError "expected str, bytes or os.PathLike object")
    end
  else Ok (sibling_secret_key env path).

(** The key, from the key file, else from the environment, else from the
    configuration itself. [PNone] or an empty string: no key. *)
Definition resolve_key (path : string) (raw : gmap string pyval) : result pyval :=
  match secret_key_path_candidate path raw with
  | Raise e => Raise e
  | Ok candidate =>
      let from_file :=
        if path_exists env candidate && path_is_file env candidate then
          match read_text env candidate with
          | Returns s => Ok (PStr (strip s))
          | Throws msg =>
              Raise (SecurityError ("Erro ao ler o arquivo secret.key em '" +:+ candidate
                                    +:+ "': " +:+ msg))
          end
        else Ok PNone in
      match from_file with
      | Raise e => Raise e
      | Ok k1 =>
          let k2 :=
            if negb (truthy k1) then
              match getenv_DB_ENCRYPTION_KEY env with
              | Some s => PStr s
              | None => PNone
              end
            else k1 in
          let k3 := if negb (truthy k2) then dict_get raw "encryption_key" else k2 in
          Ok k3
      end
  end.

(** One turn of the loop over [sensitive_keys]. The value is read from the
    object [raw_config] refers to; the result is written into the object
    [decrypted_config] refers to. *)
Definition decrypt_field (f : cipher) (st : state) (key : string) : state :=
  let current_value := dict_get (deref (heap st) (raw_config st)) key in
  match current_value with
  | PStr s =>
      if startswith "ENC:" s then
        match decrypt env f (drop_string 4 s) with
        | Decrypted decoded_value =>
            set_heap (setitem (decrypted_config st) key (PStr decoded_value) (heap st)) st
        | InvalidToken =>
            set_heap (setitem (decrypted_config st) key PNone (heap st)) st
        | OtherFailure _ =>
            set_heap (setitem (decrypted_config st) key PNone (heap st)) st
        end
      else st
  | _ => st
  end.

Definition fernet_message (msg : string) : string :=
  "Erro ao inicializar Fernet com a chave fornecida: " +:+ msg
  +:+ ". Verifique se a chave é válida ou o formato Base64.".

(** [_decrypt_config]. *)
Definition _decrypt_config (st : state) : result unit * state :=
  let (l, h) := deepcopy (raw_config st) (heap st) in
  let st := {| heap := h; config_file_path := config_file_path st;
               raw_config := raw_config st; decrypted_config := l |} in
  match resolve_key (config_file_path st) (deref (heap st) (raw_config st)) with
  | Raise e => (Raise e, st)
  | Ok encryption_key_b64 =>
      if truthy encryption_key_b64 then
        match encryption_key_b64 with
        | PStr k =>
            match Fernet env k with
            | Returns f => (Ok tt, foldl (decrypt_field f) st sensitive_keys)
            | Throws msg => (Raise (SecurityError (fernet_message msg)), st)
            end
        | _ =>
            (Raise (SecurityError (fernet_message "object has no attribute 'encode'")), st)
        end
      else (Ok tt, st)
  end.

(** [__init__]: two empty dictionaries, then the two steps. *)
Definition __init__ (path : string) (h : gmap nat (gmap string pyval))
  : result unit * state :=
  let (l1, h1) := alloc ∅ h in
  let (l2, h2) := alloc ∅ h1 in
  let st := {| heap := h2; config_file_path := path;
               raw_config := l1; decrypted_config := l2 |} in
  match _load_config st with
  | (Ok _, st1) => _decrypt_config st1
  | (Raise e, st1) => (Raise e, st1)
  end.

Definition _CONNECTOR_MAP : list (string * dialect) :=
  [("firebird", Firebird); ("mysql", MySQL); ("postgresql", PostgreSQL)].

(** [get_connector]: the connector object, not yet connected. *)
Definition get_connector (st : state) : result world :=
  let decrypted := deref (heap st) (decrypted_config st) in
  match dict_get_default decrypted "db_type" (PStr "") with
  | PStr s =>
      let db_type := lower s in
      match assoc_get db_type _CONNECTOR_MAP with
      | None =>
          Raise (ConfigError ("Tipo de banco de dados '" +:+ db_type
                              +:+ "' não suportado ou configurado incorretamente."))
      | Some connector_class =>
          if String.eqb db_type "firebird" && negb (fdb_available mods) then
            Raise (ImportError "Driver Firebird (firebird.driver) não está disponível. Por favor, instale-o.")
          else if String.eqb db_type "mysql" && negb (mysql_connector_available mods) then
            Raise (ImportError "Driver MySQL (mysql-connector-python) não está disponível. Por favor, instale-o.")
          else if String.eqb db_type "postgresql" && negb (psycopg2_available mods) then
            Raise (ImportError "Driver PostgreSQL (psycopg2-binary) não está disponível. Por favor, instale-o.")
          else IDBConnector_init connector_class decrypted
      end
  | _ => Raise (AttributeError "object has no attribute 'lower'")
  end.

End Manager.

End DBConnectionManager.

(** ** The registry of [connector_manager.py] *)

Module connector_manager.

Section Registry.
(** The connector classes that can be registered, and what calling one on
    the keyword arguments [db_config], then [connect()], gives. *)
Context {connector_class connector : Type}.
Context (instantiate_and_connect : connector_class -> gmap string pyval -> result connector).

(** [_connectors] as the class body leaves it: a built-in connector is
    registered only if its module, which imports the driver, could be
    imported. *)
Definition initial_connectors (mods : modules)
    (FirebirdConnector MySQLConnector PostgreSQLConnector : connector_class)
  : list (string * connector_class) :=
  let c0 := [] in
  let c1 := if fdb_available mods then assoc_set "firebird" FirebirdConnector c0 else c0 in
  let c2 := if mysql_connector_available mods then assoc_set "mysql" MySQLConnector c1 else c1 in
  let c3 := if psycopg2_available mods then assoc_set "postgres" PostgreSQLConnector c2 else c2 in
  c3.

Definition register_connector (db_type : string) (cls : connector_class)
    (_connectors : list (string * connector_class)) : list (string * connector_class) :=
  assoc_set (lower db_type) cls _connectors.

Definition get_connector (_connectors : list (string * connector_class))
    (db_type : string) (db_config : gmap string pyval) : result connector :=
  match assoc_get (lower db_type) _connectors with
  | None =>
      Raise (ValueError ("Tipo de banco de dados '" +:+ db_type
                         +:+ "' não suportado ou conector não disponível. Conectores disponíveis: "
                         +:+ py_repr_list (map fst _connectors)))
  | Some cls =>
      match instantiate_and_connect cls db_config with
      | Ok c => Ok c
      | Raise e =>
          Raise (DatabaseError ("Não foi possível conectar ao banco de dados " +:+ db_type
                                +:+ ": " +:+ exn_str e))
      end
  end.

End Registry.

End connector_manager.

(** ** Introspection: from catalog rows to metadata *)

Definition result_bind {A B} (r : result A) (k : A -> result B) : result B :=
  match r with
  | Ok a => k a
  | Raise e => Raise e
  end.

Notation "'let*' x := r 'in' k" := (result_bind r (fun x => k))
  (at level 10, x name, r at level 100, k at level 200).

(** A [for] loop that builds one record per row and stops at the first
    exception. *)
Fixpoint result_map {A B} (f : A -> result B) (l : list A) : result (list B) :=
  match l with
  | [] => Ok []
  | a :: l' =>
      let* b := f a in
      let* bs := result_map f l' in
      Ok (b :: bs)
  end.

(** [row[i]] for a row that is expected to be a tuple. *)
Definition tuple_item (r : row) (i : nat) : result pyval :=
  match r with
  | RowTuple cells =>
      match cells !! i with
      | Some v => Ok v
      | None => Raise (IndexError "tuple index out of range")
      end
  | RowDict _ => Raise (KeyError (pretty i))
  end.

(** [row[k]] for a record. *)
Definition dict_item (cells : gmap string pyval) (k : string) : result pyval :=
  match cells !! k with
  | Some v => Ok v
  | None => Raise (KeyError k)
  end.

(** [bool(row)]. *)
Definition row_truthy (r : row) : bool :=
  match r with
  | RowTuple cells => match cells with [] => false | _ => true end
  | RowDict cells => negb (bool_decide (cells = ∅))
  end.

(** [v == n] for an integer literal [n]. *)
Definition py_eq_int (v : pyval) (n : Z) : bool :=
  match v with
  | PInt z => z =? n
  | PBool b => (if b then 1 else 0) =? n
  | _ => false
  end.

(** [str(v).strip() if v else None]. *)
Definition stripped_if_truthy (v : pyval) : option string :=
  if truthy v then Some (strip (py_str v)) else None.

(** [str(v) if v is not None else None]. *)
Definition str_unless_None (v : pyval) : option string :=
  match v with
  | PNone => None
  | _ => Some (py_str v)
  end.

(** [f(d[k])] applied in place, for a key that is present. *)
Fixpoint assoc_alter {V} (f : V -> V) (k : string) (d : list (string * V))
  : list (string * V) :=
  match d with
  | [] => []
  | (k', v) :: d' =>
      if String.eqb k k' then (k', f v) :: d' else (k', v) :: assoc_alter f k d'
  end.

(** [if k not in d: d[k] = v]. *)
Definition assoc_setdefault {V} (k : string) (v : V) (d : list (string * V))
  : list (string * V) :=
  match assoc_get k d with
  | Some _ => d
  | None => assoc_set k v d
  end.

(** The two statements that end the body of every index loop: a new index
    starts with no column, then the column of the row is appended. *)
Definition index_add_column (fresh_index : IndexMetadata.t) (col_name : string)
    (indexes : list (string * IndexMetadata.t)) : list (string * IndexMetadata.t) :=
  let idx_name := IndexMetadata.name fresh_index in
  assoc_alter
    (fun ix => IndexMetadata.mk (IndexMetadata.name ix)
                 (IndexMetadata.columns ix ++ [col_name])
                 (IndexMetadata.is_unique ix) (IndexMetadata.is_primary ix)
                 (IndexMetadata.type ix))
    idx_name (assoc_setdefault idx_name fresh_index indexes).

(** The UTF-8 bytes of a code point. *)
Definition utf8 (n : Z) : string :=
  let byte (z : Z) := Ascii.ascii_of_N (Z.to_N z) in
  if n <? 128 then String (byte n) ""
  else if n <? 2048 then
    String (byte (192 + n / 64)) (String (byte (128 + n mod 64)) "")
  else if n <? 65536 then
    String (byte (224 + n / 4096))
      (String (byte (128 + (n / 64) mod 64)) (String (byte (128 + n mod 64)) ""))
  else
    String (byte (240 + n / 262144))
      (String (byte (128 + (n / 4096) mod 64))
         (String (byte (128 + (n / 64) mod 64)) (String (byte (128 + n mod 64)) ""))).

(** [chr(v)]. *)
Definition py_chr (v : pyval) : result string :=
  let of_int (n : Z) :=
    if (0 <=? n) && (n <? 1114112) then Ok (utf8 n)
    else Raise (ValueError "chr() arg not in range(0x110000)") in
  match v with
  | PInt n => of_int n
  | PBool b => of_int (if b then 1 else 0)
  | PStr _ => Raise (TypeError "'str' object cannot be interpreted as an integer")
  | PNone => Raise (TypeError "'NoneType' object cannot be interpreted as an integer")
  end.

Module FirebirdConnector.

Definition _map_firebird_type (field_type field_sub_type : Z) : string :=
  if field_type =? 23 then "BOOLEAN"
  else if (field_type =? 7) && (field_sub_type =? 1) then "BOOLEAN"
  else
    match field_type with
    | 7 => "SMALLINT" | 8 => "INTEGER" | 10 => "FLOAT" | 12 => "DATE"
    | 13 => "TIME" | 14 => "CHAR" | 16 => "BIGINT"
    | 27 => "DOUBLE PRECISION" | 35 => "TIMESTAMP" | 37 => "VARCHAR"
    | 261 => "BLOB"
    | _ => "UNKNOWN"
    end.

Definition query_columns : string := "
            SELECT rf.RDB$FIELD_NAME,
                    f.RDB$FIELD_TYPE,
                    f.RDB$FIELD_LENGTH,
                    f.RDB$FIELD_PRECISION,
                    f.RDB$FIELD_SCALE,
                    rf.RDB$NULL_FLAG,
                    rf.RDB$DEFAULT_SOURCE,
                    rf.RDB$DESCRIPTION,
                    f.RDB$FIELD_SUB_TYPE
            FROM RDB$RELATION_FIELDS rf
                JOIN RDB$FIELDS f ON rf.RDB$FIELD_SOURCE = f.RDB$FIELD_NAME
            WHERE rf.RDB$RELATION_NAME = ?
            ORDER BY rf.RDB$FIELD_POSITION;
            ".

Definition query_pk : string := "
            SELECT s.RDB$FIELD_NAME
            FROM RDB$RELATION_CONSTRAINTS rc
                JOIN RDB$INDEX_SEGMENTS s ON rc.RDB$INDEX_NAME = s.RDB$INDEX_NAME
            WHERE rc.RDB$RELATION_NAME = ?
              AND rc.RDB$CONSTRAINT_TYPE = 'PRIMARY KEY';
            ".

Definition query_fk : string := "
            SELECT rc.RDB$CONSTRAINT_NAME         AS name,
                   TRIM(s.RDB$FIELD_NAME)         AS column_name,
                   TRIM(refc.RDB$RELATION_NAME) AS referenced_table_name,
                   TRIM(refs.RDB$FIELD_NAME)    AS referenced_column_name,
                   ref.RDB$UPDATE_RULE          AS on_update_raw,
                   ref.RDB$DELETE_RULE          AS on_delete_raw
            FROM RDB$RELATION_CONSTRAINTS rc
                JOIN RDB$INDICES i ON rc.RDB$INDEX_NAME = i.RDB$INDEX_NAME
                JOIN RDB$INDEX_SEGMENTS s ON i.RDB$INDEX_NAME = s.RDB$INDEX_NAME
                LEFT JOIN RDB$REF_CONSTRAINTS ref ON rc.RDB$CONSTRAINT_NAME = ref.RDB$CONSTRAINT_NAME
                LEFT JOIN RDB$RELATION_CONSTRAINTS refc ON ref.RDB$CONST_NAME_UQ = refc.RDB$CONSTRAINT_NAME
                LEFT JOIN RDB$INDICES refi ON refc.RDB$INDEX_NAME = refi.RDB$INDEX_NAME
                LEFT JOIN RDB$INDEX_SEGMENTS refs ON refi.RDB$INDEX_NAME = refs.RDB$INDEX_NAME
            WHERE rc.RDB$CONSTRAINT_TYPE = 'FOREIGN KEY'
              AND rc.RDB$RELATION_NAME = ?
            ORDER BY rc.RDB$CONSTRAINT_NAME, s.RDB$FIELD_POSITION;
            ".

Definition query_indexes : string := "
            SELECT i.RDB$INDEX_NAME,
                    s.RDB$FIELD_NAME,
                    i.RDB$UNIQUE_FLAG,
                    rc.RDB$CONSTRAINT_TYPE
            FROM RDB$INDICES i
                JOIN RDB$INDEX_SEGMENTS s ON i.RDB$INDEX_NAME = s.RDB$INDEX_NAME
                LEFT JOIN RDB$RELATION_CONSTRAINTS rc ON i.RDB$INDEX_NAME = rc.RDB$INDEX_NAME
            WHERE i.RDB$RELATION_NAME = ?
            ORDER BY i.RDB$INDEX_NAME, s.RDB$FIELD_POSITION;
            ".

Definition count_query (table_name : string) : string :=
  "SELECT COUNT(" +:+ "*) FROM " +:+ String double_quote (upper table_name)
  +:+ String double_quote "".

Definition comment_query : string := "
                SELECT RDB$DESCRIPTION
                FROM RDB$RELATIONS
                WHERE RDB$RELATION_NAME = ?;
            ".

(** The body of the loop over the rows of [query_columns]. *)
Definition column_of_row (r : row) : result ColumnMetadata.t :=
  let* c0 := tuple_item r 0 in
  let col_name := strip (py_str c0) in
  let* c1 := tuple_item r 1 in
  let* field_type := py_int c1 in
  let* c2 := tuple_item r 2 in
  let field_length := _safe_int_conversion c2 in
  let* c3 := tuple_item r 3 in
  let field_precision := _safe_int_conversion c3 in
  let* c4 := tuple_item r 4 in
  let field_scale := _safe_int_conversion c4 in
  let* c5 := tuple_item r 5 in
  let is_nullable := py_eq_int c5 0 in
  let* c6 := tuple_item r 6 in
  let default_value := stripped_if_truthy c6 in
  let* c7 := tuple_item r 7 in
  let comment := stripped_if_truthy c7 in
  let* c8 := tuple_item r 8 in
  let* field_sub_type := match c8 with PNone => Ok 0 | _ => py_int c8 end in
  let col_type_str := _map_firebird_type field_type field_sub_type in
  let num_precision := field_precision in
  let num_scale :=
    match field_scale with
    | Some num_scale => Some (- num_scale)
    | None => None
    end in
  Ok (ColumnMetadata.mk col_name col_type_str is_nullable default_value field_length
        num_precision num_scale false false comment).

(** [[str(row[0]).strip() for row in results_pk if isinstance(row, tuple)]]. *)
Fixpoint primary_keys_of_rows (rows : list row) : result (list string) :=
  match rows with
  | [] => Ok []
  | RowTuple cells :: rows' =>
      let* c0 := tuple_item (RowTuple cells) 0 in
      let* ks := primary_keys_of_rows rows' in
      Ok (strip (py_str c0) :: ks)
  | RowDict _ :: rows' => primary_keys_of_rows rows'
  end.

(** [fk_action_map.get(raw, 'UNKNOWN')]. *)
Definition fk_action (raw : string) : string :=
  if bool_decide (raw ∈ ["CASCADE"; "SET NULL"; "SET DEFAULT"; "NO ACTION"; "RESTRICT"])
  then raw else "UNKNOWN".

(** The body of the loop over the rows of [query_fk], up to the test on
    [foreign_keys_dict]: the record the row would give. *)
Definition foreign_key_of_row (r : row) : result ForeignKeyMetadata.t :=
  let* fk_name_raw := tuple_item r 0 in
  let fk_name := if truthy fk_name_raw then strip (py_str fk_name_raw) else "UNNAMED_FK" in
  let* c1 := tuple_item r 1 in
  let local_col := strip (py_str c1) in
  let* c2 := tuple_item r 2 in
  let referenced_table := strip (py_str c2) in
  let* c3 := tuple_item r 3 in
  let referenced_column := strip (py_str c3) in
  let* c4 := tuple_item r 4 in
  let on_update_raw_val := if truthy c4 then strip (py_str c4) else "" in
  let* c5 := tuple_item r 5 in
  let on_delete_raw_val := if truthy c5 then strip (py_str c5) else "" in
  let on_update := fk_action on_update_raw_val in
  let on_delete := fk_action on_delete_raw_val in
  Ok (ForeignKeyMetadata.mk fk_name local_col referenced_table referenced_column
        (Some on_update) (Some on_delete)).

(** The loop: a constraint name already in [foreign_keys_dict] is left as
    it is. *)
Fixpoint foreign_keys_loop (rows : list row)
    (foreign_keys_dict : list (string * ForeignKeyMetadata.t))
  : result (list (string * ForeignKeyMetadata.t)) :=
  match rows with
  | [] => Ok foreign_keys_dict
  | r :: rows' =>
      let* fk := foreign_key_of_row r in
      foreign_keys_loop rows'
        (assoc_setdefault (ForeignKeyMetadata.name fk) fk foreign_keys_dict)
  end.

(** [list(foreign_keys_dict.values())] after the loop. *)
Definition foreign_keys_of_rows (rows : list row) : result (list ForeignKeyMetadata.t) :=
  let* foreign_keys_dict := foreign_keys_loop rows [] in
  Ok (map snd foreign_keys_dict).

Definition index_step (indexes : list (string * IndexMetadata.t)) (r : row)
  : result (list (string * IndexMetadata.t)) :=
  let* c0 := tuple_item r 0 in
  let idx_name := strip (py_str c0) in
  let* c1 := tuple_item r 1 in
  let col_name := strip (py_str c1) in
  let* c2 := tuple_item r 2 in
  let is_unique := py_eq_int c2 1 in
  let* c3 := tuple_item r 3 in
  let constraint_type := stripped_if_truthy c3 in
  let is_primary := bool_decide (constraint_type = Some "PRIMARY KEY") in
  Ok (index_add_column
        (IndexMetadata.mk idx_name [] is_unique is_primary (Some "B-tree"))
        col_name indexes).

Fixpoint indexes_loop (rows : list row) (indexes : list (string * IndexMetadata.t))
  : result (list (string * IndexMetadata.t)) :=
  match rows with
  | [] => Ok indexes
  | r :: rows' =>
      let* indexes' := index_step indexes r in
      indexes_loop rows' indexes'
  end.

(** The first cell of the first row, when that row is a tuple that is not
    empty. *)
Definition first_cell (rows : list row) : option pyval :=
  match rows with
  | RowTuple (c :: _) :: _ => Some c
  | _ => None
  end.

Section Introspection.
Context (drv : driver) (mods : modules).

Definition get_table_metadata (table_name : string) : M TableMetadata.t :=
  let table := upper table_name in
  do results_columns <- execute_query drv mods query_columns (Some [PStr table]);
  match results_columns with
  | [] =>
      raise (ValueError ("Tabela '" +:+ table
                         +:+ "' não encontrada ou sem colunas acessíveis no Firebird."))
  | _ :: _ =>
      do columns <- lift (result_map column_of_row results_columns);
      do results_pk <- execute_query drv mods query_pk (Some [PStr table]);
      do primary_keys <- lift (primary_keys_of_rows results_pk);
      do results_fk <- execute_query drv mods query_fk (Some [PStr table]);
      do foreign_keys <- lift (foreign_keys_of_rows results_fk);
      do results_indexes <- execute_query drv mods query_indexes (Some [PStr table]);
      do indexes <- lift (indexes_loop results_indexes []);
      do row_count <-
        try_except
          (do count_result <- execute_query drv mods (count_query table_name) None;
           ret (match first_cell count_result with
                | Some c => _safe_int_conversion c
                | None => None
                end))
          (fun _ => ret None);
      do table_comment <-
        try_except
          (do comment_result <- execute_query drv mods comment_query (Some [PStr table]);
           ret (match first_cell comment_result with
                | Some c => stripped_if_truthy c
                | None => None
                end))
          (fun _ => ret None);
      ret (TableMetadata.mk table columns primary_keys foreign_keys (map snd indexes)
             None row_count table_comment)
  end.

End Introspection.

End FirebirdConnector.

Module MySQLConnector.

Definition table_info_query : string := "
            SELECT
                data_length + index_length AS total_bytes,
                table_rows,
                table_comment
            FROM information_schema.tables
            WHERE table_schema = %s AND table_name = %s;
        ".

Definition columns_query : string := "
            SELECT
                COLUMN_NAME,
                COLUMN_TYPE AS DATA_TYPE,
                IS_NULLABLE,
                COLUMN_DEFAULT,
                CHARACTER_MAXIMUM_LENGTH,
                NUMERIC_PRECISION,
                NUMERIC_SCALE,
                COLUMN_KEY,
                EXTRA,
                COLUMN_COMMENT
            FROM information_schema.columns
            WHERE table_schema = %s AND table_name = %s
            ORDER BY ORDINAL_POSITION;
        ".

Definition fk_query : string := "
            SELECT
                kcu.CONSTRAINT_NAME,
                kcu.COLUMN_NAME,
                kcu.REFERENCED_TABLE_NAME,
                kcu.REFERENCED_COLUMN_NAME,
                rc.UPDATE_RULE,
                rc.DELETE_RULE
            FROM information_schema.KEY_COLUMN_USAGE kcu
            JOIN information_schema.REFERENTIAL_CONSTRAINTS rc
                ON kcu.CONSTRAINT_SCHEMA = rc.CONSTRAINT_SCHEMA
                AND kcu.CONSTRAINT_NAME = rc.CONSTRAINT_NAME
            WHERE kcu.REFERENCED_TABLE_SCHEMA = %s
              AND kcu.TABLE_NAME = %s
              AND kcu.REFERENCED_TABLE_NAME IS NOT NULL;
        ".

Definition indexes_query : string := "
            SELECT
                INDEX_NAME,
                COLUMN_NAME,
                NON_UNIQUE,
                INDEX_TYPE
            FROM information_schema.statistics
            WHERE TABLE_SCHEMA = %s AND TABLE_NAME = %s
            ORDER BY INDEX_NAME, SEQ_IN_INDEX;
        ".

(** The cells of a row that must be a record. *)
Definition as_dict (what : string) (r : row) : result (gmap string pyval) :=
  match r with
  | RowDict cells => Ok cells
  | RowTuple _ => Raise (TypeError what)
  end.

(** [table_info], from the rows of [table_info_query]. *)
Definition table_info_of_rows (rows : list row)
  : option Z * option Z * option string :=
  match rows with
  | RowDict first_row :: _ =>
      (_safe_int_conversion (dict_get first_row "total_bytes"),
       _safe_int_conversion (dict_get first_row "table_rows"),
       str_unless_None (dict_get first_row "table_comment"))
  | _ => (None, None, None)
  end.

(** The body of the loop over the rows of [columns_query]. *)
Definition column_of_row (r : row) : result ColumnMetadata.t :=
  let* row := as_dict "Os resultados da consulta de colunas MySQL não foram dicionários." r in
  let* c_name := dict_item row "COLUMN_NAME" in
  let col_name := py_str c_name in
  let* c_type := dict_item row "DATA_TYPE" in
  let col_type_str := py_str c_type in
  let* c_null := dict_item row "IS_NULLABLE" in
  let is_nullable := String.eqb (py_str c_null) "YES" in
  let* c_default := dict_item row "COLUMN_DEFAULT" in
  let default_value := str_unless_None c_default in
  let* c_len := dict_item row "CHARACTER_MAXIMUM_LENGTH" in
  let max_length := _safe_int_conversion c_len in
  let* c_prec := dict_item row "NUMERIC_PRECISION" in
  let num_precision := _safe_int_conversion c_prec in
  let* c_scale := dict_item row "NUMERIC_SCALE" in
  let num_scale := _safe_int_conversion c_scale in
  let* c_comment := dict_item row "COLUMN_COMMENT" in
  let comment := str_unless_None c_comment in
  let column_key := py_str (dict_get_default row "COLUMN_KEY" (PStr "")) in
  let is_pk := contains "PRI" column_key in
  let is_unique_col :=
    contains "UNI" column_key
    || (if truthy (dict_get row "EXTRA")
        then contains "PRIMARY" (py_str (dict_get_default row "EXTRA" (PStr "")))
        else false) in
  Ok (ColumnMetadata.mk col_name col_type_str is_nullable default_value max_length
        num_precision num_scale is_pk is_unique_col comment).

(** [primary_keys]: the names of the columns flagged [is_pk], in order. *)
Definition primary_keys_of_columns (columns : list ColumnMetadata.t) : list string :=
  map ColumnMetadata.name (filter (fun c => ColumnMetadata.is_primary_key c = true) columns).

(** The body of the loop over the rows of [fk_query]: every row appends a
    record. *)
Definition foreign_key_of_row (r : row) : result ForeignKeyMetadata.t :=
  let* row := as_dict "Os resultados da consulta de chaves estrangeiras MySQL não foram dicionários." r in
  let* c_name := dict_item row "CONSTRAINT_NAME" in
  let* c_col := dict_item row "COLUMN_NAME" in
  let* c_table := dict_item row "REFERENCED_TABLE_NAME" in
  let* c_rcol := dict_item row "REFERENCED_COLUMN_NAME" in
  let* c_upd := dict_item row "UPDATE_RULE" in
  let* c_del := dict_item row "DELETE_RULE" in
  Ok (ForeignKeyMetadata.mk (py_str c_name) (py_str c_col) (py_str c_table) (py_str c_rcol)
        (Some (py_str c_upd)) (Some (py_str c_del))).

Definition foreign_keys_of_rows (rows : list row) : result (list ForeignKeyMetadata.t) :=
  result_map foreign_key_of_row rows.

Definition index_step (indexes : list (string * IndexMetadata.t)) (r : row)
  : result (list (string * IndexMetadata.t)) :=
  let* row := as_dict "Os resultados da consulta de índices MySQL não foram dicionários." r in
  let* c_name := dict_item row "INDEX_NAME" in
  let idx_name := py_str c_name in
  let* c_col := dict_item row "COLUMN_NAME" in
  let col_name := py_str c_col in
  let* c_non_unique := dict_item row "NON_UNIQUE" in
  let is_unique := py_eq_int c_non_unique 0 in
  let* c_type := dict_item row "INDEX_TYPE" in
  let idx_type := py_str c_type in
  Ok (index_add_column
        (IndexMetadata.mk idx_name [] is_unique (String.eqb idx_name "PRIMARY") (Some idx_type))
        col_name indexes).

Fixpoint indexes_loop (rows : list row) (indexes : list (string * IndexMetadata.t))
  : result (list (string * IndexMetadata.t)) :=
  match rows with
  | [] => Ok indexes
  | r :: rows' =>
      let* indexes' := index_step indexes r in
      indexes_loop rows' indexes'
  end.

Section Introspection.
Context (drv : driver) (mods : modules).

(** [self.config['database']]. *)
Definition config_database : M pyval :=
  do cfg <- gets config;
  lift (dict_item cfg "database").

Definition get_table_metadata (table_name : string) : M TableMetadata.t :=
  do database <- config_database;
  do table_info_results <-
    execute_query drv mods table_info_query (Some [database; PStr table_name]);
  let '(total_bytes, row_count, table_comment) := table_info_of_rows table_info_results in
  do database <- config_database;
  do columns_results <-
    execute_query drv mods columns_query (Some [database; PStr table_name]);
  match columns_results with
  | [] =>
      raise (ValueError ("Tabela '" +:+ table_name
                         +:+ "' não encontrada ou sem colunas acessíveis no MySQL."))
  | _ :: _ =>
      do columns <- lift (result_map column_of_row columns_results);
      let primary_keys := primary_keys_of_columns columns in
      do database <- config_database;
      do fk_results <- execute_query drv mods fk_query (Some [database; PStr table_name]);
      do foreign_keys <- lift (foreign_keys_of_rows fk_results);
      do database <- config_database;
      do indexes_results <-
        execute_query drv mods indexes_query (Some [database; PStr table_name]);
      do indexes <- lift (indexes_loop indexes_results []);
      ret (TableMetadata.mk table_name columns primary_keys foreign_keys (map snd indexes)
             total_bytes row_count table_comment)
  end.

End Introspection.

End MySQLConnector.

Module PostgreSQLConnector.

Definition exact_table_name_query : string := "
                    SELECT relname
                    FROM pg_class
                    WHERE relname = %s
                      AND relkind = 'r'
                      AND relnamespace = (SELECT oid FROM pg_namespace WHERE nspname = %s);
                    ".

Definition table_info_query : string := "
                    SELECT pg_total_relation_size(CAST(%s AS regclass))   AS total_bytes,
                           obj_description(CAST(%s AS regclass), 'pg_class') AS table_comment,
                           reltuples                                  AS row_count
                    FROM pg_class
                    WHERE relname = %s
                      AND relnamespace = (SELECT oid FROM pg_namespace WHERE nspname = %s);
                    ".

Definition columns_query : string := "
                    SELECT c.column_name,
                           c.data_type,
                           c.is_nullable,
                           c.column_default,
                           c.character_maximum_length,
                           c.numeric_precision,
                           c.numeric_scale,
                           pg_catalog.col_description(cc.oid, c.ordinal_position) as column_comment,
                           EXISTS (SELECT 1
                                   FROM pg_index i
                                        JOIN pg_attribute a ON a.attrelid = i.indrelid AND a.attnum = ANY (i.indkey)
                                   WHERE i.indrelid = CAST(%s AS regclass) AND i.indisprimary AND a.attname = c.column_name) AS is_primary_key,
                           EXISTS (SELECT 1
                                   FROM pg_index i
                                        JOIN pg_attribute a ON a.attrelid = i.indrelid AND a.attnum = ANY (i.indkey)
                                   WHERE i.indrelid = CAST(%s AS regclass) AND i.indisunique AND a.attname = c.column_name)   AS is_unique
                    FROM information_schema.columns c
                         JOIN pg_class cc ON cc.relname = c.table_name
                         JOIN pg_namespace n ON n.oid = cc.relnamespace
                    WHERE c.table_name = %s
                      AND n.nspname = %s
                    ORDER BY c.ordinal_position;
                    ".

Definition primary_keys_query : string := "
                    SELECT a.attname
                    FROM pg_index i
                         JOIN pg_attribute a ON a.attrelid = i.indrelid AND a.attnum = ANY (i.indkey)
                    WHERE i.indrelid = CAST(%s AS regclass) AND i.indisprimary;
                    ".

Definition foreign_keys_query : string := "
                    SELECT con.conname,
                           att.attname   AS column_name,
                           cl2.relname   AS referenced_table_name,
                           att2.attname  AS referenced_column_name,
                           con.confupdtype,
                           con.confdeltype
                    FROM pg_constraint con
                         JOIN pg_class cl ON con.conrelid = cl.oid
                         JOIN pg_class cl2 ON con.confrelid = cl2.oid
                         JOIN pg_attribute att ON att.attrelid = con.conrelid AND att.attnum = ANY (con.conkey)
                         JOIN pg_attribute att2 ON att2.attrelid = con.confrelid AND att2.attnum = ANY (con.confkey)
                    WHERE con.contype = 'f'
                      AND cl.relname = %s;
                    ".

Definition indexes_query : string := "
                    SELECT i.relname   AS index_name,
                           a.attname   AS column_name,
                           ix.indisunique  AS is_unique,
                           ix.indisprimary AS is_primary,
                           am.amname   AS index_type
                    FROM pg_index ix
                         JOIN pg_class i ON i.oid = ix.indexrelid
                         JOIN pg_class t ON t.oid = ix.indrelid
                         JOIN pg_attribute a ON a.attrelid = t.oid AND a.attnum = ANY (ix.indkey)
                         JOIN pg_am am ON am.oid = i.relam
                    WHERE t.relname = %s
                    ORDER BY i.relname, array_position(ix.indkey, a.attnum);
                    ".

Definition as_dict (what : string) (r : row) : result (gmap string pyval) :=
  match r with
  | RowDict cells => Ok cells
  | RowTuple _ => Raise (TypeError what)
  end.

Definition column_of_row (r : row) : result ColumnMetadata.t :=
  let* row := as_dict "Os resultados da consulta de colunas PostgreSQL não foram dicionários." r in
  let* c_name := dict_item row "column_name" in
  let col_name := py_str c_name in
  let* c_type := dict_item row "data_type" in
  let col_type_str := py_str c_type in
  let* c_null := dict_item row "is_nullable" in
  let is_nullable := String.eqb (py_str c_null) "YES" in
  let* c_default := dict_item row "column_default" in
  let default_value := str_unless_None c_default in
  let* c_len := dict_item row "character_maximum_length" in
  let max_length := _safe_int_conversion c_len in
  let* c_prec := dict_item row "numeric_precision" in
  let num_precision := _safe_int_conversion c_prec in
  let* c_scale := dict_item row "numeric_scale" in
  let num_scale := _safe_int_conversion c_scale in
  let* c_comment := dict_item row "column_comment" in
  let comment := str_unless_None c_comment in
  let* c_pk := dict_item row "is_primary_key" in
  let is_primary_key := truthy c_pk in
  let* c_unique := dict_item row "is_unique" in
  let is_unique := truthy c_unique in
  Ok (ColumnMetadata.mk col_name col_type_str is_nullable default_value max_length
        num_precision num_scale is_primary_key is_unique comment).

(** [[str(row['attname']) for row in results if isinstance(row, dict)]]. *)
Fixpoint primary_keys_of_rows (rows : list row) : result (list string) :=
  match rows with
  | [] => Ok []
  | RowDict row :: rows' =>
      let* c := dict_item row "attname" in
      let* ks := primary_keys_of_rows rows' in
      Ok (py_str c :: ks)
  | RowTuple _ :: rows' => primary_keys_of_rows rows'
  end.

(** [fk_actions.get(code, 'UNKNOWN')]. *)
Definition fk_actions (code : string) : string :=
  if String.eqb code "a" then "NO ACTION"
  else if String.eqb code "r" then "RESTRICT"
  else if String.eqb code "c" then "CASCADE"
  else if String.eqb code "n" then "SET NULL"
  else if String.eqb code "d" then "SET DEFAULT"
  else "UNKNOWN".

(** The body of the loop of [_get_foreign_keys]: every row appends a
    record. *)
Definition foreign_key_of_row (r : row) : result ForeignKeyMetadata.t :=
  let* row := as_dict "Os resultados da consulta de chaves estrangeiras PostgreSQL não foram dicionários." r in
  let* c_upd := dict_item row "confupdtype" in
  let* upd := py_chr c_upd in
  let on_update := fk_actions upd in
  let* c_del := dict_item row "confdeltype" in
  let* del := py_chr c_del in
  let on_delete := fk_actions del in
  let* c_name := dict_item row "conname" in
  let* c_col := dict_item row "column_name" in
  let* c_table := dict_item row "referenced_table_name" in
  let* c_rcol := dict_item row "referenced_column_name" in
  Ok (ForeignKeyMetadata.mk (py_str c_name) (py_str c_col) (py_str c_table) (py_str c_rcol)
        (Some on_update) (Some on_delete)).

Definition foreign_keys_of_rows (rows : list row) : result (list ForeignKeyMetadata.t) :=
  result_map foreign_key_of_row rows.

Definition index_step (indexes : list (string * IndexMetadata.t)) (r : row)
  : result (list (string * IndexMetadata.t)) :=
  let* row := as_dict "Os resultados da consulta de índices PostgreSQL não foram dicionários." r in
  let* c_name := dict_item row "index_name" in
  let idx_name := py_str c_name in
  let* c_col := dict_item row "column_name" in
  let col_name := py_str c_col in
  let* c_unique := dict_item row "is_unique" in
  let is_unique := truthy c_unique in
  let* c_primary := dict_item row "is_primary" in
  let is_primary := truthy c_primary in
  let* c_type := dict_item row "index_type" in
  let idx_type := py_str c_type in
  Ok (index_add_column
        (IndexMetadata.mk idx_name [] is_unique is_primary (Some idx_type))
        col_name indexes).

Fixpoint indexes_loop (rows : list row) (indexes : list (string * IndexMetadata.t))
  : result (list (string * IndexMetadata.t)) :=
  match rows with
  | [] => Ok indexes
  | r :: rows' =>
      let* indexes' := index_step indexes r in
      indexes_loop rows' indexes'
  end.

Section Introspection.
Context (drv : driver) (mods : modules).

Definition _get_exact_table_name (table_name schema : string) : M (option string) :=
  do result <- execute_query drv mods exact_table_name_query
                 (Some [PStr table_name; PStr schema]);
  match result with
  | RowDict first_row :: _ =>
      do relname <- lift (dict_item first_row "relname");
      ret (Some (py_str relname))
  | _ => ret None
  end.

Definition _get_table_info (table_name schema : string)
  : M (option Z * option string * option Z) :=
  do result <- execute_query drv mods table_info_query
                 (Some [PStr table_name; PStr table_name; PStr table_name; PStr schema]);
  match result with
  | RowDict first_row :: _ =>
      ret (_safe_int_conversion (dict_get first_row "total_bytes"),
           str_unless_None (dict_get first_row "table_comment"),
           _safe_int_conversion (dict_get first_row "reltuples"))
  | _ => ret (None, None, None)
  end.

Definition _get_columns (table_name schema : string) : M (list ColumnMetadata.t) :=
  do results <- execute_query drv mods columns_query
                  (Some [PStr table_name; PStr table_name; PStr table_name; PStr schema]);
  match results with
  | [] =>
      raise (ValueError ("Nenhuma coluna encontrada para a tabela '" +:+ table_name
                         +:+ "' no esquema '" +:+ schema
                         +:+ "'. A tabela pode não existir ou o usuário não tem permissões."))
  | _ :: _ => lift (result_map column_of_row results)
  end.

Definition _get_primary_keys (table_name : string) : M (list string) :=
  do results <- execute_query drv mods primary_keys_query (Some [PStr table_name]);
  lift (primary_keys_of_rows results).

Definition _get_foreign_keys (table_name : string) : M (list ForeignKeyMetadata.t) :=
  do results <- execute_query drv mods foreign_keys_query (Some [PStr table_name]);
  lift (foreign_keys_of_rows results).

Definition _get_indexes (table_name : string) : M (list (string * IndexMetadata.t)) :=
  do results <- execute_query drv mods indexes_query (Some [PStr table_name]);
  lift (indexes_loop results []).

Definition get_table_metadata (table_name : string) : M TableMetadata.t :=
  do cfg <- gets config;
  let schema := py_str (dict_get_default cfg "schema" (PStr "public")) in
  do exact_table_name <- _get_exact_table_name table_name schema;
  match exact_table_name with
  | None =>
      raise (ValueError ("Tabela '" +:+ table_name +:+ "' não encontrada no esquema '"
                         +:+ schema +:+ "'."))
  | Some exact_table_name =>
      do table_info <- _get_table_info exact_table_name schema;
      let '(total_bytes, table_comment, row_count) := table_info in
      do columns <- _get_columns exact_table_name schema;
      do primary_keys <- _get_primary_keys exact_table_name;
      do foreign_keys <- _get_foreign_keys exact_table_name;
      do indexes <- _get_indexes exact_table_name;
      ret (TableMetadata.mk exact_table_name columns primary_keys foreign_keys
             (map snd indexes) total_bytes row_count table_comment)
  end.

End Introspection.

End PostgreSQLConnector.

(** [get_table_metadata] of the connector at hand. *)
Definition get_table_metadata (drv : driver) (mods : modules) (table_name : string)
  : M TableMetadata.t :=
  do c <- gets cls;
  match c with
  | Firebird => FirebirdConnector.get_table_metadata drv mods table_name
  | MySQL => MySQLConnector.get_table_metadata drv mods table_name
  | PostgreSQL => PostgreSQLConnector.get_table_metadata drv mods table_name
  end.

(** ** Vocabulary of the statements *)

(** [s] begins with the character [c]. *)
Definition head_is (c : ascii) (s : string) : bool :=
  match s with
  | String c' _ => Ascii.eqb c c'
  | EmptyString => false
  end.

(** [s] ends with the character [c]. *)
Fixpoint last_is (c : ascii) (s : string) : bool :=
  match s with
  | EmptyString => false
  | String c' EmptyString => Ascii.eqb c c'
  | String _ s' => last_is c s'
  end.

(** The two placeholders the connectors report. *)
Definition is_placeholder (p : string) : Prop := p = "?" \/ p = "%s".

(** No occurrence of the placeholder in the table name nor in a column name. *)
Definition placeholder_free (p table_name : string) (d : pydict) : Prop :=
  count_occurrences p table_name = 0%nat /\
  Forall (fun kv : string * pyval => count_occurrences p kv.1 = 0%nat) d.

(** A fixed piece of statement text: not empty, not beginning with [s], not
    ending with [%], and holding neither placeholder. *)
Definition literal (s : string) : bool :=
  negb (is_empty_string s) && negb (head_is "s" s) && negb (last_is "%" s)
  && (count_occurrences "?" s =? 0)%nat && (count_occurrences "%s" s =? 0)%nat.

(** A computation only adds events to the trace. *)
Definition appends {A} (m : M A) : Prop :=
  forall w, exists evs, trace (m w).2 = trace w ++ evs.

(** The driver calls [disconnect] may make. *)
Definition is_closing_event (e : event) : bool :=
  match e with
  | DrvClose | DrvIsConnected | DrvClosed => true
  | _ => false
  end.

(** What [__exit__] does about the transaction, given the exception in flight
    and the connection at hand. *)
Definition exit_transaction_events (exc : option exn) (c : dbconn) : list event :=
  match exc with
  | Some _ => if has_rollback c then [DrvRollback] else []
  | None => if has_commit c then [DrvCommit] else []
  end.

(** What the loop over [sensitive_keys] stores for [key], if anything. *)
Definition entry_value {cipher} (env : DBConnectionManager.environment cipher)
    (f : cipher) (raw : gmap string pyval) (key : string) : option pyval :=
  match dict_get raw key with
  | PStr s =>
      if startswith "ENC:" s then
        match DBConnectionManager.decrypt env f (drop_string 4 s) with
        | DBConnectionManager.Decrypted p => Some (PStr p)
        | _ => Some PNone
        end
      else None
  | _ => None
  end.

(** The cipher the vault works with: the one built from the resolved key,
    when there is a key and [Fernet] accepts it. *)
Definition vault_cipher {cipher} (env : DBConnectionManager.environment cipher)
    (path : string) (raw : gmap string pyval) : option cipher :=
  match DBConnectionManager.resolve_key env path raw with
  | Ok (PStr k) =>
      if is_empty_string k then None
      else match DBConnectionManager.Fernet env k with
           | Returns f => Some f
           | Throws _ => None
           end
  | _ => None
  end.

(** The flag that tells whether the driver of a connector class was loaded. *)
Definition driver_loaded (mods : modules) (c : dialect) : bool :=
  match c with
  | Firebird => fdb_available mods
  | MySQL => mysql_connector_available mods
  | PostgreSQL => psycopg2_available mods
  end.

(** One record per constraint name, that of the first row that names it:
    [seen] holds the names met so far. *)
Fixpoint first_per_name (seen : list string) (recs : list ForeignKeyMetadata.t)
  : list ForeignKeyMetadata.t :=
  match recs with
  | [] => []
  | fk :: recs' =>
      if bool_decide (ForeignKeyMetadata.name fk ∈ seen) then first_per_name seen recs'
      else fk :: first_per_name (ForeignKeyMetadata.name fk :: seen) recs'
  end.

(** The foreign-key statement of each connector class. *)
Definition foreign_key_query (c : dialect) : string :=
  match c with
  | Firebird => FirebirdConnector.query_fk
  | MySQL => MySQLConnector.fk_query
  | PostgreSQL => PostgreSQLConnector.foreign_keys_query
  end.

(** ** Sample drivers, connectors and catalogs *)

(** A driver that answers every call without an error: no rows, one row
    affected. *)
Definition quiet_driver : driver :=
  {| on_connect := fun _ _ _ =>
       Returns {| has_begin := true; has_commit := true; has_rollback := true;
                  has_autocommit := true; has_is_connected := true;
                  has_closed := true |};
     on_set_autocommit := fun _ => Returns tt;
     on_cursor := fun _ _ => Returns tt;
     on_execute := fun _ _ _ => Returns tt;
     on_fetchall := fun _ => Returns [];
     on_rowcount := fun _ => Returns 1;
     on_cursor_exit := fun _ => Returns tt;
     on_begin := fun _ => Returns tt;
     on_commit := fun _ => Returns tt;
     on_rollback := fun _ => Returns tt;
     on_close := fun _ => Returns tt;
     on_is_connected := fun _ => Returns true;
     on_closed := fun _ => Returns false |}.

Definition all_modules : modules :=
  {| fdb_available := true; mysql_connector_available := true;
     psycopg2_available := true |}.

Definition full_connection : dbconn :=
  {| has_begin := true; has_commit := true; has_rollback := true;
     has_autocommit := true; has_is_connected := true; has_closed := true |}.

(** A connected connector of class [c], nothing done yet. *)
Definition connected_world (c : dialect) : world :=
  {| cls := c; config := ∅; db_type := "unknown";
     connection := Some full_connection; trace := [] |}.

(** The same connector before [connect]. *)
Definition disconnected_world (c : dialect) : world :=
  {| cls := c; config := ∅; db_type := "unknown";
     connection := None; trace := [] |}.

(** A configuration file with a corrupt password and a sound user name, the
    key coming from the environment variable. *)
Definition sample_raw_config : gmap string pyval :=
  <["db_type" := PStr "MySQL"]>
  (<["host" := PStr "localhost"]>
  (<["database" := PStr "shop"]>
  (<["user" := PStr "ENC:gAAAAA-user"]>
  (<["password" := PStr "ENC:corrupt"]> ∅)))).

Definition sample_environment : DBConnectionManager.environment string :=
  {| DBConnectionManager.path_exists := fun p => String.eqb p "config.json";
     DBConnectionManager.path_is_file := fun p => String.eqb p "config.json";
     DBConnectionManager.load_json := fun _ => DBConnectionManager.Loaded sample_raw_config;
     DBConnectionManager.sibling_secret_key := fun _ => "secret.key";
     DBConnectionManager.read_text := fun _ => Throws "No such file or directory";
     DBConnectionManager.getenv_DB_ENCRYPTION_KEY := Some "c2VjcmV0";
     DBConnectionManager.Fernet := fun k =>
       if String.eqb k "c2VjcmV0" then Returns k
       else Throws "Fernet key must be 32 url-safe base64-encoded bytes.";
     DBConnectionManager.decrypt := fun _ token =>
       if String.eqb token "gAAAAA-user" then DBConnectionManager.Decrypted "ana"
       else DBConnectionManager.InvalidToken |}.

(** The same surroundings without any key. *)
Definition keyless_environment : DBConnectionManager.environment string :=
  {| DBConnectionManager.path_exists := fun p => String.eqb p "config.json";
     DBConnectionManager.path_is_file := fun p => String.eqb p "config.json";
     DBConnectionManager.load_json := fun _ => DBConnectionManager.Loaded sample_raw_config;
     DBConnectionManager.sibling_secret_key := fun _ => "secret.key";
     DBConnectionManager.read_text := fun _ => Throws "No such file or directory";
     DBConnectionManager.getenv_DB_ENCRYPTION_KEY := None;
     DBConnectionManager.Fernet := fun k => Returns k;
     DBConnectionManager.decrypt := fun _ _ => DBConnectionManager.InvalidToken |}.

(** The manager once [_load_config] has run. *)
Definition sample_loaded_state : DBConnectionManager.state :=
  {| DBConnectionManager.heap := <[0%nat := sample_raw_config]> (<[1%nat := ∅]> ∅);
     DBConnectionManager.config_file_path := "config.json";
     DBConnectionManager.raw_config := 0%nat;
     DBConnectionManager.decrypted_config := 1%nat |}.

(** A manager whose decrypted configuration asks for an unknown dialect. *)
Definition oracle_state : DBConnectionManager.state :=
  {| DBConnectionManager.heap :=
       <[0%nat := <["db_type" := PStr "Oracle"]> ∅]>
       (<[1%nat := <["db_type" := PStr "Oracle"]> ∅]> ∅);
     DBConnectionManager.config_file_path := "config.json";
     DBConnectionManager.raw_config := 0%nat;
     DBConnectionManager.decrypted_config := 1%nat |}.

(** No PostgreSQL driver in this process. *)
Definition modules_without_psycopg2 : modules :=
  {| fdb_available := true; mysql_connector_available := true;
     psycopg2_available := false |}.

(** The connector classes of [connector_firebird.py] and its siblings leave
    abstract methods of [IDBConnector] undefined: instantiating one fails. *)
Definition abstract_instantiation (c : dialect) (db_config : gmap string pyval)
  : result world :=
  Raise (TypeError "Can't instantiate abstract class").

(** The statement last handed to the driver. *)
Fixpoint last_query (h : list event) : option string :=
  match h with
  | [] => None
  | e :: h' =>
      match last_query h' with
      | Some q => Some q
      | None => match e with DrvExecute q _ => Some q | _ => None end
      end
  end.

(** A driver that answers each statement with the rows [answers] gives for
    its text, and never fails. *)
Definition scripted_driver (answers : string -> list row) : driver :=
  {| on_connect := on_connect quiet_driver;
     on_set_autocommit := on_set_autocommit quiet_driver;
     on_cursor := on_cursor quiet_driver;
     on_execute := on_execute quiet_driver;
     on_fetchall := fun h =>
       Returns (match last_query h with Some q => answers q | None => [] end);
     on_rowcount := on_rowcount quiet_driver;
     on_cursor_exit := on_cursor_exit quiet_driver;
     on_begin := on_begin quiet_driver;
     on_commit := on_commit quiet_driver;
     on_rollback := on_rollback quiet_driver;
     on_close := on_close quiet_driver;
     on_is_connected := on_is_connected quiet_driver;
     on_closed := on_closed quiet_driver |}.

(** A Firebird catalog with a table [ORDERS]: one NUMERIC(18, 2) column,
    stored with scale -2, and a foreign key over two columns, which the
    catalog query returns as one row per pair of segments. *)
Definition firebird_catalog (q : string) : list row :=
  if String.eqb q FirebirdConnector.query_columns then
    [RowTuple [PStr "PRICE   "; PInt 16; PInt 8; PInt 18; PInt (-2); PInt 1;
               PNone; PNone; PInt 1]]
  else if String.eqb q FirebirdConnector.query_fk then
    [RowTuple [PStr "FK_ORDER_ITEM"; PStr "ORDER_ID"; PStr "ITEMS"; PStr "ORDER_ID";
               PStr "CASCADE"; PStr "RESTRICT"];
     RowTuple [PStr "FK_ORDER_ITEM"; PStr "ITEM_NO"; PStr "ITEMS"; PStr "ITEM_NO";
               PStr "CASCADE"; PStr "RESTRICT"]]
  else [].

Definition mysql_column_row : row :=
  RowDict (list_to_map
    [("COLUMN_NAME", PStr "order_id"); ("DATA_TYPE", PStr "int");
     ("IS_NULLABLE", PStr "NO"); ("COLUMN_DEFAULT", PNone);
     ("CHARACTER_MAXIMUM_LENGTH", PNone); ("NUMERIC_PRECISION", PInt 10);
     ("NUMERIC_SCALE", PInt 0); ("COLUMN_KEY", PStr "MUL"); ("EXTRA", PStr "");
     ("COLUMN_COMMENT", PStr "")]).

Definition mysql_fk_row (column : string) : row :=
  RowDict (list_to_map
    [("CONSTRAINT_NAME", PStr "fk_order_item"); ("COLUMN_NAME", PStr column);
     ("REFERENCED_TABLE_NAME", PStr "items"); ("REFERENCED_COLUMN_NAME", PStr column);
     ("UPDATE_RULE", PStr "CASCADE"); ("DELETE_RULE", PStr "RESTRICT")]).

(** The same table in a MySQL catalog: the foreign key over two columns
    comes as two rows of [KEY_COLUMN_USAGE]. *)
Definition mysql_catalog (q : string) : list row :=
  if String.eqb q MySQLConnector.columns_query then [mysql_column_row]
  else if String.eqb q MySQLConnector.fk_query then
    [mysql_fk_row "order_id"; mysql_fk_row "item_no"]
  else [].

Definition mysql_world : world :=
  {| cls := MySQL; config := <["database" := PStr "shop"]> ∅; db_type := "mysql";
     connection := Some full_connection; trace := [] |}.

(** A connector of class [c] that has what [connect] asks for. *)
Definition configured_world (c : dialect) : world :=
  {| cls := c;
     config := <["host" := PStr "localhost"]> (<["database" := PStr "shop"]>
               (<["user" := PStr "ana"]> (<["password" := PStr "s3cret"]> ∅)));
     db_type := "unknown"; connection := None; trace := [] |}.

(** ** Further vocabulary *)

(** The events recorded between two states of the same run. *)
Definition events_since (w w' : world) : list event :=
  drop (length (trace w)) (trace w').

Definition is_DrvExecute (e : event) : bool :=
  match e with DrvExecute _ _ => true | _ => false end.

Definition is_DrvConnect (e : event) : bool :=
  match e with DrvConnect _ _ => true | _ => false end.

Definition is_DrvCursorExit (e : event) : bool :=
  match e with DrvCursorExit => true | _ => false end.

Definition is_DrvRollback (e : event) : bool :=
  match e with DrvRollback => true | _ => false end.

Definition is_DrvCommit (e : event) : bool :=
  match e with DrvCommit => true | _ => false end.

(** A driver that refuses every statement, and every other call but the
    cursor. *)
Definition refusing_driver : driver :=
  {| on_connect := fun _ _ _ => Throws "connection refused";
     on_set_autocommit := fun _ => Throws "not supported";
     on_cursor := fun _ _ => Returns tt;
     on_execute := fun _ _ _ => Throws "syntax error";
     on_fetchall := fun _ => Throws "no result set";
     on_rowcount := fun _ => Throws "no result set";
     on_cursor_exit := fun _ => Returns tt;
     on_begin := fun _ => Throws "transaction refused";
     on_commit := fun _ => Throws "commit refused";
     on_rollback := fun _ => Throws "rollback refused";
     on_close := fun _ => Throws "close refused";
     on_is_connected := fun _ => Returns true;
     on_closed := fun _ => Returns false |}.

(** Surroundings in which the key file is there and readable, the
    environment variable is set as well, and the configuration carries a key
    of its own. *)
Definition keyfile_environment : DBConnectionManager.environment string :=
  {| DBConnectionManager.path_exists := fun p =>
       String.eqb p "config.json" || String.eqb p "secret.key";
     DBConnectionManager.path_is_file := fun p =>
       String.eqb p "config.json" || String.eqb p "secret.key";
     DBConnectionManager.load_json := fun _ => DBConnectionManager.Loaded sample_raw_config;
     DBConnectionManager.sibling_secret_key := fun _ => "secret.key";
     DBConnectionManager.read_text := fun _ => Returns "  a2V5LWZpbGU=  ";
     DBConnectionManager.getenv_DB_ENCRYPTION_KEY := Some "c2VjcmV0";
     DBConnectionManager.Fernet := fun k => Returns k;
     DBConnectionManager.decrypt := fun _ _ => DBConnectionManager.InvalidToken |}.



(** A manager whose decrypted configuration is the sample one, with its
    dialect in mixed case. *)
Definition decrypted_sample_state : DBConnectionManager.state :=
  {| DBConnectionManager.heap :=
       <[0%nat := sample_raw_config]> (<[1%nat := sample_raw_config]> ∅);
     DBConnectionManager.config_file_path := "config.json";
     DBConnectionManager.raw_config := 0%nat;
     DBConnectionManager.decrypted_config := 1%nat |}.

(** A registry whose connector classes can be instantiated and connected. *)
Definition connecting_instantiation (c : dialect) (db_config : gmap string pyval)
  : result world :=
  Ok {| cls := c; config := db_config; db_type := "unknown";
        connection := Some full_connection; trace := [] |}.

(** Indexes as the loops over the catalog rows keep them: one entry per
    name, each filed under its own name and holding at least one column, [n]
    columns in all. *)
Definition grouped_indexes (n : nat) (indexes : list (string * IndexMetadata.t)) : Prop :=
  NoDup (map fst indexes) /\
  Forall (fun kv : string * IndexMetadata.t =>
            IndexMetadata.name kv.2 = kv.1 /\ IndexMetadata.columns kv.2 <> []) indexes /\
  sum_list (map (fun kv : string * IndexMetadata.t => length (IndexMetadata.columns kv.2))
              indexes) = n.

(** The index statement of each connector class. *)
Definition index_query (c : dialect) : string :=
  match c with
  | Firebird => FirebirdConnector.query_indexes
  | MySQL => MySQLConnector.indexes_query
  | PostgreSQL => PostgreSQLConnector.indexes_query
  end.

(** * Verification *)

(** ** The Python primitives on sample inputs *)

Example strip_removes_both_ends : strip "  PRICE   " = "PRICE".
Proof. reflexivity. Qed.

Example lower_upper : lower "PostgreSQL" = "postgresql" /\ upper "orders" = "ORDERS".
Proof. split; reflexivity. Qed.

Example safe_int_conversion_samples :
  _safe_int_conversion PNone = None /\
  _safe_int_conversion (PStr "   ") = None /\
  _safe_int_conversion (PStr "n/a") = None /\
  _safe_int_conversion (PStr " 42 ") = Some 42 /\
  _safe_int_conversion (PStr "-7") = Some (-7) /\
  _safe_int_conversion (PStr "1_000") = Some 1000 /\
  _safe_int_conversion (PStr "1__0") = None /\
  _safe_int_conversion (PInt (-2)) = Some (-2).
Proof. repeat split; reflexivity. Qed.

Example py_str_samples :
  py_str (PInt (-12)) = "-12" /\ py_str PNone = "None" /\ py_str (PBool true) = "True".
Proof. repeat split; reflexivity. Qed.

Example py_repr_list_sample :
  py_repr_list ["firebird"; "mysql"; "postgres"] = "['firebird', 'mysql', 'postgres']".
Proof. reflexivity. Qed.

Example create_query_sample :
  CRUD.create_query "%s" "people" [("name", PStr "Ana"); ("age", PInt 30)]
  = "INSERT INTO people (name, age) VALUES (%s, %s)".
Proof. reflexivity. Qed.

Example update_query_sample :
  CRUD.update_query "?" "people" [("name", PStr "Ana"); ("age", PInt 30)] [("id", PInt 7)]
  = "UPDATE people SET name = ?, age = ? WHERE id = ?".
Proof. reflexivity. Qed.

Example delete_query_sample :
  CRUD.delete_query "?" "people" [("id", PInt 7); ("age", PInt 30)]
  = "DELETE FROM people WHERE id = ? AND age = ?".
Proof. reflexivity. Qed.

Example read_query_samples :
  CRUD.read_query "%s" "people" None = "SELECT * FROM people" /\
  CRUD.read_query "%s" "people" (Some [("id", PInt 7)]) = "SELECT * FROM people WHERE id = %s".
Proof. split; reflexivity. Qed.

Example firebird_type_samples :
  FirebirdConnector._map_firebird_type 7 1 = "BOOLEAN" /\
  FirebirdConnector._map_firebird_type 7 0 = "SMALLINT" /\
  FirebirdConnector._map_firebird_type 16 1 = "BIGINT" /\
  FirebirdConnector._map_firebird_type 99 0 = "UNKNOWN".
Proof. repeat split; reflexivity. Qed.

(** ** The CRUD engine *)

(** *** Counting placeholders in a statement *)

Lemma startswith_nil s : startswith "" s = true.
Proof. by destruct s. Qed.

Lemma append_cons (c : ascii) (s t : string) : String c s +:+ t = String c (s +:+ t).
Proof. reflexivity. Qed.

Lemma append_nil_l (s : string) : "" +:+ s = s.
Proof. reflexivity. Qed.

Lemma append_nil_r (s : string) : s +:+ "" = s.
Proof. induction s as [|c s IH]; [done | by rewrite append_cons, IH]. Qed.

Lemma append_assoc (a b c : string) : (a +:+ b) +:+ c = a +:+ (b +:+ c).
Proof. induction a as [|x a IH]; [done | by rewrite !append_cons, IH]. Qed.

(** An occurrence cannot straddle a boundary whose right side does not begin
    with [s]. *)
Lemma count_app_right_guard p a b :
  is_placeholder p -> head_is "s" b = false ->
  count_occurrences p (a +:+ b) = (count_occurrences p a + count_occurrences p b)%nat.
Proof.
  intros Hp Hb. induction a as [|x a IH]; [done |].
  rewrite append_cons. cbn [count_occurrences]. rewrite IH.
  assert (startswith p (String x (a +:+ b)) = startswith p (String x a)) as ->; [| lia].
  destruct Hp as [-> | ->]; cbn [startswith].
  - by rewrite ?startswith_nil.
  - destruct a as [|y a].
    + rewrite append_nil_l. destruct b as [|z b]; [done |].
      cbn [head_is] in Hb. cbn [startswith]. by rewrite Hb.
    + rewrite append_cons. cbn [startswith]. by rewrite ?startswith_nil.
Qed.

(** Nor a boundary whose left side does not end with [%]. *)
Lemma count_app_left_guard p a b :
  is_placeholder p -> last_is "%" a = false ->
  count_occurrences p (a +:+ b) = (count_occurrences p a + count_occurrences p b)%nat.
Proof.
  intros Hp. induction a as [|x a IH]; intros Ha; [done |].
  rewrite append_cons. cbn [count_occurrences].
  destruct a as [|y a].
  - cbn [last_is] in Ha. rewrite append_nil_l. cbn [count_occurrences].
    assert (startswith p (String x b) = startswith p (String x "")) as ->; [| lia].
    destruct Hp as [-> | ->]; cbn [startswith].
    + by rewrite ?startswith_nil.
    + by rewrite Ha.
  - rewrite IH; [| exact Ha].
    assert (startswith p (String x (String y a +:+ b)) = startswith p (String x (String y a))) as ->;
      [| lia].
    rewrite append_cons.
    destruct Hp as [-> | ->]; cbn [startswith]; by rewrite ?startswith_nil.
Qed.

Lemma count_placeholder_self p : is_placeholder p -> count_occurrences p p = 1%nat.
Proof. by intros [-> | ->]. Qed.

Lemma count_literal p lit :
  is_placeholder p -> literal lit = true -> count_occurrences p lit = 0%nat.
Proof.
  unfold literal. intros [-> | ->] H;
    repeat (apply andb_prop in H as [H ?]); by apply Nat.eqb_eq.
Qed.

Lemma head_literal_app lit r : literal lit = true -> head_is "s" (lit +:+ r) = false.
Proof.
  unfold literal. intros H. repeat (apply andb_prop in H as [H ?]).
  destruct lit as [|c lit]; [done |]. rewrite append_cons. cbn [head_is] in *.
  by apply negb_true_iff.
Qed.

Lemma last_literal lit : literal lit = true -> last_is "%" lit = false.
Proof.
  unfold literal. intros H. repeat (apply andb_prop in H as [H ?]).
  by apply negb_true_iff.
Qed.

(** Text before the rest of a statement adds no occurrence. *)
Lemma count_lit_app p lit r :
  is_placeholder p -> literal lit = true ->
  count_occurrences p (lit +:+ r) = count_occurrences p r.
Proof.
  intros Hp Hl. rewrite count_app_left_guard by auto using last_literal.
  by rewrite count_literal.
Qed.

(** A piece followed by text: its occurrences and those of the rest. *)
Lemma count_app_lit p a lit r :
  is_placeholder p -> literal lit = true ->
  count_occurrences p (a +:+ lit +:+ r) =
  (count_occurrences p a + count_occurrences p r)%nat.
Proof.
  intros Hp Hl. rewrite count_app_right_guard by auto using head_literal_app.
  by rewrite count_lit_app.
Qed.

Lemma join_cons2 sep x y l : join sep (x :: y :: l) = x +:+ sep +:+ join sep (y :: l).
Proof. reflexivity. Qed.

Lemma count_join p sep l :
  is_placeholder p -> literal sep = true ->
  count_occurrences p (join sep l) = sum_list (map (count_occurrences p) l).
Proof.
  intros Hp Hs. induction l as [|x [|y l] IH]; [done | |].
  - cbn. lia.
  - rewrite join_cons2, count_app_lit, IH by done. done.
Qed.

Lemma sum_list_cons (x : nat) (l : list nat) : sum_list (x :: l) = (x + sum_list l)%nat.
Proof. reflexivity. Qed.

Lemma sum_list_zero (l : list nat) : Forall (fun n => n = 0%nat) l -> sum_list l = 0%nat.
Proof. induction 1 as [|n l -> _ IH]; [done | by rewrite sum_list_cons]. Qed.

Lemma count_join_names p sep (d : pydict) :
  is_placeholder p -> literal sep = true ->
  Forall (fun kv : string * pyval => count_occurrences p kv.1 = 0%nat) d ->
  count_occurrences p (join sep (map fst d)) = 0%nat.
Proof.
  intros Hp Hs Hd. rewrite count_join by done. apply sum_list_zero.
  rewrite Forall_map. rewrite Forall_map. exact Hd.
Qed.

Lemma count_join_placeholders p sep n :
  is_placeholder p -> literal sep = true ->
  count_occurrences p (join sep (replicate n p)) = n.
Proof.
  intros Hp Hs. rewrite count_join by done.
  induction n as [|n IH]; [done |].
  cbn [replicate map]. rewrite sum_list_cons, count_placeholder_self by done. lia.
Qed.

Lemma count_equality_clauses p sep (d : pydict) :
  is_placeholder p -> literal sep = true ->
  Forall (fun kv : string * pyval => count_occurrences p kv.1 = 0%nat) d ->
  count_occurrences p (join sep (CRUD.equality_clauses p d)) = length d.
Proof.
  intros Hp Hs Hd. rewrite count_join by done.
  induction Hd as [|[k v] d Hk _ IH]; [done |].
  unfold CRUD.equality_clauses in *. cbn [map length fst] in *.
  rewrite sum_list_cons, count_app_lit, Hk, count_placeholder_self by done. lia.
Qed.

(** The INSERT statement holds one placeholder per parameter. *)
Lemma create_query_count p table_name (data : pydict) :
  is_placeholder p -> placeholder_free p table_name data ->
  count_occurrences p (CRUD.create_query p table_name data) = length (CRUD.create_params data).
Proof.
  intros Hp [Ht Hd]. unfold CRUD.create_query, CRUD.create_params.
  rewrite count_lit_app, !count_app_lit by done.
  rewrite count_app_right_guard by done.
  rewrite Ht, count_join_names, count_join_placeholders, count_literal by done.
  rewrite length_map. lia.
Qed.

(** The UPDATE statement too: the SET clauses, then the WHERE clauses. *)
Lemma update_query_count p table_name (data conditions : pydict) :
  is_placeholder p ->
  placeholder_free p table_name data -> placeholder_free p table_name conditions ->
  count_occurrences p (CRUD.update_query p table_name data conditions) =
  length (CRUD.update_params data conditions).
Proof.
  intros Hp [Ht Hd] [_ Hc]. unfold CRUD.update_query, CRUD.update_params.
  rewrite count_lit_app, !count_app_lit by done.
  rewrite Ht, !count_equality_clauses by done.
  rewrite length_app, !length_map. lia.
Qed.

(** *** Every computation of the layer only extends the trace *)

Lemma appends_ret {A} (a : A) : appends (ret a).
Proof. intros w. exists []. by rewrite app_nil_r. Qed.

Lemma appends_raise {A} (e : exn) : appends (@raise A e).
Proof. intros w. exists []. by rewrite app_nil_r. Qed.

Lemma appends_gets {A} (f : world -> A) : appends (gets f).
Proof. intros w. exists []. by rewrite app_nil_r. Qed.

Lemma appends_lift {A} (r : result A) : appends (lift r).
Proof. intros w. exists []. by rewrite app_nil_r. Qed.

Lemma appends_set_connection c : appends (modify (set_connection c)).
Proof. intros w. exists []. by rewrite app_nil_r. Qed.

Lemma appends_log e : appends (log e).
Proof. intros w. by exists [e]. Qed.

Lemma appends_drv_call {A} ev (answer : list event -> outcome A) :
  appends (drv_call ev answer).
Proof. intros w. exists [ev]. unfold drv_call. by destruct (answer (trace w)). Qed.

Lemma appends_bind {A B} (m : M A) (k : A -> M B) :
  appends m -> (forall a, appends (k a)) -> appends (bind m k).
Proof.
  intros Hm Hk w. unfold bind. destruct (Hm w) as [evs Hevs].
  destruct (m w) as [[a | e] w1]; cbn in *.
  - destruct (Hk a w1) as [evs' Hevs']. exists (evs ++ evs').
    by rewrite Hevs', Hevs, app_assoc.
  - by exists evs.
Qed.

Lemma appends_try_except {A} (m : M A) (h : exn -> M A) :
  appends m -> (forall e, appends (h e)) -> appends (try_except m h).
Proof.
  intros Hm Hh w. unfold try_except. destruct (Hm w) as [evs Hevs].
  destruct (m w) as [[a | e] w1]; cbn in *.
  - by exists evs.
  - destruct (Hh e w1) as [evs' Hevs']. exists (evs ++ evs').
    by rewrite Hevs', Hevs, app_assoc.
Qed.

Lemma appends_try_except_if {A} catches (m : M A) (h : exn -> M A) :
  appends m -> (forall e, appends (h e)) -> appends (try_except_if catches m h).
Proof.
  intros Hm Hh. apply appends_try_except; [done |].
  intros e. destruct (catches e); [done | apply appends_raise].
Qed.

Lemma appends_with_scope {A} (body : M A) (leave : option exn -> M unit) :
  appends body -> (forall e, appends (leave e)) -> appends (with_scope body leave).
Proof.
  intros Hb Hl w. unfold with_scope. destruct (Hb w) as [evs Hevs].
  destruct (body w) as [[a | e] w1]; cbn in *.
  - destruct (appends_bind (leave None) (fun _ => ret a) (Hl None)
                (fun _ => appends_ret a) w1) as [evs' Hevs'].
    exists (evs ++ evs'). by rewrite Hevs', Hevs, app_assoc.
  - destruct (appends_bind (leave (Some e)) (fun _ => @raise A e) (Hl (Some e))
                (fun _ => appends_raise e) w1) as [evs' Hevs'].
    exists (evs ++ evs'). by rewrite Hevs', Hevs, app_assoc.
Qed.

Lemma appends_when b (m : M unit) : appends m -> appends (when b m).
Proof. intros Hm. destruct b; [done | apply appends_ret]. Qed.

Create HintDb appends.
#[local] Hint Resolve appends_ret appends_raise appends_gets appends_lift
  appends_set_connection appends_log appends_drv_call appends_when : appends.

(** Splits a computation along its binds, handlers and case distinctions. *)
Ltac appends_step :=
  first
    [ apply appends_bind; [| intros ?]
    | apply appends_try_except_if; [| intros ?]
    | apply appends_try_except; [| intros ?]
    | apply appends_with_scope; [| intros ?]
    | match goal with
      | |- appends (match ?x with _ => _ end) => destruct x
      end
    | solve [auto with appends] ].

Ltac appends_auto := repeat appends_step.

Lemma appends_rollback_quietly drv : appends (rollback_quietly drv).
Proof. unfold rollback_quietly. appends_auto. Qed.

Lemma appends__get_cursor drv mods : appends (_get_cursor drv mods).
Proof. unfold _get_cursor. appends_auto. Qed.

#[local] Hint Resolve appends_rollback_quietly appends__get_cursor : appends.

Lemma appends_execute_update drv mods q ps : appends (execute_update drv mods q ps).
Proof. unfold execute_update. appends_auto. Qed.

Lemma appends_execute_query drv mods q ps : appends (execute_query drv mods q ps).
Proof. unfold execute_query. appends_auto. Qed.

(** [execute_update] starts by recording its own call. *)
Lemma execute_update_recorded drv mods q ps w :
  exists evs,
    trace (execute_update drv mods q ps w).2 = trace w ++ CallExecuteUpdate q ps :: evs.
Proof.
  unfold execute_update.
  match goal with
  | |- context [bind (log ?e) ?k] =>
      change (bind (log e) k w) with (k tt (add_event e w));
      assert (appends (k tt)) as Hk by appends_auto
  end.
  destruct (Hk (add_event (CallExecuteUpdate q ps) w)) as [evs Hevs].
  exists evs. rewrite Hevs. cbn. by rewrite <- app_assoc.
Qed.

Lemma reraising_trace {A} (m : M A) w :
  trace (CRUD.reraising m w).2 = trace (m w).2.
Proof.
  unfold CRUD.reraising, try_except_if, try_except.
  destruct (m w) as [[a | e] w1]; [done |]. by destruct (is_DatabaseError e).
Qed.

(** *** Validation of the arguments *)

(** C10: [update] with an empty data mapping returns 0 whatever the
    conditions are, the empty mapping included, and leaves the connector and
    the trace as they were: no [execute_update], no driver call, no exception.
    The test on the data comes before the test on the conditions. *)
Theorem update_with_empty_data_returns_zero
    drv mods (self : CRUD.t) (table_name : string) (conditions : pydict) (w : world) :
  CRUD.update drv mods self table_name [] conditions w = (Ok 0, w).
Proof. reflexivity. Qed.

(** C1 (as amended): [update] with data to write and [delete] refuse an empty
    conditions mapping with a [ValueError]; the connector and the trace are
    left as they were, so no statement was built or sent. *)
Theorem empty_conditions_are_refused
    drv mods (self : CRUD.t) (table_name : string) (data : pydict) (w : world) :
  data <> [] ->
  (exists msg, CRUD.update drv mods self table_name data [] w = (Raise (ValueError msg), w)) /\
  (exists msg, CRUD.delete drv mods self table_name [] w = (Raise (ValueError msg), w)).
Proof.
  intros Hdata. split.
  - destruct data as [|kv data]; [done |]. eexists. reflexivity.
  - eexists. reflexivity.
Qed.

Lemma empty_conditions_are_refused_witness :
  ([("name", PStr "Ana")] : pydict) <> [] /\
  ((exists msg, CRUD.update quiet_driver all_modules {| CRUD.placeholder := "?" |}
                  "people" [("name", PStr "Ana")] [] (connected_world Firebird)
                = (Raise (ValueError msg), connected_world Firebird)) /\
   (exists msg, CRUD.delete quiet_driver all_modules {| CRUD.placeholder := "?" |}
                  "people" [] (connected_world Firebird)
                = (Raise (ValueError msg), connected_world Firebird))).
Proof.
  split; [discriminate |].
  apply (empty_conditions_are_refused quiet_driver all_modules
           {| CRUD.placeholder := "?" |} "people" [("name", PStr "Ana")]
           (connected_world Firebird)).
  discriminate.
Defined.

(** C1 as stated fails: with no data and no conditions [update] raises
    nothing, it returns 0. *)
Lemma update_without_data_does_not_raise :
  CRUD.update quiet_driver all_modules {| CRUD.placeholder := "?" |}
    "people" [] [] (connected_world Firebird) = (Ok 0, connected_world Firebird) /\
  ~ (exists e w',
       CRUD.update quiet_driver all_modules {| CRUD.placeholder := "?" |}
         "people" [] [] (connected_world Firebird) = (Raise e, w')).
Proof.
  split; [reflexivity |]. intros (e & w' & H). discriminate H.
Qed.

(** *** Placeholders and parameters *)

Lemma get_placeholder_is_placeholder c : is_placeholder (get_placeholder c).
Proof. destruct c; [by left | by right | by right]. Qed.

Lemma crud_init_placeholder self w :
  CRUD.__init__ w = (Ok self, w) -> CRUD.placeholder self = get_placeholder (cls w).
Proof. unfold CRUD.__init__, bind, gets, ret. by intros [= <-]. Qed.

(** C5 (as amended): the placeholder is [?] for Firebird and [%s] for MySQL
    and PostgreSQL; and when neither the table name nor a column name holds
    the placeholder, the statement that [create] (for data that are not empty)
    and [update] (for data and conditions that are not empty) pass to
    [execute_update] holds exactly as many placeholders as the parameter
    tuple passed with it has entries. *)
Theorem placeholders_match_parameters
    drv mods (self : CRUD.t) (table_name : string) (data conditions : pydict) (w : world) :
  CRUD.__init__ w = (Ok self, w) ->
  data <> [] -> conditions <> [] ->
  placeholder_free (get_placeholder (cls w)) table_name data ->
  placeholder_free (get_placeholder (cls w)) table_name conditions ->
  (get_placeholder Firebird = "?" /\ get_placeholder MySQL = "%s"
   /\ get_placeholder PostgreSQL = "%s") /\
  (exists query params evs,
     trace (CRUD.create drv mods self table_name data w).2
       = trace w ++ CallExecuteUpdate query (Some params) :: evs /\
     count_occurrences (get_placeholder (cls w)) query = length params) /\
  (exists query params evs,
     trace (CRUD.update drv mods self table_name data conditions w).2
       = trace w ++ CallExecuteUpdate query (Some params) :: evs /\
     count_occurrences (get_placeholder (cls w)) query = length params).
Proof.
  intros Hinit Hdata Hconds Hfd Hfc.
  apply crud_init_placeholder in Hinit.
  pose proof (get_placeholder_is_placeholder (cls w)) as Hp.
  split; [done |]. split.
  - destruct data as [|kv data]; [done |].
    unfold CRUD.create. cbn [dict_is_empty]. rewrite reraising_trace, Hinit.
    destruct (execute_update_recorded drv mods
                (CRUD.create_query (get_placeholder (cls w)) table_name (kv :: data))
                (Some (CRUD.create_params (kv :: data))) w) as [evs Hevs].
    eexists _, _, evs. split; [exact Hevs |]. by apply create_query_count.
  - destruct data as [|kv data]; [done |]. destruct conditions as [|kc conditions]; [done |].
    unfold CRUD.update. cbn [dict_is_empty]. rewrite reraising_trace, Hinit.
    destruct (execute_update_recorded drv mods
                (CRUD.update_query (get_placeholder (cls w)) table_name (kv :: data)
                   (kc :: conditions))
                (Some (CRUD.update_params (kv :: data) (kc :: conditions))) w) as [evs Hevs].
    eexists _, _, evs. split; [exact Hevs |]. by apply update_query_count.
Qed.

Lemma placeholders_match_parameters_witness :
  CRUD.__init__ (connected_world MySQL)
    = (Ok {| CRUD.placeholder := "%s" |}, connected_world MySQL) /\
  ([("name", PStr "Ana"); ("age", PInt 30)] : pydict) <> [] /\
  ([("id", PInt 7)] : pydict) <> [] /\
  (exists query params evs,
     trace (CRUD.update quiet_driver all_modules {| CRUD.placeholder := "%s" |} "people"
              [("name", PStr "Ana"); ("age", PInt 30)] [("id", PInt 7)]
              (connected_world MySQL)).2
       = trace (connected_world MySQL) ++ CallExecuteUpdate query (Some params) :: evs /\
     count_occurrences "%s" query = length params).
Proof.
  split; [reflexivity |]. split; [discriminate |]. split; [discriminate |].
  refine (proj2 (proj2 (placeholders_match_parameters quiet_driver all_modules
           {| CRUD.placeholder := "%s" |} "people"
           [("name", PStr "Ana"); ("age", PInt 30)] [("id", PInt 7)]
           (connected_world MySQL) _ _ _ _ _)));
    try reflexivity; try discriminate;
    (split; [reflexivity | repeat constructor]).
Defined.

(** C5 as stated fails: a column name may hold the placeholder. On Firebird
    [create("people", {"ok?": 1})] sends a statement with two [?] and one
    parameter. *)
Lemma create_with_question_mark_in_column :
  trace (CRUD.create quiet_driver all_modules {| CRUD.placeholder := get_placeholder Firebird |}
           "people" [("ok?", PInt 1)] (connected_world Firebird)).2
    = [CallExecuteUpdate "INSERT INTO people (ok?) VALUES (?)" (Some [PInt 1]);
       DrvCursor PlainCursor;
       DrvExecute "INSERT INTO people (ok?) VALUES (?)" [PInt 1];
       DrvRowcount; DrvCursorExit] /\
  count_occurrences (get_placeholder Firebird) "INSERT INTO people (ok?) VALUES (?)" = 2%nat /\
  length [PInt 1] = 1%nat /\
  count_occurrences (get_placeholder Firebird) "INSERT INTO people (ok?) VALUES (?)"
    <> length [PInt 1].
Proof. repeat split; try (vm_compute; reflexivity). vm_compute. discriminate. Qed.

(** ** Connectors *)

(** Unfolds the monad down to case distinctions on what the driver answers. *)
Ltac run_monad :=
  unfold bind, try_except, try_except_if, with_scope, log, modify, gets, ret,
    raise, lift, when, drv_call in *;
  cbn [connection cls trace db_type config set_connection add_event fst snd] in *.

(** One case distinction on the state or on an answer of the driver. *)
Ltac case_step :=
  match goal with
  | |- context [match connection ?w with _ => _ end] => destruct (connection w) eqn:?
  | |- context [match cls ?w with _ => _ end] => destruct (cls w) eqn:?
  | |- context [if ?b then _ else _] => destruct b eqn:?
  | |- context [match ?o with Returns _ => _ | Throws _ => _ end] => destruct o eqn:?
  end;
  cbn [connection cls trace db_type config set_connection add_event fst snd negb] in *.

(** C9: on a connector without a connection, [execute_query],
    [execute_update], [commit_transaction] and [rollback_transaction] raise
    [ConnectionError] at once: the only event is the entry into the method,
    no cursor is asked for and no driver call is made. *)
Theorem operations_need_a_connection
    drv mods (query : string) (params : option (list pyval)) (w : world) :
  connection w = None ->
  (exists msg, execute_query drv mods query params w
     = (Raise (ConnectionError msg), add_event (CallExecuteQuery query params) w)) /\
  (exists msg, execute_update drv mods query params w
     = (Raise (ConnectionError msg), add_event (CallExecuteUpdate query params) w)) /\
  (exists msg, commit_transaction drv w
     = (Raise (ConnectionError msg), add_event CallCommitTransaction w)) /\
  (exists msg, rollback_transaction drv w
     = (Raise (ConnectionError msg), add_event CallRollbackTransaction w)).
Proof.
  intros Hc.
  unfold execute_query, execute_update, commit_transaction, rollback_transaction.
  run_monad. rewrite Hc. repeat split; eexists; reflexivity.
Qed.

Lemma operations_need_a_connection_witness :
  connection (disconnected_world PostgreSQL) = None /\
  (exists msg, execute_update quiet_driver all_modules "DELETE FROM people" None
                 (disconnected_world PostgreSQL)
     = (Raise (ConnectionError msg),
        add_event (CallExecuteUpdate "DELETE FROM people" None)
          (disconnected_world PostgreSQL))).
Proof.
  split; [reflexivity |].
  exact (proj1 (proj2 (operations_need_a_connection quiet_driver all_modules
                         "DELETE FROM people" None (disconnected_world PostgreSQL)
                         eq_refl))).
Defined.

(** [disconnect] never raises, is recorded once, and only talks to the driver
    to close the connection. *)
Lemma disconnect_runs drv w :
  exists evs w',
    disconnect drv w = (Ok tt, w') /\
    trace w' = trace w ++ CallDisconnect :: evs /\
    forallb is_closing_event evs = true.
Proof.
  unfold disconnect, Firebird_disconnect, MySQL_disconnect, PostgreSQL_disconnect,
    close_and_forget.
  run_monad. repeat case_step;
    (do 2 eexists; split; [reflexivity |];
     split; [cbn; rewrite <- ?app_assoc; reflexivity | reflexivity]).
Qed.

(** C4: leaving the scope of a connector that holds a connection commits when
    no exception is in flight and the connection has a commit; with an
    exception in flight it rolls back instead, if the connection has a
    rollback, and attempts no commit; then [disconnect] runs, once, whatever
    happened before, and [__exit__] itself raises nothing. *)
Theorem exit_commits_or_rolls_back_then_disconnects
    drv (exc : option exn) (c : dbconn) (w : world) :
  connection w = Some c ->
  exists evs w',
    __exit__ drv exc w = (Ok tt, w') /\
    trace w' = trace w ++ exit_transaction_events exc c ++ CallDisconnect :: evs /\
    forallb is_closing_event evs = true.
Proof.
  intros Hc. unfold __exit__. run_monad. rewrite Hc.
  unfold exit_transaction_events.
  destruct exc as [e|].
  - destruct (has_rollback c); run_monad.
    + destruct (on_rollback drv (trace w));
        (match goal with
         | |- context [disconnect drv ?w1] =>
             destruct (disconnect_runs drv w1) as (evs & w' & -> & Ht & Hevs)
         end;
         exists evs, w'; split; [done |]; split; [| done];
         rewrite Ht; cbn; by rewrite <- app_assoc).
    + destruct (disconnect_runs drv w) as (evs & w' & -> & Ht & Hevs).
      by exists evs, w'.
  - destruct (has_commit c); run_monad.
    + destruct (on_commit drv (trace w));
        (match goal with
         | |- context [disconnect drv ?w1] =>
             destruct (disconnect_runs drv w1) as (evs & w' & -> & Ht & Hevs)
         end;
         exists evs, w'; split; [done |]; split; [| done];
         rewrite Ht; cbn; by rewrite <- app_assoc).
    + destruct (disconnect_runs drv w) as (evs & w' & -> & Ht & Hevs).
      by exists evs, w'.
Qed.

Lemma exit_commits_or_rolls_back_then_disconnects_witness :
  connection (connected_world MySQL) = Some full_connection /\
  exists evs w',
    __exit__ quiet_driver (Some (ValueError "boom")) (connected_world MySQL) = (Ok tt, w') /\
    trace w' = trace (connected_world MySQL)
               ++ exit_transaction_events (Some (ValueError "boom")) full_connection
               ++ CallDisconnect :: evs /\
    forallb is_closing_event evs = true.
Proof.
  split; [reflexivity |].
  exact (exit_commits_or_rolls_back_then_disconnects quiet_driver
           (Some (ValueError "boom")) full_connection (connected_world MySQL) eq_refl).
Defined.

(** The scenario of the specification: a block that raises inside
    [with connector:]. The exception goes on, one rollback, no commit, one
    [disconnect]. *)
Example scoped_block_that_raises :
  exists kwargs w',
    with_connector quiet_driver all_modules (@raise unit (ValueError "boom"))
      (configured_world MySQL) = (Raise (ValueError "boom"), w') /\
    trace w' = [CallConnect; DrvConnect MySQL kwargs; DrvSetAutocommit; DrvRollback;
                CallDisconnect; DrvIsConnected; DrvClose] /\
    connection w' = None.
Proof. eexists _, _. split; [vm_compute; reflexivity |]. split; reflexivity. Qed.

(** The same block when it returns: one commit, no rollback. *)
Example scoped_block_that_returns :
  exists kwargs w',
    with_connector quiet_driver all_modules (ret 7) (configured_world PostgreSQL)
    = (Ok 7, w') /\
    trace w' = [CallConnect; DrvConnect PostgreSQL kwargs; DrvSetAutocommit; DrvCommit;
                CallDisconnect; DrvClosed; DrvClose] /\
    connection w' = None.
Proof. eexists _, _. split; [vm_compute; reflexivity |]. split; reflexivity. Qed.

(** ** The credential vault *)

Section Vault.
Import DBConnectionManager.
Context {cipher : Type} (env : environment cipher).

Lemma alloc_fresh d h l h' :
  alloc d h = (l, h') -> h !! l = None /\ h' = <[l := d]> h.
Proof.
  unfold alloc. intros [= <- <-]. split; [| done].
  apply not_elem_of_dom. apply is_fresh.
Qed.

Lemma deref_lookup (h : gmap nat (gmap string pyval)) l d :
  h !! l = Some d -> deref h l = d.
Proof. unfold deref. by intros ->. Qed.

(** One turn of the loop writes one entry of the decrypted object and
    nothing else. *)
Lemma decrypt_field_spec f st key raw dec :
  raw_config st <> decrypted_config st ->
  heap st !! raw_config st = Some raw ->
  heap st !! decrypted_config st = Some dec ->
  let st' := decrypt_field env f st key in
  raw_config st' = raw_config st /\
  decrypted_config st' = decrypted_config st /\
  config_file_path st' = config_file_path st /\
  heap st' !! decrypted_config st
    = Some (match entry_value env f raw key with
            | Some v => <[key := v]> dec
            | None => dec
            end) /\
  (forall l, l <> decrypted_config st -> heap st' !! l = heap st !! l).
Proof.
  intros Hne Hraw Hdec. unfold decrypt_field, entry_value.
  rewrite (deref_lookup _ _ _ Hraw).
  destruct (dict_get raw key) as [| | |s]; try done.
  destruct (startswith "ENC:" s); [| done].
  destruct (decrypt env f (drop_string 4 s)); cbn;
    (repeat split; try done;
     [ unfold setitem; by rewrite lookup_alter_eq, Hdec
     | intros l Hl; unfold setitem; by rewrite lookup_alter_ne ]).
Qed.

(** So does the whole loop, entry after entry. *)
Lemma decrypt_fields_spec f keys : forall st raw dec,
  raw_config st <> decrypted_config st ->
  heap st !! raw_config st = Some raw ->
  heap st !! decrypted_config st = Some dec ->
  let st' := foldl (decrypt_field env f) st keys in
  raw_config st' = raw_config st /\
  decrypted_config st' = decrypted_config st /\
  config_file_path st' = config_file_path st /\
  heap st' !! decrypted_config st
    = Some (foldl (fun d key => match entry_value env f raw key with
                                | Some v => <[key := v]> d
                                | None => d
                                end) dec keys) /\
  (forall l, l <> decrypted_config st -> heap st' !! l = heap st !! l).
Proof.
  induction keys as [|key keys IH]; intros st raw dec Hne Hraw Hdec; [done |].
  cbn [foldl].
  destruct (decrypt_field_spec f st key raw dec Hne Hraw Hdec)
    as (Hr & Hd & Hp & Hh & Hother).
  edestruct (IH (decrypt_field env f st key) raw) as (Hr' & Hd' & Hp' & Hh' & Hother').
  - by rewrite Hr, Hd.
  - rewrite Hr, Hother; done.
  - rewrite Hd. exact Hh.
  - rewrite Hd in *. repeat split; try congruence.
    intros l Hl. rewrite Hother', Hother; done.
Qed.

Lemma fold_entries_lookup f raw keys : forall (d : gmap string pyval) k,
  foldl (fun d key => match entry_value env f raw key with
                      | Some v => <[key := v]> d
                      | None => d
                      end) d keys !! k
  = match (if bool_decide (k ∈ keys) then entry_value env f raw k else None)
    with
    | Some v => Some v
    | None => d !! k
    end.
Proof.
  induction keys as [|key keys IH]; intros d k; [done |].
  cbn [foldl]. rewrite IH.
  destruct (decide (k ∈ keys)) as [Hin | Hin].
  - rewrite !bool_decide_eq_true_2 by (try done; by right).
    destruct (entry_value env f raw k) eqn:Hk; [done |].
    destruct (decide (k = key)) as [-> | Hne]; [by rewrite Hk |].
    destruct (entry_value env f raw key); [by rewrite lookup_insert_ne | done].
  - rewrite (bool_decide_eq_false_2 (k ∈ keys)) by done.
    destruct (decide (k = key)) as [-> | Hne].
    + rewrite bool_decide_eq_true_2 by left.
      destruct (entry_value env f raw key); [by rewrite lookup_insert_eq | done].
    + rewrite bool_decide_eq_false_2 by (intros [? | ?]%elem_of_cons; done).
      destruct (entry_value env f raw key); [by rewrite lookup_insert_ne | done].
Qed.

(** The state right after the copy, from which every path goes on. *)
Lemma deepcopy_spec st raw l h :
  heap st !! raw_config st = Some raw ->
  deepcopy (raw_config st) (heap st) = (l, h) ->
  l <> raw_config st /\ heap st !! l = None /\
  h !! raw_config st = Some raw /\ h !! l = Some raw /\
  (forall l', l' <> l -> h !! l' = heap st !! l').
Proof.
  intros Hraw Hcopy. unfold deepcopy in Hcopy. rewrite (deref_lookup _ _ _ Hraw) in Hcopy.
  apply alloc_fresh in Hcopy as [Hfresh ->].
  assert (l <> raw_config st) by congruence.
  repeat split; try done.
  - by rewrite lookup_insert_ne.
  - by rewrite lookup_insert_eq.
  - intros l' Hl'. by rewrite lookup_insert_ne.
Qed.

Lemma dict_get_lookup (d : gmap string pyval) k v : d !! k = Some v -> dict_get d k = v.
Proof. unfold dict_get. by intros ->. Qed.

Lemma not_sensitive_not_decided (k : string) :
  k ∉ sensitive_keys -> bool_decide (k ∈ sensitive_keys) = false.
Proof. intros H. by apply bool_decide_eq_false_2. Qed.

(** The frame of [_decrypt_config], on every path. *)
Lemma decrypt_config_frame
    (st : state) (raw : gmap string pyval) (r : result unit) (st' : state) :
  heap st !! raw_config st = Some raw ->
  _decrypt_config env st = (r, st') ->
  raw_config st' = raw_config st /\
  heap st' !! raw_config st' = Some raw /\
  decrypted_config st' <> raw_config st' /\
  heap st !! decrypted_config st' = None /\
  (forall l, l <> decrypted_config st' -> heap st' !! l = heap st !! l) /\
  exists dec,
    heap st' !! decrypted_config st' = Some dec /\
    forall k, k ∉ sensitive_keys -> dec !! k = raw !! k.
Proof.
  intros Hraw Hrun. unfold _decrypt_config in Hrun.
  remember sensitive_keys as keys eqn:Hkeys in Hrun.
  destruct (deepcopy (raw_config st) (heap st)) as [l h] eqn:Hcopy.
  destruct (deepcopy_spec st raw l h Hraw Hcopy) as (Hne & Hnew & Hr & Hd & Hother).
  cbn [heap raw_config config_file_path decrypted_config] in Hrun.
  set (st1 := {| heap := h; config_file_path := config_file_path st;
                 raw_config := raw_config st; decrypted_config := l |}) in *.
  assert (raw_config st1 = raw_config st /\
          heap st1 !! raw_config st1 = Some raw /\
          decrypted_config st1 <> raw_config st1 /\
          heap st !! decrypted_config st1 = None /\
          (forall l, l <> decrypted_config st1 -> heap st1 !! l = heap st !! l) /\
          exists dec,
            heap st1 !! decrypted_config st1 = Some dec /\
            forall k, k ∉ sensitive_keys -> dec !! k = raw !! k) as Hcopied.
  { repeat split; try done. by exists raw. }
  destruct (resolve_key env (config_file_path st) (deref h (raw_config st)))
    as [key | e]; [| by injection Hrun as <- <-].
  destruct (truthy key); [| by injection Hrun as <- <-].
  destruct key as [| | |k]; try by injection Hrun as <- <-.
  destruct (Fernet env k) as [f | msg]; [| by injection Hrun as <- <-].
  injection Hrun as <- <-. subst keys.
  destruct (decrypt_fields_spec f sensitive_keys st1 raw raw)
    as (Hr' & Hd' & _ & Hh' & Hother'); [by apply not_eq_sym | done | done |].
  rewrite Hr', Hd'. subst st1. cbn [raw_config decrypted_config heap] in Hh', Hother' |- *.
  repeat split; try done.
  - rewrite Hother' by done. done.
  - intros l' Hl'. rewrite Hother', Hother; done.
  - eexists. split; [exact Hh' |]. intros k' Hk'.
    rewrite fold_entries_lookup. by rewrite not_sensitive_not_decided.
Qed.

(** C6: [_decrypt_config] leaves the object [raw_config] refers to, and every
    other object that existed before, exactly as it was, whether it returns
    or raises. [decrypted_config] refers to a new object, a copy in which
    only the four sensitive entries may differ from the raw ones. *)
Theorem raw_configuration_is_never_mutated
    (st : state) (raw : gmap string pyval) (r : result unit) (st' : state) :
  heap st !! raw_config st = Some raw ->
  _decrypt_config env st = (r, st') ->
  raw_config st' = raw_config st /\
  heap st' !! raw_config st' = Some raw /\
  decrypted_config st' <> raw_config st' /\
  heap st !! decrypted_config st' = None /\
  (forall l, l <> decrypted_config st' -> heap st' !! l = heap st !! l) /\
  exists dec,
    heap st' !! decrypted_config st' = Some dec /\
    forall k, k ∉ sensitive_keys -> dec !! k = raw !! k.
Proof. apply decrypt_config_frame. Qed.

(** The same for a manager built by [__init__]: the raw object holds what
    was loaded from the file. *)
Lemma init_keeps_the_loaded_configuration path h st :
  __init__ env path h = (Ok tt, st) ->
  exists d dec,
    load_json env path = Loaded d /\
    heap st !! raw_config st = Some d /\
    decrypted_config st <> raw_config st /\
    heap st !! decrypted_config st = Some dec /\
    forall k, k ∉ sensitive_keys -> dec !! k = d !! k.
Proof.
  unfold __init__, _load_config. cbn [alloc config_file_path heap decrypted_config].
  destruct (path_exists env path); cbn [negb]; [| discriminate].
  destruct (path_is_file env path); cbn [negb]; [| discriminate].
  destruct (load_json env path) as [d | |]; [| discriminate | discriminate].
  intros Hrun.
  eapply (decrypt_config_frame _ d) in Hrun as (Hr & Hraw & Hne & _ & _ & dec & Hdec & Hsame).
  - exists d, dec. by rewrite Hr in *.
  - cbn [heap raw_config]. apply lookup_insert_eq.
Qed.

(** C2: a sensitive entry that carries the marker and whose ciphertext the
    cipher of the vault refuses (an invalid token or any other failure) is
    [None] in the decrypted configuration; nothing is raised, and the other
    sensitive entries are still processed: each one whose ciphertext is
    sound holds its plaintext. *)
Theorem corrupt_ciphertext_becomes_None
    (st : state) (raw : gmap string pyval) (f : cipher) (field ciphertext : string) :
  heap st !! raw_config st = Some raw ->
  vault_cipher env (config_file_path st) raw = Some f ->
  field ∈ sensitive_keys ->
  raw !! field = Some (PStr ("ENC:" +:+ ciphertext)) ->
  (forall plaintext, decrypt env f ciphertext <> Decrypted plaintext) ->
  exists st',
    _decrypt_config env st = (Ok tt, st') /\
    deref (heap st') (decrypted_config st') !! field = Some PNone /\
    forall other ciphertext' plaintext,
      other ∈ sensitive_keys ->
      raw !! other = Some (PStr ("ENC:" +:+ ciphertext')) ->
      decrypt env f ciphertext' = Decrypted plaintext ->
      deref (heap st') (decrypted_config st') !! other = Some (PStr plaintext).
Proof.
  intros Hraw Hcipher Hfield Henc Hbad.
  unfold vault_cipher in Hcipher.
  destruct (resolve_key env (config_file_path st) raw) as [[| | |k] | e] eqn:Hkey;
    try discriminate.
  destruct (is_empty_string k) eqn:Hk; [discriminate |].
  destruct (Fernet env k) as [f' | msg] eqn:Hf; [| discriminate].
  injection Hcipher as ->.
  unfold _decrypt_config.
  remember sensitive_keys as keys eqn:Hkeys.
  destruct (deepcopy (raw_config st) (heap st)) as [l h] eqn:Hcopy.
  destruct (deepcopy_spec st raw l h Hraw Hcopy) as (Hne & Hnew & Hr & Hd & Hother).
  cbn [heap raw_config config_file_path decrypted_config].
  rewrite (deref_lookup _ _ _ Hr), Hkey.
  assert (truthy (PStr k) = true) as -> by (cbn [truthy]; by rewrite Hk).
  rewrite Hf.
  set (st1 := {| heap := h; config_file_path := config_file_path st;
                 raw_config := raw_config st; decrypted_config := l |}).
  destruct (decrypt_fields_spec f keys st1 raw raw)
    as (Hr' & Hd' & _ & Hh' & Hother'); [by apply not_eq_sym | done | done |].
  eexists. split; [reflexivity |].
  rewrite Hd'. cbn [decrypted_config st1] in Hh' |- *. rewrite (deref_lookup _ _ _ Hh').
  subst keys. split.
  - rewrite fold_entries_lookup, bool_decide_eq_true_2 by done.
    unfold entry_value. rewrite (dict_get_lookup _ _ _ Henc).
    change (startswith "ENC:" ("ENC:" +:+ ciphertext)) with true.
    change (drop_string 4 ("ENC:" +:+ ciphertext)) with ciphertext.
    cbv iota. destruct (decrypt env f ciphertext) as [plaintext | |] eqn:Hdec; [| done | done].
    by destruct (Hbad plaintext).
  - intros other ciphertext' plaintext Hother_in Hother_enc Hgood.
    rewrite fold_entries_lookup, bool_decide_eq_true_2 by done.
    unfold entry_value. rewrite (dict_get_lookup _ _ _ Hother_enc).
    change (startswith "ENC:" ("ENC:" +:+ ciphertext')) with true.
    change (drop_string 4 ("ENC:" +:+ ciphertext')) with ciphertext'.
    cbv iota. by rewrite Hgood.
Qed.

End Vault.

Lemma raw_configuration_is_never_mutated_witness :
  DBConnectionManager.heap sample_loaded_state
    !! DBConnectionManager.raw_config sample_loaded_state = Some sample_raw_config /\
  let st' := (DBConnectionManager._decrypt_config sample_environment sample_loaded_state).2 in
  DBConnectionManager.heap st' !! DBConnectionManager.raw_config st' = Some sample_raw_config /\
  DBConnectionManager.decrypted_config st' <> DBConnectionManager.raw_config st'.
Proof.
  split; [reflexivity |].
  destruct (raw_configuration_is_never_mutated sample_environment sample_loaded_state
              sample_raw_config _ _ eq_refl (surjective_pairing _))
    as (_ & H2 & H3 & _).
  exact (conj H2 H3).
Defined.

Lemma corrupt_ciphertext_becomes_None_witness :
  DBConnectionManager.heap sample_loaded_state
    !! DBConnectionManager.raw_config sample_loaded_state = Some sample_raw_config /\
  sample_raw_config !! "password" = Some (PStr "ENC:corrupt") /\
  exists st',
    DBConnectionManager._decrypt_config sample_environment sample_loaded_state = (Ok tt, st') /\
    DBConnectionManager.deref (DBConnectionManager.heap st')
      (DBConnectionManager.decrypted_config st') !! "password" = Some PNone.
Proof.
  split; [reflexivity |]. split; [reflexivity |].
  destruct (corrupt_ciphertext_becomes_None sample_environment sample_loaded_state
              sample_raw_config "c2VjcmV0" "password" "corrupt")
    as (st' & Hrun & Hnone & _).
  - reflexivity.
  - reflexivity.
  - apply list_elem_of_here.
  - reflexivity.
  - intros plaintext. discriminate.
  - exists st'. exact (conj Hrun Hnone).
Defined.

(** Without any key nothing is decrypted: the entries pass through, marker
    and all (the premise of C2, a cipher that refuses the ciphertext, does
    not arise). *)
Lemma without_a_key_entries_pass_through :
  exists st',
    DBConnectionManager._decrypt_config keyless_environment sample_loaded_state = (Ok tt, st') /\
    DBConnectionManager.deref (DBConnectionManager.heap st')
      (DBConnectionManager.decrypted_config st') = sample_raw_config.
Proof. eexists. split; reflexivity. Qed.

(** ** The two factories *)

Lemma startswith_app s r : startswith s (s +:+ r) = true.
Proof.
  induction s as [|c s IH]; [done |].
  rewrite append_cons. cbn [startswith]. by rewrite Ascii.eqb_refl, IH.
Qed.

Lemma startswith_app_l sub a b : startswith sub a = true -> startswith sub (a +:+ b) = true.
Proof.
  revert a. induction sub as [|c sub IH]; intros a H; [done |].
  destruct a as [|x a]; [done |]. rewrite append_cons. cbn [startswith] in *.
  apply andb_prop in H as [-> H]. by rewrite IH.
Qed.

Lemma contains_startswith sub s : startswith sub s = true -> contains sub s = true.
Proof. intros H. destruct s; cbn [contains]; by rewrite H. Qed.

Lemma contains_app_l sub a b : contains sub a = true -> contains sub (a +:+ b) = true.
Proof.
  induction a as [|x a IH]; cbn [contains].
  - rewrite orb_false_r. intros H. apply contains_startswith.
    by apply (startswith_app_l sub "" b).
  - intros [H | H]%orb_prop; rewrite append_cons; cbn [contains].
    + rewrite <- append_cons. by rewrite (startswith_app_l _ _ _ H).
    + rewrite IH by done. apply orb_true_r.
Qed.

Lemma contains_app_r sub a b : contains sub b = true -> contains sub (a +:+ b) = true.
Proof.
  intros H. induction a as [|x a IH]; [done |].
  rewrite append_cons. cbn [contains]. rewrite IH. apply orb_true_r.
Qed.

Lemma contains_join x sep (l : list string) : x ∈ l -> contains x (join sep l) = true.
Proof.
  induction l as [|x0 [|y l] IH]; intros Hin.
  - by apply elem_of_nil in Hin.
  - apply list_elem_of_singleton in Hin as ->.
    apply contains_startswith. rewrite <- (append_nil_r x0) at 2. apply startswith_app.
  - rewrite join_cons2. apply elem_of_cons in Hin as [-> | Hin].
    + apply contains_startswith, startswith_app.
    + do 2 apply contains_app_r. by apply IH.
Qed.

(** The text of a list names each of its members. *)
Lemma py_repr_list_lists (l : list string) k :
  k ∈ l -> contains (py_repr_str k) (py_repr_list l) = true.
Proof.
  intros Hin. unfold py_repr_list. apply contains_app_r, contains_app_l, contains_join.
  by apply list_elem_of_fmap_2.
Qed.

(** C3 (as amended): the factory of [connectorDB.py] refuses an identifier
    that is not in its registry with a [ConfigError] whose message names the
    requested identifier (it does not list the known ones), and refuses a
    registered dialect whose driver was not loaded with an [ImportError],
    which is not a [ConfigError]. The factory of [connector_manager.py]
    refuses an identifier that is not in its registry with a [ValueError]
    whose message lists every identifier registered at that moment. *)
Theorem factory_lookup_failures
    (mods : modules) (st : DBConnectionManager.state) (s : string)
    {connector_class connector : Type}
    (instantiate_and_connect : connector_class -> gmap string pyval -> result connector)
    (_connectors : list (string * connector_class))
    (db_type : string) (db_config : gmap string pyval) :
  dict_get_default
    (DBConnectionManager.deref (DBConnectionManager.heap st)
       (DBConnectionManager.decrypted_config st)) "db_type" (PStr "") = PStr s ->
  (assoc_get (lower s) DBConnectionManager._CONNECTOR_MAP = None ->
   DBConnectionManager.get_connector mods st
   = Raise (ConfigError ("Tipo de banco de dados '" +:+ lower s
                         +:+ "' não suportado ou configurado incorretamente."))) /\
  (forall c,
     assoc_get (lower s) DBConnectionManager._CONNECTOR_MAP = Some c ->
     driver_loaded mods c = false ->
     exists msg,
       DBConnectionManager.get_connector mods st = Raise (ImportError msg) /\
       is_ConfigError (ImportError msg) = false) /\
  (assoc_get (lower db_type) _connectors = None ->
   exists msg,
     connector_manager.get_connector instantiate_and_connect _connectors db_type db_config
     = Raise (ValueError msg) /\
     forall k, k ∈ map fst _connectors -> contains (py_repr_str k) msg = true).
Proof.
  intros Hty. repeat split.
  - intros Hnone. unfold DBConnectionManager.get_connector. by rewrite Hty, Hnone.
  - intros c Hsome Hdrv. unfold DBConnectionManager.get_connector. rewrite Hty, Hsome.
    unfold DBConnectionManager._CONNECTOR_MAP in Hsome. cbn [assoc_get] in Hsome.
    destruct (String.eqb (lower s) "firebird") eqn:E1.
    { injection Hsome as <-. cbn [driver_loaded] in Hdrv. rewrite Hdrv. by eexists. }
    destruct (String.eqb (lower s) "mysql") eqn:E2.
    { injection Hsome as <-. cbn [driver_loaded] in Hdrv. rewrite Hdrv. by eexists. }
    destruct (String.eqb (lower s) "postgresql") eqn:E3; [| done].
    injection Hsome as <-. cbn [driver_loaded] in Hdrv. rewrite Hdrv. by eexists.
  - intros Hnone. unfold connector_manager.get_connector. rewrite Hnone.
    eexists. split; [reflexivity |]. intros k Hk.
    do 3 apply contains_app_r. by apply py_repr_list_lists.
Qed.

Lemma factory_lookup_failures_witness :
  dict_get_default
    (DBConnectionManager.deref (DBConnectionManager.heap oracle_state)
       (DBConnectionManager.decrypted_config oracle_state)) "db_type" (PStr "")
  = PStr "Oracle" /\
  DBConnectionManager.get_connector all_modules oracle_state
  = Raise (ConfigError "Tipo de banco de dados 'oracle' não suportado ou configurado incorretamente.") /\
  exists msg,
    connector_manager.get_connector abstract_instantiation
      (connector_manager.initial_connectors all_modules Firebird MySQL PostgreSQL)
      "Oracle" ∅
    = Raise (ValueError msg) /\
    forall k,
      k ∈ map fst (connector_manager.initial_connectors all_modules Firebird MySQL PostgreSQL) ->
      contains (py_repr_str k) msg = true.
Proof.
  split; [reflexivity |].
  destruct (factory_lookup_failures all_modules oracle_state "Oracle" abstract_instantiation
              (connector_manager.initial_connectors all_modules Firebird MySQL PostgreSQL)
              "Oracle" ∅ eq_refl) as (H1 & _ & H3).
  split; [exact (H1 eq_refl) | exact (H3 eq_refl)].
Defined.

(** C3 as stated fails on both factories. In [connectorDB.py] the message
    for an unknown identifier names none of the known ones. In
    [connector_manager.py] the failure is a [ValueError], not a
    [ConfigError], and a dialect whose driver could not be imported is simply
    not registered: asking for it fails like any unknown identifier. *)
Lemma unknown_dialect_message_lists_nothing :
  (exists msg,
     DBConnectionManager.get_connector all_modules oracle_state = Raise (ConfigError msg) /\
     contains "firebird" msg = false /\ contains "mysql" msg = false /\
     contains "postgresql" msg = false) /\
  (exists msg,
     connector_manager.get_connector abstract_instantiation
       (connector_manager.initial_connectors modules_without_psycopg2 Firebird MySQL PostgreSQL)
       "postgres" ∅
     = Raise (ValueError msg) /\
     is_ConfigError (ValueError msg) = false /\
     msg = "Tipo de banco de dados 'postgres' não suportado ou conector não disponível. Conectores disponíveis: ['firebird', 'mysql']").
Proof.
  split.
  - eexists. split; [reflexivity |]. repeat split; vm_compute; reflexivity.
  - eexists. split; [reflexivity |]. split; [reflexivity |]. vm_compute. reflexivity.
Qed.

(** ** Introspection *)

Lemma bind_Ok_inv {A B} (m : M A) (k : A -> M B) w b w' :
  bind m k w = (Ok b, w') -> exists a w1, m w = (Ok a, w1) /\ k a w1 = (Ok b, w').
Proof.
  unfold bind. destruct (m w) as [[a | e] w1]; [| discriminate]. intros H. by exists a, w1.
Qed.

Lemma lift_Ok_inv {A} (r : result A) w a w' : lift r w = (Ok a, w') -> r = Ok a /\ w' = w.
Proof. unfold lift. by intros [= -> ->]. Qed.

Lemma ret_inv {A} (a b : A) w w' : ret a w = (Ok b, w') -> a = b /\ w' = w.
Proof. unfold ret. by intros [= -> ->]. Qed.

Lemma gets_inv {A} (f : world -> A) w a w' : gets f w = (Ok a, w') -> a = f w /\ w' = w.
Proof. unfold gets. by intros [= <- <-]. Qed.

Lemma result_bind_Ok_inv {A B} (r : result A) (k : A -> result B) b :
  result_bind r k = Ok b -> exists a, r = Ok a /\ k a = Ok b.
Proof. destruct r as [a | e]; [| discriminate]. intros H. by exists a. Qed.

Lemma result_map_Forall2 {A B} (f : A -> result B) l bs :
  result_map f l = Ok bs -> Forall2 (fun a b => f a = Ok b) l bs.
Proof.
  revert bs. induction l as [|a l IH]; intros bs H; cbn [result_map] in H.
  - injection H as <-. constructor.
  - apply result_bind_Ok_inv in H as (b & Hb & H).
    apply result_bind_Ok_inv in H as (bs' & Hbs & H). injection H as <-.
    constructor; [done | by apply IH].
Qed.

(** Peels the binds of a run that returned. *)
Ltac peel H :=
  repeat
    (let a := fresh "a" in
     let w := fresh "w" in
     let Hm := fresh "Hm" in
     apply bind_Ok_inv in H as (a & w & Hm & H));
  try (apply ret_inv in H as [H ?]).

(** *** Firebird columns *)

Lemma firebird_column_scale r col :
  FirebirdConnector.column_of_row r = Ok col ->
  exists precision scale,
    tuple_item r 3 = Ok precision /\ tuple_item r 4 = Ok scale /\
    ColumnMetadata.numeric_precision col = _safe_int_conversion precision /\
    ColumnMetadata.numeric_scale col = Z.opp <$> _safe_int_conversion scale.
Proof.
  unfold FirebirdConnector.column_of_row. intros H.
  repeat (let v := fresh "v" in
          let Hv := fresh "Hv" in
          apply result_bind_Ok_inv in H as (v & Hv & H)).
  injection H as <-. cbn [ColumnMetadata.numeric_precision ColumnMetadata.numeric_scale].
  eexists _, _. repeat split; eassumption.
Qed.

(** C8: in the metadata Firebird introspection returns, every column comes
    from one row of the column query; its [numeric_precision] is the
    precision cell of that row converted to an integer, unchanged, and its
    [numeric_scale] is the negation of the converted scale cell: for a scale
    cell that holds the integer [z], it is [-z]. *)
Theorem firebird_scale_is_negated
    drv mods (table_name : string) (w : world) (tm : TableMetadata.t) (w' : world) :
  FirebirdConnector.get_table_metadata drv mods table_name w = (Ok tm, w') ->
  exists rows w1,
    execute_query drv mods FirebirdConnector.query_columns
      (Some [PStr (upper table_name)]) w = (Ok rows, w1) /\
    Forall2
      (fun r col =>
         exists precision scale,
           tuple_item r 3 = Ok precision /\ tuple_item r 4 = Ok scale /\
           ColumnMetadata.numeric_precision col = _safe_int_conversion precision /\
           ColumnMetadata.numeric_scale col = Z.opp <$> _safe_int_conversion scale /\
           forall z, scale = PInt z -> ColumnMetadata.numeric_scale col = Some (- z))
      rows (TableMetadata.columns tm).
Proof.
  unfold FirebirdConnector.get_table_metadata. intros H.
  apply bind_Ok_inv in H as (rows & w1 & Hrows & H).
  exists rows, w1. split; [exact Hrows |].
  destruct rows as [|r0 rows]; [discriminate |].
  apply bind_Ok_inv in H as (columns & w2 & Hcols & H).
  apply lift_Ok_inv in Hcols as [Hcols ->].
  peel H. subst tm. cbn [TableMetadata.columns].
  apply result_map_Forall2 in Hcols.
  eapply Forall2_impl; [exact Hcols |].
  intros r col Hcol. destruct (firebird_column_scale r col Hcol)
    as (precision & scale & Hp & Hs & Hprec & Hscale).
  exists precision, scale. repeat split; try done.
  intros z ->. by rewrite Hscale.
Qed.

Lemma firebird_scale_is_negated_witness :
  exists tm w',
    FirebirdConnector.get_table_metadata (scripted_driver firebird_catalog) all_modules
      "orders" (connected_world Firebird) = (Ok tm, w') /\
    map ColumnMetadata.numeric_scale (TableMetadata.columns tm) = [Some 2] /\
    exists rows w1,
      execute_query (scripted_driver firebird_catalog) all_modules
        FirebirdConnector.query_columns (Some [PStr (upper "orders")])
        (connected_world Firebird) = (Ok rows, w1) /\
      Forall2
        (fun r col =>
           exists precision scale,
             tuple_item r 3 = Ok precision /\ tuple_item r 4 = Ok scale /\
             ColumnMetadata.numeric_precision col = _safe_int_conversion precision /\
             ColumnMetadata.numeric_scale col = Z.opp <$> _safe_int_conversion scale /\
             forall z, scale = PInt z -> ColumnMetadata.numeric_scale col = Some (- z))
        rows (TableMetadata.columns tm).
Proof.
  eexists _, _. split; [vm_compute; reflexivity |]. split; [reflexivity |].
  eapply (firebird_scale_is_negated (scripted_driver firebird_catalog) all_modules "orders"
            (connected_world Firebird)).
  vm_compute. reflexivity.
Defined.

(** *** Foreign keys *)

Lemma assoc_get_None {V} k (d : list (string * V)) :
  assoc_get k d = None <-> k ∉ map fst d.
Proof.
  induction d as [|[k' v] d IH]; cbn [assoc_get map fst].
  - split; [intros _; apply not_elem_of_nil | done].
  - rewrite not_elem_of_cons. destruct (String.eqb_spec k k') as [-> | Hne].
    + split; [discriminate | by intros [? _]].
    + rewrite IH. split; [by intros ? | by intros [_ ?]].
Qed.

Lemma assoc_set_new {V} k (v : V) d :
  assoc_get k d = None -> assoc_set k v d = d ++ [(k, v)].
Proof.
  induction d as [|[k' v'] d IH]; cbn [assoc_get assoc_set]; [done |].
  destruct (String.eqb k k'); [discriminate |]. intros H. by rewrite IH.
Qed.

Lemma first_per_name_ext seen seen' recs :
  (forall k, k ∈ seen <-> k ∈ seen') ->
  first_per_name seen recs = first_per_name seen' recs.
Proof.
  revert seen seen'. induction recs as [|fk recs IH]; intros seen seen' Hs; [done |].
  cbn [first_per_name].
  rewrite (bool_decide_ext _ _ (Hs (ForeignKeyMetadata.name fk))).
  destruct (bool_decide _); [by apply IH |].
  f_equal. apply IH. intros k. rewrite !elem_of_cons. by rewrite Hs.
Qed.

Lemma first_per_name_NoDup recs : forall seen,
  NoDup (map ForeignKeyMetadata.name (first_per_name seen recs)) /\
  forall fk, fk ∈ first_per_name seen recs -> ForeignKeyMetadata.name fk ∉ seen.
Proof.
  induction recs as [|fk recs IH]; intros seen; cbn [first_per_name].
  - split; [constructor | by intros ? ?%elem_of_nil].
  - case_bool_decide as Hseen; [apply IH |].
    destruct (IH (ForeignKeyMetadata.name fk :: seen)) as [Hnd Hout].
    split.
    + cbn [map]. constructor; [| done].
      intros (fk' & Heq & Hin)%list_elem_of_fmap.
      apply Hout in Hin. apply Hin. rewrite <- Heq. by left.
    + intros fk' [-> | Hin]%elem_of_cons; [done |].
      apply Hout in Hin. intros ?. apply Hin. by right.
Qed.

(** The loop of the Firebird connector keeps, of the records its rows give,
    the first one of each constraint name. *)
Lemma firebird_foreign_keys_loop rows : forall d d',
  FirebirdConnector.foreign_keys_loop rows d = Ok d' ->
  exists recs,
    Forall2 (fun r fk => FirebirdConnector.foreign_key_of_row r = Ok fk) rows recs /\
    map snd d' = map snd d ++ first_per_name (map fst d) recs.
Proof.
  induction rows as [|r rows IH]; intros d d' H; cbn [FirebirdConnector.foreign_keys_loop] in H.
  - injection H as <-. exists []. split; [constructor | by rewrite app_nil_r].
  - apply result_bind_Ok_inv in H as (fk & Hfk & H).
    apply IH in H as (recs & Hrecs & Hd').
    exists (fk :: recs). split; [by constructor |].
    rewrite Hd'. cbn [first_per_name]. unfold assoc_setdefault.
    destruct (assoc_get (ForeignKeyMetadata.name fk) d) eqn:Hget.
    + rewrite bool_decide_eq_true_2; [done |].
      destruct (decide (ForeignKeyMetadata.name fk ∈ map fst d)) as [? | Hn]; [done |].
      apply assoc_get_None in Hn. congruence.
    + rewrite bool_decide_eq_false_2 by (by apply assoc_get_None).
      rewrite (assoc_set_new _ _ _ Hget), !map_app. cbn [map fst snd].
      rewrite <- app_assoc. cbn [app]. do 2 f_equal.
      apply first_per_name_ext. intros k.
      rewrite elem_of_app, list_elem_of_singleton, elem_of_cons. tauto.
Qed.

Lemma firebird_foreign_keys_of_rows rows fks :
  FirebirdConnector.foreign_keys_of_rows rows = Ok fks ->
  exists recs,
    Forall2 (fun r fk => FirebirdConnector.foreign_key_of_row r = Ok fk) rows recs /\
    fks = first_per_name [] recs /\
    NoDup (map ForeignKeyMetadata.name fks).
Proof.
  unfold FirebirdConnector.foreign_keys_of_rows. intros H.
  apply result_bind_Ok_inv in H as (d & Hd & H). injection H as <-.
  apply firebird_foreign_keys_loop in Hd as (recs & Hrecs & ->).
  exists recs. cbn [map app]. repeat split; [done |].
  apply first_per_name_NoDup.
Qed.

(** C7 (as amended): the foreign keys of the metadata come from the rows of
    the foreign-key query of the connector. On Firebird there is exactly one
    record per distinct constraint name, the one the first row of that name
    gives, so a constraint over several columns keeps its first segment. On
    MySQL and on PostgreSQL every row gives a record of its own, in order. *)
Theorem foreign_keys_of_introspection
    drv mods (table_name : string) (w : world) (tm : TableMetadata.t) (w' : world) :
  get_table_metadata drv mods table_name w = (Ok tm, w') ->
  exists params rows w1 w2,
    execute_query drv mods (foreign_key_query (cls w)) params w1 = (Ok rows, w2) /\
    match cls w with
    | Firebird =>
        exists recs,
          Forall2 (fun r fk => FirebirdConnector.foreign_key_of_row r = Ok fk) rows recs /\
          TableMetadata.foreign_keys tm = first_per_name [] recs /\
          NoDup (map ForeignKeyMetadata.name (TableMetadata.foreign_keys tm))
    | MySQL =>
        Forall2 (fun r fk => MySQLConnector.foreign_key_of_row r = Ok fk)
          rows (TableMetadata.foreign_keys tm)
    | PostgreSQL =>
        Forall2 (fun r fk => PostgreSQLConnector.foreign_key_of_row r = Ok fk)
          rows (TableMetadata.foreign_keys tm)
    end.
Proof.
  unfold get_table_metadata. intros H.
  apply bind_Ok_inv in H as (c & w0 & Hc & H). apply gets_inv in Hc as [-> ->].
  destruct (cls w).
  - unfold FirebirdConnector.get_table_metadata in H.
    apply bind_Ok_inv in H as (rows_c & wa & _ & H).
    destruct rows_c as [|r0 rows_c]; [discriminate |].
    apply bind_Ok_inv in H as (columns & wb & _ & H).
    apply bind_Ok_inv in H as (rows_pk & wc & _ & H).
    apply bind_Ok_inv in H as (pks & wd & _ & H).
    apply bind_Ok_inv in H as (rows & w2 & Hrows & H).
    apply bind_Ok_inv in H as (fks & we & Hfks & H).
    apply lift_Ok_inv in Hfks as [Hfks ->].
    peel H. subst tm. cbn [TableMetadata.foreign_keys].
    eexists _, rows, _, w2. split; [exact Hrows |].
    by apply firebird_foreign_keys_of_rows.
  - unfold MySQLConnector.get_table_metadata in H.
    apply bind_Ok_inv in H as (db1 & wa & _ & H).
    apply bind_Ok_inv in H as (rows_i & wb & _ & H).
    destruct (MySQLConnector.table_info_of_rows rows_i) as [[total_bytes row_count] table_comment].
    apply bind_Ok_inv in H as (db2 & wc & _ & H).
    apply bind_Ok_inv in H as (rows_c & wd & _ & H).
    destruct rows_c as [|r0 rows_c]; [discriminate |].
    apply bind_Ok_inv in H as (columns & we & _ & H).
    apply bind_Ok_inv in H as (db3 & wf & _ & H).
    apply bind_Ok_inv in H as (rows & w2 & Hrows & H).
    apply bind_Ok_inv in H as (fks & wg & Hfks & H).
    apply lift_Ok_inv in Hfks as [Hfks ->].
    peel H. subst tm. cbn [TableMetadata.foreign_keys].
    eexists _, rows, _, w2. split; [exact Hrows |].
    by apply result_map_Forall2.
  - unfold PostgreSQLConnector.get_table_metadata in H.
    apply bind_Ok_inv in H as (cfg & wa & _ & H).
    apply bind_Ok_inv in H as (exact & wb & _ & H).
    destruct exact as [exact |]; [| discriminate].
    apply bind_Ok_inv in H as (info & wc & _ & H).
    destruct info as [[total_bytes table_comment] row_count].
    apply bind_Ok_inv in H as (columns & wd & _ & H).
    apply bind_Ok_inv in H as (pks & we & _ & H).
    apply bind_Ok_inv in H as (fks & wf & Hfks & H).
    unfold PostgreSQLConnector._get_foreign_keys in Hfks.
    apply bind_Ok_inv in Hfks as (rows & w2 & Hrows & Hfks).
    apply lift_Ok_inv in Hfks as [Hfks ->].
    peel H. subst tm. cbn [TableMetadata.foreign_keys].
    eexists _, rows, _, w2. split; [exact Hrows |].
    by apply result_map_Forall2.
Qed.

Lemma foreign_keys_of_introspection_witness :
  exists tm w',
    get_table_metadata (scripted_driver firebird_catalog) all_modules "orders"
      (connected_world Firebird) = (Ok tm, w') /\
    map ForeignKeyMetadata.column_name (TableMetadata.foreign_keys tm) = ["ORDER_ID"] /\
    exists params rows w1 w2,
      execute_query (scripted_driver firebird_catalog) all_modules
        (foreign_key_query Firebird) params w1 = (Ok rows, w2) /\
      exists recs,
        Forall2 (fun r fk => FirebirdConnector.foreign_key_of_row r = Ok fk) rows recs /\
        TableMetadata.foreign_keys tm = first_per_name [] recs /\
        NoDup (map ForeignKeyMetadata.name (TableMetadata.foreign_keys tm)).
Proof.
  eexists _, _. split; [vm_compute; reflexivity |]. split; [reflexivity |].
  eapply (foreign_keys_of_introspection (scripted_driver firebird_catalog) all_modules
            "orders" (connected_world Firebird)).
  vm_compute. reflexivity.
Defined.

(** C7 as stated fails on MySQL (and, by the same loop, on PostgreSQL): a
    foreign key over two columns, which the catalog returns as two rows,
    gives two records with the same constraint name, one per column. *)
Lemma mysql_foreign_key_over_two_columns :
  exists tm w',
    get_table_metadata (scripted_driver mysql_catalog) all_modules "orders" mysql_world
    = (Ok tm, w') /\
    map ForeignKeyMetadata.name (TableMetadata.foreign_keys tm)
    = ["fk_order_item"; "fk_order_item"] /\
    map ForeignKeyMetadata.column_name (TableMetadata.foreign_keys tm)
    = ["order_id"; "item_no"] /\
    ~ NoDup (map ForeignKeyMetadata.name (TableMetadata.foreign_keys tm)).
Proof.
  eexists _, _. split; [vm_compute; reflexivity |].
  split; [reflexivity |]. split; [reflexivity |].
  cbn [TableMetadata.foreign_keys map ForeignKeyMetadata.name].
  intros Hnd. apply NoDup_cons in Hnd as [Hnotin _]. apply Hnotin. by left.
Qed.

(** ** Further properties of the connectors *)

Lemma events_since_app w w' evs :
  trace w' = trace w ++ evs -> events_since w w' = evs.
Proof. unfold events_since. intros ->. by rewrite drop_app_length. Qed.

Lemma contains_refl s : contains s s = true.
Proof.
  apply contains_startswith. rewrite <- (append_nil_r s) at 2. apply startswith_app.
Qed.

(** Brings the events of a finished run into the form [trace w ++ evs]. *)
Ltac since_events :=
  cbn [trace connection cls config db_type set_connection add_event];
  rewrite <- ?app_assoc; cbn [app];
  match goal with
  | |- context [events_since ?w _] =>
      erewrite (events_since_app w) by (cbn [trace set_connection add_event];
                                        rewrite <- ?app_assoc; reflexivity)
  end.

(** Unfolds the monad in the goal, layer after layer. *)
Ltac unfold_monad :=
  repeat progress
    (unfold bind, try_except, try_except_if, with_scope, log, modify, gets, ret,
       raise, lift, when, drv_call);
  cbn [connection cls trace db_type config set_connection add_event fst snd negb].

(** Follows a run through all its branches; [Hc] tells what the connection
    is at the start. *)
Ltac explore Hc :=
  repeat
    (unfold_monad; rewrite ?Hc;
     match goal with
     | |- context [match cls ?w with _ => _ end] => destruct (cls w) eqn:?
     | |- context [if ?b then _ else _] => destruct b eqn:?
     | |- context [match ?o with Returns _ => _ | Throws _ => _ end] => destruct o
     end);
  unfold_monad; rewrite ?Hc.

(** Every way a statement can go through [execute_update], with the
    connection at hand: the outcome, what became of the connection and the
    events, in order. *)
Lemma execute_update_cases drv mods q ps w c r w' :
  connection w = Some c ->
  execute_update drv mods q ps w = (r, w') ->
  connection w' = Some c /\
  ((exists n k, r = Ok n /\
      events_since w w' = [CallExecuteUpdate q ps; DrvCursor k;
                           DrvExecute q (params_or_empty ps); DrvRowcount; DrvCursorExit]) \/
   (exists cause body,
      r = Raise (DatabaseError ("Erro ao executar atualização: " +:+ q +:+ nl
                                +:+ " - " +:+ cause)) /\
      events_since w w' = CallExecuteUpdate q ps :: body
                          ++ (if has_rollback c then [DrvRollback] else []) /\
      (body = [] \/ (exists k, body = [DrvCursor k]) \/
       (exists k, body = [DrvCursor k; DrvExecute q (params_or_empty ps); DrvCursorExit]) \/
       (exists k, body = [DrvCursor k; DrvExecute q (params_or_empty ps); DrvRowcount;
                          DrvCursorExit])))).
Proof.
  intros Hc. unfold execute_update, _get_cursor, rollback_quietly.
  explore Hc. all: intros [= <- <-]; (split; [exact Hc |]).
  all: since_events.
  all: try discriminate.
  all: first
      [ left; do 2 eexists; split; reflexivity
      | right; eexists _, []; split; [reflexivity |]; split; [reflexivity |]; by left
      | right; eexists _, [_]; split; [reflexivity |]; split; [reflexivity |];
        right; left; by eexists
      | right; eexists _, [_; _; _]; split; [reflexivity |]; split; [reflexivity |];
        right; right; left; by eexists
      | right; eexists _, [_; _; _; _]; split; [reflexivity |]; split; [reflexivity |];
        right; right; right; by eexists ].
Qed.

(** The same for [execute_query]. *)
Lemma execute_query_cases drv mods q ps w c r w' :
  connection w = Some c ->
  execute_query drv mods q ps w = (r, w') ->
  connection w' = Some c /\
  ((exists rows k, r = Ok rows /\
      events_since w w' = [CallExecuteQuery q ps; DrvCursor k;
                           DrvExecute q (params_or_empty ps); DrvFetchall; DrvCursorExit]) \/
   (exists cause body,
      r = Raise (DatabaseError ("Erro ao executar consulta: " +:+ q +:+ nl
                                +:+ " - " +:+ cause)) /\
      events_since w w' = CallExecuteQuery q ps :: body
                          ++ (if has_rollback c then [DrvRollback] else []) /\
      (body = [] \/ (exists k, body = [DrvCursor k]) \/
       (exists k, body = [DrvCursor k; DrvExecute q (params_or_empty ps); DrvCursorExit]) \/
       (exists k, body = [DrvCursor k; DrvExecute q (params_or_empty ps); DrvFetchall;
                          DrvCursorExit])))).
Proof.
  intros Hc. unfold execute_query, _get_cursor, rollback_quietly.
  explore Hc. all: intros [= <- <-]; (split; [exact Hc |]).
  all: since_events.
  all: try discriminate.
  all: first
      [ left; do 2 eexists; split; reflexivity
      | right; eexists _, []; split; [reflexivity |]; split; [reflexivity |]; by left
      | right; eexists _, [_]; split; [reflexivity |]; split; [reflexivity |];
        right; left; by eexists
      | right; eexists _, [_; _; _]; split; [reflexivity |]; split; [reflexivity |];
        right; right; left; by eexists
      | right; eexists _, [_; _; _; _]; split; [reflexivity |]; split; [reflexivity |];
        right; right; right; by eexists ].
Qed.

Lemma contains_in_message (pre q post : string) : contains q (pre +:+ q +:+ post) = true.
Proof. apply contains_app_r, contains_app_l, contains_refl. Qed.

(** X1: On a connected connector, whatever goes wrong inside [execute_query] or
    [execute_update] (no cursor, a statement the driver refuses, a failing
    fetch, a cursor that cannot be released, the missing cursor factory of
    PostgreSQL) comes out as a [DatabaseError] whose message holds the text
    of the statement; the connection attribute is never changed. *)
Theorem statement_failures_are_database_errors
    drv mods (query : string) (params : option (list pyval)) (w : world) (c : dbconn) :
  connection w = Some c ->
  (forall e w',
     execute_query drv mods query params w = (Raise e, w') ->
     exists msg, e = DatabaseError msg /\ contains query msg = true) /\
  (forall e w',
     execute_update drv mods query params w = (Raise e, w') ->
     exists msg, e = DatabaseError msg /\ contains query msg = true) /\
  connection (execute_query drv mods query params w).2 = Some c /\
  connection (execute_update drv mods query params w).2 = Some c.
Proof.
  intros Hc. repeat split.
  - intros e w' H.
    destruct (execute_query_cases _ _ _ _ _ _ _ _ Hc H)
      as (_ & [(rows & k & Hr & _) | (cause & body & Hr & _)]); [discriminate |].
    injection Hr as ->. eexists. split; [reflexivity |]. apply contains_in_message.
  - intros e w' H.
    destruct (execute_update_cases _ _ _ _ _ _ _ _ Hc H)
      as (_ & [(n & k & Hr & _) | (cause & body & Hr & _)]); [discriminate |].
    injection Hr as ->. eexists. split; [reflexivity |]. apply contains_in_message.
  - destruct (execute_query drv mods query params w) as [r w'] eqn:H.
    by destruct (execute_query_cases _ _ _ _ _ _ _ _ Hc H).
  - destruct (execute_update drv mods query params w) as [r w'] eqn:H.
    by destruct (execute_update_cases _ _ _ _ _ _ _ _ Hc H).
Qed.

Lemma statement_failures_are_database_errors_witness :
  connection (connected_world PostgreSQL) = Some full_connection /\
  exists msg w',
    execute_update refusing_driver all_modules "DELETE FROM people" None
      (connected_world PostgreSQL) = (Raise (DatabaseError msg), w') /\
    contains "DELETE FROM people" msg = true.
Proof.
  split; [reflexivity |].
  destruct (execute_update refusing_driver all_modules "DELETE FROM people" None
              (connected_world PostgreSQL)) as [r w'] eqn:H.
  destruct r as [n | e]; [vm_compute in H; discriminate H |].
  destruct (proj1 (proj2 (statement_failures_are_database_errors refusing_driver all_modules
              "DELETE FROM people" None (connected_world PostgreSQL) full_connection eq_refl))
              e w' H) as (msg & -> & Hmsg).
  by exists msg, w'.
Defined.

Lemma filter_length_app {A} (P : A -> bool) (l1 l2 : list A) :
  length (List.filter P (l1 ++ l2)) = (length (List.filter P l1) + length (List.filter P l2))%nat.
Proof. by rewrite List.filter_app, length_app. Qed.

(** X2: The cursor is a scoped resource: in every run of [execute_query] and
    [execute_update] on a connected connector it is released exactly as many
    times as a statement was handed to the driver (once or never), on
    success and on failure alike. *)
Theorem cursor_is_released_after_use
    drv mods (query : string) (params : option (list pyval)) (w : world) (c : dbconn) :
  connection w = Some c ->
  let released (w' : world) :=
    length (List.filter is_DrvCursorExit (events_since w w')) in
  let used (w' : world) :=
    length (List.filter is_DrvExecute (events_since w w')) in
  released (execute_query drv mods query params w).2
    = used (execute_query drv mods query params w).2 /\
  released (execute_update drv mods query params w).2
    = used (execute_update drv mods query params w).2 /\
  (used (execute_query drv mods query params w).2 <= 1)%nat /\
  (used (execute_update drv mods query params w).2 <= 1)%nat.
Proof.
  intros Hc released used. subst released used. cbv beta.
  destruct (execute_query drv mods query params w) as [rq wq] eqn:Hq.
  destruct (execute_update drv mods query params w) as [ru wu] eqn:Hu.
  cbn [snd].
  destruct (execute_query_cases _ _ _ _ _ _ _ _ Hc Hq)
    as (_ & [(rows & k & _ & ->) | (cause & body & _ & -> & Hbody)]);
  destruct (execute_update_cases _ _ _ _ _ _ _ _ Hc Hu)
    as (_ & [(n & k' & _ & ->) | (cause' & body' & _ & -> & Hbody')]);
  repeat match goal with
    | H : _ \/ _ |- _ => destruct H as [H | H]
    | H : exists _, _ |- _ => destruct H as [? H]
    end; subst; destruct (has_rollback c); cbn; lia.
Qed.

Lemma cursor_is_released_after_use_witness :
  connection (connected_world Firebird) = Some full_connection /\
  length (List.filter is_DrvCursorExit
            (events_since (connected_world Firebird)
               (execute_query refusing_driver all_modules "SELECT 1" None
                  (connected_world Firebird)).2))
  = length (List.filter is_DrvExecute
              (events_since (connected_world Firebird)
                 (execute_query refusing_driver all_modules "SELECT 1" None
                    (connected_world Firebird)).2)).
Proof.
  split; [reflexivity |].
  exact (proj1 (cursor_is_released_after_use refusing_driver all_modules "SELECT 1" None
                  (connected_world Firebird) full_connection eq_refl)).
Defined.

(** X3: A statement that fails is followed by one rollback attempt when the
    connection has a rollback, and the failure of that rollback is not
    raised; a statement that succeeds is followed by none; and neither
    method ever commits. *)
Theorem failed_statement_is_rolled_back
    drv mods (query : string) (params : option (list pyval)) (w : world) (c : dbconn)
    (r : result Z) (w' : world) :
  connection w = Some c ->
  execute_update drv mods query params w = (r, w') ->
  List.filter is_DrvCommit (events_since w w') = [] /\
  List.filter is_DrvRollback (events_since w w')
  = match r with
    | Ok _ => []
    | Raise _ => if has_rollback c then [DrvRollback] else []
    end /\
  (forall e, r = Raise e -> has_rollback c = true ->
             last (events_since w w') = Some DrvRollback).
Proof.
  intros Hc H.
  destruct (execute_update_cases _ _ _ _ _ _ _ _ Hc H)
    as (_ & [(n & k & -> & ->) | (cause & body & -> & -> & Hbody)]).
  - repeat split; [intros e; discriminate].
  - repeat match goal with
      | H : _ \/ _ |- _ => destruct H as [H | H]
      | H : exists _, _ |- _ => destruct H as [? H]
      end; subst; destruct (has_rollback c); repeat split; try done.
Qed.

Lemma failed_statement_is_rolled_back_witness :
  connection (connected_world MySQL) = Some full_connection /\
  List.filter is_DrvRollback
    (events_since (connected_world MySQL)
       (execute_update refusing_driver all_modules "DELETE FROM people" None
          (connected_world MySQL)).2) = [DrvRollback].
Proof.
  split; [reflexivity |].
  exact (proj1 (proj2 (failed_statement_is_rolled_back refusing_driver all_modules
                         "DELETE FROM people" None (connected_world MySQL) full_connection
                         _ _ eq_refl (surjective_pairing _)))).
Defined.

(** ** Further properties of the CRUD engine *)

(** [execute_query] starts by recording its own call. *)
Lemma execute_query_recorded drv mods q ps w :
  exists evs,
    trace (execute_query drv mods q ps w).2 = trace w ++ CallExecuteQuery q ps :: evs.
Proof.
  unfold execute_query.
  match goal with
  | |- context [bind (log ?e) ?k] =>
      change (bind (log e) k w) with (k tt (add_event e w));
      assert (appends (k tt)) as Hk by appends_auto
  end.
  destruct (Hk (add_event (CallExecuteQuery q ps) w)) as [evs Hevs].
  exists evs. rewrite Hevs. cbn. by rewrite <- app_assoc.
Qed.

(** Catching a [DatabaseError] to log it and raise it again changes nothing. *)
Lemma reraising_id {A} (m : M A) w : CRUD.reraising m w = m w.
Proof.
  unfold CRUD.reraising, try_except_if, try_except.
  destruct (m w) as [[a | e] w1]; [done |]. by destruct (is_DatabaseError e).
Qed.

(** Side conditions on pieces of statement text are settled by evaluation. *)
Ltac text_side := first [done | reflexivity].

Lemma read_query_count p table_name (conditions : option pydict) :
  is_placeholder p -> placeholder_free p table_name (default [] conditions) ->
  count_occurrences p (CRUD.read_query p table_name conditions)
  = length (params_or_empty (CRUD.read_params conditions)).
Proof.
  intros Hp [Ht Hd]. unfold CRUD.read_query, CRUD.read_params.
  destruct conditions as [[|kv d] |]; cbn [default params_or_empty map length] in *.
  - rewrite count_lit_app by text_side. exact Ht.
  - rewrite append_assoc, count_lit_app, count_app_lit by text_side.
    rewrite Ht, count_equality_clauses by text_side. cbn [length]. rewrite length_map. lia.
  - rewrite count_lit_app by text_side. exact Ht.
Qed.

Lemma delete_query_count p table_name (conditions : pydict) :
  is_placeholder p -> placeholder_free p table_name conditions ->
  count_occurrences p (CRUD.delete_query p table_name conditions)
  = length (CRUD.delete_params conditions).
Proof.
  intros Hp [Ht Hd]. unfold CRUD.delete_query, CRUD.delete_params.
  rewrite count_lit_app, count_app_lit by text_side.
  rewrite Ht, count_equality_clauses by text_side. by rewrite length_map.
Qed.

(** X4: What holds of CREATE and UPDATE holds of the two other statements: when
    neither the table name nor a column name holds the placeholder, [read]
    (with conditions, with an empty mapping or with none) and [delete] (with
    conditions) pass a statement with exactly one placeholder per parameter;
    [read] without conditions passes no parameter at all. *)
Theorem read_and_delete_placeholders_match_parameters
    drv mods (self : CRUD.t) (table_name : string)
    (filter : option pydict) (conditions : pydict) (w : world) :
  CRUD.__init__ w = (Ok self, w) ->
  conditions <> [] ->
  placeholder_free (get_placeholder (cls w)) table_name (default [] filter) ->
  placeholder_free (get_placeholder (cls w)) table_name conditions ->
  (exists query params evs,
     trace (CRUD.read drv mods self table_name filter w).2
       = trace w ++ CallExecuteQuery query params :: evs /\
     count_occurrences (get_placeholder (cls w)) query = length (params_or_empty params) /\
     (default [] filter = [] -> params = None)) /\
  (exists query params evs,
     trace (CRUD.delete drv mods self table_name conditions w).2
       = trace w ++ CallExecuteUpdate query (Some params) :: evs /\
     count_occurrences (get_placeholder (cls w)) query = length params).
Proof.
  intros Hinit Hconds Hff Hfc.
  apply crud_init_placeholder in Hinit.
  pose proof (get_placeholder_is_placeholder (cls w)) as Hp.
  split.
  - unfold CRUD.read. rewrite reraising_id, Hinit.
    destruct (execute_query_recorded drv mods
                (CRUD.read_query (get_placeholder (cls w)) table_name filter)
                (CRUD.read_params filter) w) as [evs Hevs].
    eexists _, _, evs. split; [exact Hevs |]. split; [by apply read_query_count |].
    by destruct filter as [[|? ?] |].
  - destruct conditions as [|kc conditions]; [done |].
    unfold CRUD.delete. cbn [dict_is_empty]. rewrite reraising_id, Hinit.
    destruct (execute_update_recorded drv mods
                (CRUD.delete_query (get_placeholder (cls w)) table_name (kc :: conditions))
                (Some (CRUD.delete_params (kc :: conditions))) w) as [evs Hevs].
    eexists _, _, evs. split; [exact Hevs |]. by apply delete_query_count.
Qed.

Lemma read_and_delete_placeholders_match_parameters_witness :
  exists query params evs,
    trace (CRUD.delete quiet_driver all_modules {| CRUD.placeholder := "?" |} "people"
             [("id", PInt 7)] (connected_world Firebird)).2
      = trace (connected_world Firebird) ++ CallExecuteUpdate query (Some params) :: evs /\
    count_occurrences "?" query = length params.
Proof.
  refine (proj2 (read_and_delete_placeholders_match_parameters quiet_driver all_modules
                   {| CRUD.placeholder := "?" |} "people" None [("id", PInt 7)]
                   (connected_world Firebird) eq_refl _ _ _)).
  - discriminate.
  - split; [reflexivity | constructor].
  - split; [reflexivity |]. repeat constructor.
Defined.

Lemma events_since_same w : events_since w w = [].
Proof. unfold events_since. apply drop_all. Qed.

Lemma execute_update_disconnected drv mods q ps w :
  connection w = None ->
  execute_update drv mods q ps w
  = (Raise (ConnectionError ("Conexão com o banco de dados (" +:+ db_type w
                             +:+ ") não estabelecida.")),
     add_event (CallExecuteUpdate q ps) w).
Proof. intros Hc. unfold execute_update. unfold_monad. by rewrite Hc. Qed.

Lemma execute_query_disconnected drv mods q ps w :
  connection w = None ->
  execute_query drv mods q ps w
  = (Raise (ConnectionError ("Conexão com o banco de dados (" +:+ db_type w
                             +:+ ") não estabelecida.")),
     add_event (CallExecuteQuery q ps) w).
Proof. intros Hc. unfold execute_query. unfold_monad. by rewrite Hc. Qed.

(** Splits the membership of an event in a list that is written out. *)
Ltac event_cases H :=
  repeat (rewrite ?elem_of_cons, ?elem_of_app, ?elem_of_nil in H);
  repeat match type of H with
         | _ \/ _ => destruct H as [H | H]
         end;
  try done; try discriminate H; try (injection H as ? ?; subst).

(** The only statement [execute_update] hands to the driver is its own. *)
Lemma execute_update_statements drv mods q ps w q' ps' :
  DrvExecute q' ps' ∈ events_since w (execute_update drv mods q ps w).2 ->
  q' = q /\ ps' = params_or_empty ps.
Proof.
  destruct (connection w) as [c|] eqn:Hc.
  - destruct (execute_update drv mods q ps w) as [r w'] eqn:H. cbn [snd].
    destruct (execute_update_cases _ _ _ _ _ _ _ _ Hc H)
      as (_ & [(n & k & _ & ->) | (cause & body & _ & -> & Hbody)]).
    + intros Hin. by event_cases Hin.
    + repeat match goal with
        | H : _ \/ _ |- _ => destruct H as [H | H]
        | H : exists _, _ |- _ => destruct H as [? H]
        end; subst; destruct (has_rollback c); intros Hin; by event_cases Hin.
  - rewrite execute_update_disconnected by done. cbn [snd].
    erewrite events_since_app by reflexivity. intros Hin. by event_cases Hin.
Qed.

Lemma params_or_empty_Some (l : list pyval) : params_or_empty (Some l) = l.
Proof. by destruct l. Qed.

Lemma contains_suffix (pre s : string) : contains s (pre +:+ s) = true.
Proof. apply contains_app_r, contains_refl. Qed.

(** X5: No UPDATE and no DELETE reaches the driver without a WHERE clause: a
    statement that [update] or [delete] hands to the driver ends with the
    WHERE clause made of one equality test per condition, there is at least
    one condition, and the values of the conditions are the last
    parameters. *)
Theorem update_and_delete_are_never_unconditional
    drv mods (self : CRUD.t) (table_name : string) (data conditions : pydict) (w : world)
    (q : string) (ps : list pyval) :
  DrvExecute q ps ∈ events_since w (CRUD.update drv mods self table_name data conditions w).2
  \/ DrvExecute q ps ∈ events_since w (CRUD.delete drv mods self table_name conditions w).2 ->
  conditions <> [] /\
  (exists text,
     q = text +:+ " WHERE "
         +:+ join " AND " (CRUD.equality_clauses (CRUD.placeholder self) conditions)) /\
  (exists values, ps = values ++ map snd conditions).
Proof.
  intros [Hin | Hin].
  - unfold CRUD.update in Hin.
    destruct data as [|kv data]; cbn [dict_is_empty] in Hin.
    { unfold ret in Hin. cbn [snd] in Hin. rewrite events_since_same in Hin.
      by apply elem_of_nil in Hin. }
    destruct conditions as [|kc conditions]; cbn [dict_is_empty] in Hin.
    { unfold raise in Hin. cbn [snd] in Hin. rewrite events_since_same in Hin.
      by apply elem_of_nil in Hin. }
    rewrite reraising_id in Hin. apply execute_update_statements in Hin as [-> ->].
    split; [done |]. split.
    + unfold CRUD.update_query. eexists. rewrite <- !append_assoc. reflexivity.
    + rewrite params_or_empty_Some. by eexists.
  - unfold CRUD.delete in Hin.
    destruct conditions as [|kc conditions]; cbn [dict_is_empty] in Hin.
    { unfold raise in Hin. cbn [snd] in Hin. rewrite events_since_same in Hin.
      by apply elem_of_nil in Hin. }
    rewrite reraising_id in Hin. apply execute_update_statements in Hin as [-> ->].
    split; [done |]. split.
    + unfold CRUD.delete_query. eexists. rewrite <- !append_assoc. reflexivity.
    + rewrite params_or_empty_Some. by exists [].
Qed.

Lemma update_and_delete_are_never_unconditional_witness :
  ([("id", PInt 7)] : pydict) <> [] /\
  (exists text, "DELETE FROM people WHERE id = %s" = text +:+ " WHERE " +:+ "id = %s").
Proof.
  destruct (update_and_delete_are_never_unconditional quiet_driver all_modules
              {| CRUD.placeholder := "%s" |} "people" [] [("id", PInt 7)]
              (connected_world MySQL) "DELETE FROM people WHERE id = %s" [PInt 7])
    as (Hne & Htext & _).
  - right. apply (list_elem_of_lookup_2 _ 2). vm_compute. reflexivity.
  - split; [exact Hne | exact Htext].
Defined.



(** ** Further properties of the transactions *)

Ltac destruct_units :=
  repeat match goal with a : unit |- _ => destruct a end.

(** X7: On a connected connector [commit_transaction] and [rollback_transaction]
    make exactly one call to the driver, keep the connection whatever the
    driver answers, and turn a failure of the driver into a [DatabaseError]
    that names the dialect and holds the driver's message. *)
Theorem commit_and_rollback_call_the_driver_once drv (w : world) (c : dbconn) :
  connection w = Some c ->
  (exists r w',
     commit_transaction drv w = (r, w') /\
     events_since w w' = [CallCommitTransaction; DrvCommit] /\
     connection w' = Some c /\
     (r = Ok tt \/
      exists cause, r = Raise (DatabaseError ("Erro ao confirmar transação " +:+ db_type w
                                              +:+ ": " +:+ cause)))) /\
  (exists r w',
     rollback_transaction drv w = (r, w') /\
     events_since w w' = [CallRollbackTransaction; DrvRollback] /\
     connection w' = Some c /\
     (r = Ok tt \/
      exists cause, r = Raise (DatabaseError ("Erro ao desfazer transação " +:+ db_type w
                                              +:+ ": " +:+ cause)))).
Proof.
  intros Hc. split.
  - unfold commit_transaction. explore Hc.
    all: do 2 eexists; split; [reflexivity |]; since_events;
      (split; [reflexivity |]); (split; [exact Hc |]); destruct_units; eauto.
  - unfold rollback_transaction. explore Hc.
    all: do 2 eexists; split; [reflexivity |]; since_events;
      (split; [reflexivity |]); (split; [exact Hc |]); destruct_units; eauto.
Qed.

Lemma commit_and_rollback_call_the_driver_once_witness :
  exists r w',
    rollback_transaction refusing_driver (connected_world PostgreSQL) = (r, w') /\
    events_since (connected_world PostgreSQL) w' = [CallRollbackTransaction; DrvRollback] /\
    connection w' = Some full_connection /\
    (r = Ok tt \/
     exists cause, r = Raise (DatabaseError ("Erro ao desfazer transação "
                                             +:+ db_type (connected_world PostgreSQL)
                                             +:+ ": " +:+ cause))).
Proof.
  exact (proj2 (commit_and_rollback_call_the_driver_once refusing_driver
                  (connected_world PostgreSQL) full_connection eq_refl)).
Defined.

(** X8: [start_transaction] asks nothing of a connector it cannot ask: without a
    connection, or with a connection that has no [begin] (MySQL, PostgreSQL),
    it returns normally and no call reaches the driver; with a [begin] it
    makes that one call. It never raises anything but a [DatabaseError], whose
    text says Firebird whatever the dialect is, and only after the driver
    refused; the connection attribute is never changed. *)
Theorem start_transaction_begins_only_where_it_can drv (w : world) :
  exists r w',
    start_transaction drv w = (r, w') /\
    connection w' = connection w /\
    events_since w w'
    = CallStartTransaction ::
      match connection w with
      | Some c => if has_begin c then [DrvBegin] else []
      | None => []
      end /\
    (r = Ok tt \/
     exists cause c,
       r = Raise (DatabaseError ("Erro ao iniciar transação Firebird: " +:+ cause)) /\
       connection w = Some c /\ has_begin c = true).
Proof.
  unfold start_transaction. destruct (connection w) as [c|] eqn:Hc.
  - explore Hc.
    all: do 2 eexists; split; [reflexivity |]; since_events;
      (split; [exact Hc |]); (split; [reflexivity |]); destruct_units; eauto 6.
  - explore Hc.
    all: do 2 eexists; split; [reflexivity |]; since_events;
      (split; [exact Hc |]); (split; [reflexivity |]); destruct_units; eauto.
Qed.

(** ** Further properties of [connect] and [disconnect] *)

(** Follows a run through all its branches, those on the results of
    conversions and on optional entries included. *)
Ltac explore_all Hc :=
  repeat
    (unfold_monad; rewrite ?Hc;
     match goal with
     | |- context [match cls ?w with _ => _ end] => destruct (cls w) eqn:?
     | |- context [if ?b then _ else _] => destruct b eqn:?
     | |- context [match ?o with Returns _ => _ | Throws _ => _ end] => destruct o
     | |- context [match py_int ?v with _ => _ end] => destruct (py_int v) eqn:?
     | |- context [match ?m !! ?k with _ => _ end] => destruct (m !! k) eqn:?
     end);
  unfold_monad; rewrite ?Hc.

Lemma other_items_excluded (excluded : list string) (cfg : gmap string pyval) (k : string) :
  k ∈ excluded -> other_items excluded cfg !! k = None.
Proof.
  intros Hk. unfold other_items. apply map_lookup_filter_None. right.
  intros v _ Hnot. by apply Hnot.
Qed.

Lemma blank_false (v : pyval) :
  blank v = false -> truthy v = true /\ strip (py_str v) <> "".
Proof.
  unfold blank. intros [Ht He]%orb_false_elim. split.
  - by apply negb_false_iff.
  - intros Heq. by rewrite Heq in He.
Qed.

(** X9: Whenever [connect] reaches the driver, the configuration has passed
    every check: the driver module is loaded, host and database are set, and
    the user and the password handed over are the configured ones with the
    surrounding white space removed, neither of them empty; the [db_type]
    entry is never passed on. *)
Theorem driver_connect_gets_checked_credentials
    drv mods (w : world) (d : dialect) (kwargs : gmap string pyval) :
  DrvConnect d kwargs ∈ events_since w (connect drv mods w).2 ->
  d = cls w /\ driver_loaded mods d = true /\
  kwargs !! "db_type" = None /\
  kwargs !! "user" = Some (PStr (strip (py_str (dict_get (config w) "user")))) /\
  kwargs !! "password" = Some (PStr (strip (py_str (dict_get (config w) "password")))) /\
  strip (py_str (dict_get (config w) "user")) <> "" /\
  strip (py_str (dict_get (config w) "password")) <> "" /\
  truthy (dict_get (config w) "host") = true /\
  truthy (dict_get (config w) "database") = true.
Proof.
  unfold connect, Firebird_connect, MySQL_connect, PostgreSQL_connect.
  destruct (connection w) as [c|] eqn:Hc.
  all: explore_all Hc.
  all: since_events; intros Hin; event_cases Hin.
  all: repeat match goal with
         | H : negb _ = false |- _ => apply negb_false_iff in H
         | H : blank _ = false |- _ => apply blank_false in H as [? ?]
         end.
  all: unfold driver_loaded.
  all: repeat split; try done.
  all: try (repeat (rewrite lookup_insert_ne by done); first
              [ by rewrite lookup_insert_eq
              | apply other_items_excluded; set_solver ]).
Qed.

Lemma driver_connect_gets_checked_credentials_witness :
  driver_loaded all_modules PostgreSQL = true /\
  strip (py_str (dict_get (config (configured_world PostgreSQL)) "password")) <> "".
Proof.
  eassert (DrvConnect PostgreSQL _
           ∈ events_since (configured_world PostgreSQL)
               (connect quiet_driver all_modules (configured_world PostgreSQL)).2) as Hin.
  { apply (list_elem_of_lookup_2 _ 1). vm_compute. reflexivity. }
  pose proof (driver_connect_gets_checked_credentials quiet_driver all_modules
                (configured_world PostgreSQL) PostgreSQL _ Hin) as H.
  split; apply H.
Defined.

(** X10: What [connect] returns is the connection the connector now holds. A
    MySQL or PostgreSQL connector that already holds a connection returns it
    and asks nothing of the driver; a Firebird connector opens a new
    connection all the same, and the one it held is replaced without being
    closed. *)
Theorem connect_returns_the_stored_connection drv mods (w : world) :
  (forall c' w', connect drv mods w = (Ok c', w') -> connection w' = Some c') /\
  (forall c, connection w = Some c -> cls w <> Firebird ->
     connect drv mods w = (Ok c, add_event CallConnect w)) /\
  (forall c c' w', connection w = Some c -> cls w = Firebird ->
     connect drv mods w = (Ok c', w') ->
     exists kwargs, events_since w w' = [CallConnect; DrvConnect Firebird kwargs]).
Proof.
  unfold connect, Firebird_connect, MySQL_connect, PostgreSQL_connect.
  split; [| split].
  - intros c' w'. destruct (connection w) as [c|] eqn:Hc.
    all: explore_all Hc; intros [= <- <-]; done.
  - intros c Hc Hcls. explore_all Hc; done.
  - intros c c' w' Hc Hcls.
    explore_all Hc; try done; intros [= <- <-]; eexists; since_events; reflexivity.
Qed.

Lemma connect_returns_the_stored_connection_witness :
  connect quiet_driver all_modules (connected_world MySQL)
  = (Ok full_connection, add_event CallConnect (connected_world MySQL)).
Proof.
  refine (proj1 (proj2 (connect_returns_the_stored_connection quiet_driver all_modules
                          (connected_world MySQL))) full_connection eq_refl _).
  discriminate.
Defined.

(** X11: How [connect] fails on a connector that holds no connection: with an
    [ImportError] exactly when the driver module is not loaded, and then
    nothing else has happened; otherwise with a [ConnectionError], or, for
    MySQL and PostgreSQL, with the exception of [int] on the port entry. The
    connector is left without a connection unless the driver had returned
    one and the setting of autocommit then failed. *)
Theorem connect_failures drv mods (w : world) (e : exn) (w' : world) :
  connection w = None ->
  connect drv mods w = (Raise e, w') ->
  (driver_loaded mods (cls w) = false ->
     is_ImportError e = true /\ w' = add_event CallConnect w) /\
  (driver_loaded mods (cls w) = true ->
     (exists msg, e = ConnectionError msg) \/
     (cls w <> Firebird /\
      exists port, py_int (dict_get_default (config w) "port" (PInt port)) = Raise e)) /\
  (connection w' = None \/
   exists kwargs, cls w <> Firebird /\
     events_since w w' = [CallConnect; DrvConnect (cls w) kwargs; DrvSetAutocommit]).
Proof.
  intros Hc. unfold connect, Firebird_connect, MySQL_connect, PostgreSQL_connect.
  explore_all Hc.
  all: intros [= <- <-]; unfold driver_loaded.
  all: repeat match goal with
         | H : negb _ = false |- _ => apply negb_false_iff in H
         | H : negb _ = true |- _ => apply negb_true_iff in H
         end.
  all: cbn [connection set_connection add_event].
  all: (split; [intros ?; try congruence; by split |]);
       (split; [intros ?; try congruence; eauto 6 |]).
  all: first [ by left
             | right; eexists; split; [done |]; since_events; reflexivity ].
Qed.

Lemma connect_failures_witness :
  is_ImportError
    (ImportError "PostgreSQL driver não está instalado ou não pôde ser carregado.") = true.
Proof.
  refine (proj1 (proj1 (connect_failures quiet_driver modules_without_psycopg2
                          (configured_world PostgreSQL) _ _ eq_refl _) _)).
  - vm_compute. reflexivity.
  - reflexivity.
Defined.

(** As [explore], keeping what the driver answered to each call. *)
Ltac explore_answers Hc :=
  repeat
    (unfold_monad; rewrite ?Hc;
     match goal with
     | |- context [match cls ?w with _ => _ end] => destruct (cls w) eqn:?
     | |- context [if ?b then _ else _] => destruct b eqn:?
     | |- context [match ?o with Returns _ => _ | Throws _ => _ end] => destruct o eqn:?
     end);
  unfold_monad; rewrite ?Hc.

(** X12: [disconnect] never raises, and it forgets the connection exactly when it
    has just called [close] on it and [close] returned: a connector without
    a connection stays so, a connection that is not closed (MySQL reports
    it is no longer connected, PostgreSQL reports it is closed already, or
    the driver raises) is kept as it is. *)
Theorem disconnect_forgets_only_what_it_closed drv (w : world) :
  (disconnect drv w).1 = Ok tt /\
  (connection (disconnect drv w).2 = None \/
   connection (disconnect drv w).2 = connection w) /\
  (connection (disconnect drv w).2 = None <->
   connection w = None \/
   (last (trace (disconnect drv w).2) = Some DrvClose /\
    exists u, on_close drv (removelast (trace (disconnect drv w).2)) = Returns u)).
Proof.
  unfold disconnect, Firebird_disconnect, MySQL_disconnect, PostgreSQL_disconnect,
    close_and_forget.
  destruct (connection w) as [c|] eqn:Hc.
  all: explore_answers Hc.
  all: cbn [connection trace set_connection add_event] in *.
  all: rewrite ?Hc, ?last_snoc, ?removelast_last.
  all: (split; [reflexivity |]); (split; [by auto |]).
  all: split; [ intros ?; first [ by left | done | right; split; [done |]; by eexists ]
              | intros [? | [? [u Hu]]]; first [ done | congruence ] ].
Qed.

Lemma exit_runs drv (exc : option exn) (w : world) : (__exit__ drv exc w).1 = Ok tt.
Proof.
  unfold __exit__. destruct (connection w) as [c|] eqn:Hc; [| unfold_monad; by rewrite Hc].
  unfold bind at 1, gets. rewrite Hc.
  unfold bind.
  match goal with
  | |- context [match ?m w with _ => _ end] =>
      assert (exists w1, m w = (Ok tt, w1)) as [w1 ->]
  end.
  { destruct exc as [e|]; [destruct (has_rollback c) | destruct (has_commit c)];
      unfold_monad;
      repeat match goal with
        | |- context [match ?o with Returns _ => _ | Throws _ => _ end] => destruct o
        end; destruct_units; by eexists. }
  destruct (disconnect_runs drv w1) as (evs & w2 & -> & _). done.
Qed.

(** X13: Leaving the scope of a connector never changes what the block did: had
    [connect] failed, the block is not run and that failure is the outcome,
    with nothing done after it; otherwise the value the block returned, or
    the exception it raised, is the outcome of the whole statement, whatever
    the commit, the rollback and the closing of the connection run into. *)
Theorem scoped_block_keeps_its_outcome drv mods {A} (body : M A) (w : world) :
  match connect drv mods w with
  | (Raise e, w1) => with_connector drv mods body w = (Raise e, w1)
  | (Ok _, w1) => (with_connector drv mods body w).1 = (body w1).1
  end.
Proof.
  unfold with_connector, __enter__, bind.
  destruct (connect drv mods w) as [[c | e] w1]; [| done].
  unfold ret at 1. unfold with_scope, bind.
  destruct (body w1) as [[a | e] w2].
  - pose proof (exit_runs drv None w2) as H.
    destruct (__exit__ drv None w2) as [[[] | e'] w3]; [done | discriminate H].
  - pose proof (exit_runs drv (Some e) w2) as H.
    destruct (__exit__ drv (Some e) w2) as [[[] | e'] w3]; [done | discriminate H].
Qed.

(** ** Further properties of the connection manager *)

Lemma is_empty_string_false (s : string) : is_empty_string s = false <-> s <> "".
Proof. by destruct s. Qed.

Lemma truthy_PStr (s : string) : s <> "" -> truthy (PStr s) = true.
Proof. by destruct s. Qed.

Section Manager.
Import DBConnectionManager.
Context {cipher : Type} (env : environment cipher).


(** X15: The key of the vault comes from the first source that has one: the key
    file (the text of the file without the surrounding white space), else
    the environment variable, else the [encryption_key] entry of the
    configuration. A key file that is there but cannot be read is an error,
    whatever the other sources hold. *)
Theorem key_sources_are_tried_in_order
    (path : string) (raw : gmap string pyval) (candidate : string) :
  secret_key_path_candidate env path raw = Ok candidate ->
  let file_there := path_exists env candidate && path_is_file env candidate in
  let no_file_key :=
    file_there = false \/ exists s, read_text env candidate = Returns s /\ strip s = "" in
  (forall s, file_there = true -> read_text env candidate = Returns s -> strip s <> "" ->
     resolve_key env path raw = Ok (PStr (strip s))) /\
  (forall v, no_file_key -> getenv_DB_ENCRYPTION_KEY env = Some v -> v <> "" ->
     resolve_key env path raw = Ok (PStr v)) /\
  (no_file_key ->
   getenv_DB_ENCRYPTION_KEY env = None \/ getenv_DB_ENCRYPTION_KEY env = Some "" ->
     resolve_key env path raw = Ok (dict_get raw "encryption_key")) /\
  (forall msg, file_there = true -> read_text env candidate = Throws msg ->
     exists text, resolve_key env path raw = Raise (SecurityError text)).
Proof.
  intros Hcand file_there no_file_key. subst file_there no_file_key.
  unfold resolve_key. rewrite Hcand.
  split; [| split; [| split]].
  - intros s -> -> Hs. cbv zeta.
    rewrite (truthy_PStr _ Hs). cbn [negb]. by rewrite (truthy_PStr _ Hs).
  - intros v Hfile -> Hv.
    assert (forall k1 : pyval, truthy k1 = false ->
              (if negb (truthy (if negb (truthy k1) then PStr v else k1))
               then dict_get raw "encryption_key"
               else if negb (truthy k1) then PStr v else k1) = PStr v) as Hpick.
    { intros k1 ->. cbn [negb]. by rewrite (truthy_PStr _ Hv). }
    destruct Hfile as [-> | (s & -> & Hs)].
    + by rewrite Hpick.
    + destruct (path_exists env candidate && path_is_file env candidate);
        rewrite Hpick; try done. by rewrite Hs.
  - intros Hfile Henv.
    assert (forall k1 : pyval, truthy k1 = false ->
              (if negb (truthy (if negb (truthy k1)
                                then match getenv_DB_ENCRYPTION_KEY env with
                                     | Some s => PStr s
                                     | None => PNone
                                     end
                                else k1))
               then dict_get raw "encryption_key"
               else if negb (truthy k1)
                    then match getenv_DB_ENCRYPTION_KEY env with
                         | Some s => PStr s
                         | None => PNone
                         end
                    else k1) = dict_get raw "encryption_key") as Hpick.
    { intros k1 ->. cbn [negb]. by destruct Henv as [-> | ->]. }
    destruct Hfile as [-> | (s & -> & Hs)].
    + by rewrite Hpick.
    + destruct (path_exists env candidate && path_is_file env candidate);
        rewrite Hpick; try done. by rewrite Hs.
  - intros msg -> ->. by eexists.
Qed.

(** X16: Without a key (no source has one, or the key found is empty) the vault
    decrypts nothing and raises nothing: the decrypted configuration is a
    copy of the raw one, in an object of its own, markers and all. *)
Theorem without_a_key_nothing_is_decrypted
    (st : state) (raw : gmap string pyval) (key : pyval) :
  heap st !! raw_config st = Some raw ->
  resolve_key env (config_file_path st) raw = Ok key ->
  truthy key = false ->
  exists st',
    _decrypt_config env st = (Ok tt, st') /\
    decrypted_config st' <> raw_config st' /\
    heap st' !! raw_config st' = Some raw /\
    heap st' !! decrypted_config st' = Some raw.
Proof.
  intros Hraw Hkey Hno. unfold _decrypt_config.
  destruct (deepcopy (raw_config st) (heap st)) as [l h] eqn:Hcopy.
  destruct (deepcopy_spec st raw l h Hraw Hcopy) as (Hne & Hnew & Hr & Hd & Hother).
  cbn [heap raw_config config_file_path decrypted_config].
  rewrite (deref_lookup _ _ _ Hr), Hkey, Hno.
  eexists. split; [reflexivity |].
  cbn [heap raw_config decrypted_config]. done.
Qed.


End Manager.


Lemma key_sources_are_tried_in_order_witness :
  DBConnectionManager.resolve_key keyfile_environment "config.json" sample_raw_config
  = Ok (PStr "a2V5LWZpbGU=").
Proof.
  refine (proj1 (key_sources_are_tried_in_order keyfile_environment "config.json"
                   sample_raw_config "secret.key" _) "  a2V5LWZpbGU=  " _ _ _).
  - vm_compute. reflexivity.
  - reflexivity.
  - reflexivity.
  - vm_compute. discriminate.
Defined.

Lemma without_a_key_nothing_is_decrypted_witness :
  exists st',
    DBConnectionManager._decrypt_config keyless_environment sample_loaded_state = (Ok tt, st') /\
    DBConnectionManager.heap st' !! DBConnectionManager.decrypted_config st'
    = Some sample_raw_config.
Proof.
  destruct (without_a_key_nothing_is_decrypted keyless_environment sample_loaded_state
              sample_raw_config PNone) as (st' & Hrun & _ & _ & Hdec).
  - vm_compute. reflexivity.
  - vm_compute. reflexivity.
  - reflexivity.
  - by exists st'.
Defined.


(** ** Further properties of the two factories *)

Lemma assoc_get_set_eq {V} (k : string) (v : V) (d : list (string * V)) :
  assoc_get k (assoc_set k v d) = Some v.
Proof.
  induction d as [|[k' v'] d IH]; cbn [assoc_get assoc_set].
  - by rewrite String.eqb_refl.
  - destruct (String.eqb k k') eqn:Hk; cbn [assoc_get]; by rewrite Hk.
Qed.

Lemma assoc_get_set_ne {V} (k k0 : string) (v : V) (d : list (string * V)) :
  k0 <> k -> assoc_get k0 (assoc_set k v d) = assoc_get k0 d.
Proof.
  intros Hne. induction d as [|[k' v'] d IH]; cbn [assoc_get assoc_set].
  - by apply String.eqb_neq in Hne as ->.
  - destruct (String.eqb k k') eqn:Hk; cbn [assoc_get]; [| by rewrite IH].
    apply String.eqb_eq in Hk as <-. by apply String.eqb_neq in Hne as ->.
Qed.

(** X18: The connector that [DBConnectionManager.get_connector] of [connectorDB]
    returns is of the class registered for the [db_type] entry of the
    decrypted configuration, whatever the case of its letters; its driver
    module is loaded; it carries that configuration unchanged and is not
    connected, and nothing has been asked of the driver. *)
Theorem factory_returns_a_disconnected_connector
    (mods : modules) (st : DBConnectionManager.state) (w : world) :
  DBConnectionManager.get_connector mods st = Ok w ->
  exists name,
    DBConnectionManager.deref (DBConnectionManager.heap st)
      (DBConnectionManager.decrypted_config st) !! "db_type" = Some (PStr name) /\
    assoc_get (lower name) DBConnectionManager._CONNECTOR_MAP = Some (cls w) /\
    driver_loaded mods (cls w) = true /\
    db_type w = lower name /\
    config w = DBConnectionManager.deref (DBConnectionManager.heap st)
                 (DBConnectionManager.decrypted_config st) /\
    connection w = None /\ trace w = [].
Proof.
  unfold DBConnectionManager.get_connector, IDBConnector_init, dict_get_default.
  set (cfg := DBConnectionManager.deref _ _).
  destruct (cfg !! "db_type") as [[| b | z | name] |] eqn:Hty; cbn [default]; unfold id; cbv zeta;
    try done.
  - destruct (assoc_get (lower name) DBConnectionManager._CONNECTOR_MAP) as [c|] eqn:Hc;
      [| done].
    unfold DBConnectionManager._CONNECTOR_MAP in Hc. cbn [assoc_get] in Hc.
    destruct (String.eqb (lower name) "firebird") eqn:H1;
      [| destruct (String.eqb (lower name) "mysql") eqn:H2;
         [| destruct (String.eqb (lower name) "postgresql") eqn:H3; [| done]]].
    all: injection Hc as <-.
    all: repeat match goal with
           | H : String.eqb _ _ = true |- _ => apply String.eqb_eq in H
           end.
    all: match goal with H : lower _ = _ |- _ => rewrite H end.
    all: cbn [String.eqb Ascii.eqb Bool.eqb andb].
    all: match goal with
         | |- context [negb ?b] => destruct b eqn:Hmod
         end; cbn [negb]; try done.
    all: intros [= <-]; exists name; cbn [cls db_type config connection trace].
    all: match goal with H : lower _ = _ |- _ => rewrite H end.
    all: repeat split; done.
Qed.

Lemma factory_returns_a_disconnected_connector_witness :
  exists w,
    DBConnectionManager.get_connector all_modules decrypted_sample_state = Ok w /\
    db_type w = "mysql" /\ connection w = None /\ trace w = [].
Proof.
  eexists. split; [vm_compute; reflexivity |].
  destruct (factory_returns_a_disconnected_connector all_modules decrypted_sample_state _
              eq_refl) as (name & _ & _ & _ & _ & _ & Hconn & Htrace).
  split; [reflexivity |]. split; [exact Hconn | exact Htrace].
Defined.

Section Registry.
Import connector_manager.
Context {connector_class connector : Type}.
Context (instantiate_and_connect : connector_class -> gmap string pyval -> result connector).

(** X19: Registering a connector class and asking for it go together, whatever
    the case of the letters on either side: after [register_connector],
    [get_connector] for that name instantiates and connects the class just
    registered (the last one registered under the name), any failure of
    which comes out as a [DatabaseError] that holds its text; the classes
    registered under other names are found as before. *)
Theorem registered_connectors_are_found
    (registry : list (string * connector_class)) (name asked : string)
    (cls : connector_class) (db_config : gmap string pyval) :
  (lower asked = lower name ->
   get_connector instantiate_and_connect (register_connector name cls registry) asked db_config
   = match instantiate_and_connect cls db_config with
     | Ok c => Ok c
     | Raise e =>
         Raise (DatabaseError ("Não foi possível conectar ao banco de dados " +:+ asked
                               +:+ ": " +:+ exn_str e))
     end) /\
  (lower asked <> lower name ->
   forall other, assoc_get (lower asked) registry = Some other ->
   get_connector instantiate_and_connect (register_connector name cls registry) asked db_config
   = get_connector instantiate_and_connect registry asked db_config).
Proof.
  unfold get_connector, register_connector. split.
  - intros ->. by rewrite assoc_get_set_eq.
  - intros Hne other Hother. by rewrite assoc_get_set_ne, Hother.
Qed.

End Registry.

Lemma registered_connectors_are_found_witness :
  connector_manager.get_connector connecting_instantiation
    (connector_manager.register_connector "Oracle" MySQL
       (connector_manager.initial_connectors all_modules Firebird MySQL PostgreSQL))
    "ORACLE" ∅
  = Ok {| cls := MySQL; config := ∅; db_type := "unknown";
          connection := Some full_connection; trace := [] |}.
Proof.
  refine (proj1 (registered_connectors_are_found connecting_instantiation
                   (connector_manager.initial_connectors all_modules Firebird MySQL PostgreSQL)
                   "Oracle" "ORACLE" MySQL ∅) _).
  vm_compute. reflexivity.
Defined.

(** ** Further properties of the introspection *)

(** The record of an index with one more column. *)
Lemma assoc_alter_present {V} (f : V -> V) k (d : list (string * V)) v :
  assoc_get k d = Some v ->
  exists pre post,
    d = pre ++ (k, v) :: post /\ assoc_alter f k d = pre ++ (k, f v) :: post.
Proof.
  induction d as [|[k' v'] d IH]; cbn [assoc_get assoc_alter]; [done |].
  destruct (String.eqb_spec k k') as [<- | Hne].
  - intros [= ->]. by exists [], d.
  - intros H. destruct (IH H) as (pre & post & -> & ->).
    by exists ((k', v') :: pre), post.
Qed.

Lemma assoc_alter_last {V} (f : V -> V) k (d : list (string * V)) v :
  assoc_get k d = None -> assoc_alter f k (d ++ [(k, v)]) = d ++ [(k, f v)].
Proof.
  induction d as [|[k' v'] d IH]; cbn [assoc_get assoc_alter app].
  - by rewrite String.eqb_refl.
  - destruct (String.eqb k k'); [done |]. intros H. by rewrite IH.
Qed.

Lemma index_add_column_grouped n fresh_index col indexes :
  IndexMetadata.columns fresh_index = [] ->
  grouped_indexes n indexes ->
  grouped_indexes (S n) (index_add_column fresh_index col indexes).
Proof.
  intros Hfresh (Hnd & Hall & Hsum). unfold index_add_column, assoc_setdefault.
  destruct (assoc_get (IndexMetadata.name fresh_index) indexes) as [ix|] eqn:Hget.
  - destruct (assoc_alter_present
                (fun ix => IndexMetadata.mk (IndexMetadata.name ix)
                             (IndexMetadata.columns ix ++ [col])
                             (IndexMetadata.is_unique ix) (IndexMetadata.is_primary ix)
                             (IndexMetadata.type ix))
                _ _ _ Hget) as (pre & post & -> & ->).
    unfold grouped_indexes in *.
    rewrite !map_app, !map_cons, ?sum_list_with_app in *. cbn [fst snd] in *.
    rewrite ?sum_list_cons in *.
    apply Forall_app in Hall as (Hpre & Hall). apply Forall_cons in Hall as ([Hname _] & Hpost).
    cbn [fst snd] in *.
    split; [done |]. split.
    + apply Forall_app. split; [done |]. apply Forall_cons. split; [| done].
      cbn [IndexMetadata.name IndexMetadata.columns fst snd]. split; [done |].
      by destruct (IndexMetadata.columns ix).
    + cbn [IndexMetadata.columns]. rewrite length_app. cbn [length]. lia.
  - rewrite (assoc_set_new _ _ _ Hget), (assoc_alter_last _ _ _ _ Hget).
    unfold grouped_indexes in *.
    rewrite !map_app, ?sum_list_with_app. cbn [map fst snd sum_list].
    split; [| split].
    + apply NoDup_app. split; [done |]. split; [| apply NoDup_singleton].
      intros k Hk Hk'. apply list_elem_of_singleton in Hk' as ->.
      by apply assoc_get_None in Hget.
    + apply Forall_app. split; [done |]. apply Forall_singleton.
      cbn [IndexMetadata.name IndexMetadata.columns fst snd]. split; [done |].
      by destruct (IndexMetadata.columns fresh_index).
    + cbn [IndexMetadata.columns]. rewrite length_app. cbn [length].
      rewrite Hfresh. cbn [length sum_list_with app]. unfold id in *. lia.
Qed.

(** Peels the steps of a row conversion that returned. *)
Ltac peel_row H :=
  repeat (let v := fresh "v" in
          let Hv := fresh "Hv" in
          apply result_bind_Ok_inv in H as (v & Hv & H)).

(** Every loop over index rows has the same shape: a step per row, each of
    which files one column. *)
Lemma indexes_loop_grouped
    (step : list (string * IndexMetadata.t) -> row -> result (list (string * IndexMetadata.t)))
    (loop : list row -> list (string * IndexMetadata.t)
            -> result (list (string * IndexMetadata.t))) :
  (forall rows indexes,
     loop rows indexes
     = match rows with
       | [] => Ok indexes
       | r :: rows' => result_bind (step indexes r) (loop rows')
       end) ->
  (forall indexes r indexes',
     step indexes r = Ok indexes' ->
     exists fresh_index col,
       IndexMetadata.columns fresh_index = [] /\
       indexes' = index_add_column fresh_index col indexes) ->
  forall rows n indexes out,
    grouped_indexes n indexes -> loop rows indexes = Ok out ->
    grouped_indexes (n + length rows) out.
Proof.
  intros Hloop Hstep rows. induction rows as [|r rows IH]; intros n indexes out Hg H;
    rewrite Hloop in H.
  - injection H as <-. cbn [length]. by rewrite Nat.add_0_r.
  - apply result_bind_Ok_inv in H as (indexes' & Hs & H).
    destruct (Hstep _ _ _ Hs) as (fresh_index & col & Hfresh & ->).
    cbn [length]. rewrite Nat.add_succ_r. eapply (IH (S n)); [| exact H].
    by apply index_add_column_grouped.
Qed.

Lemma grouped_indexes_nil : grouped_indexes 0 [].
Proof. repeat split; [apply NoDup_nil_2 | constructor]. Qed.

Lemma firebird_indexes_grouped rows out :
  FirebirdConnector.indexes_loop rows [] = Ok out -> grouped_indexes (length rows) out.
Proof.
  intros Hrun.
  refine (indexes_loop_grouped FirebirdConnector.index_step FirebirdConnector.indexes_loop _ _
            rows 0%nat [] out grouped_indexes_nil Hrun).
  - by intros [|r rows'] indexes.
  - intros indexes r indexes' H. unfold FirebirdConnector.index_step in H.
    peel_row H. injection H as <-. eexists _, _. split; [| reflexivity]. reflexivity.
Qed.

Lemma mysql_indexes_grouped rows out :
  MySQLConnector.indexes_loop rows [] = Ok out -> grouped_indexes (length rows) out.
Proof.
  intros Hrun.
  refine (indexes_loop_grouped MySQLConnector.index_step MySQLConnector.indexes_loop _ _
            rows 0%nat [] out grouped_indexes_nil Hrun).
  - by intros [|r rows'] indexes.
  - intros indexes r indexes' H. unfold MySQLConnector.index_step in H.
    peel_row H. injection H as <-. eexists _, _. split; [| reflexivity]. reflexivity.
Qed.

Lemma postgresql_indexes_grouped rows out :
  PostgreSQLConnector.indexes_loop rows [] = Ok out -> grouped_indexes (length rows) out.
Proof.
  intros Hrun.
  refine (indexes_loop_grouped PostgreSQLConnector.index_step PostgreSQLConnector.indexes_loop _ _
            rows 0%nat [] out grouped_indexes_nil Hrun).
  - by intros [|r rows'] indexes.
  - intros indexes r indexes' H. unfold PostgreSQLConnector.index_step in H.
    peel_row H. injection H as <-. eexists _, _. split; [| reflexivity]. reflexivity.
Qed.

(** What the grouping gives for the list of records in the metadata. *)
Lemma grouped_indexes_values n indexes :
  grouped_indexes n indexes ->
  NoDup (map IndexMetadata.name (map snd indexes)) /\
  Forall (fun ix => IndexMetadata.columns ix <> []) (map snd indexes) /\
  sum_list (map (fun ix => length (IndexMetadata.columns ix)) (map snd indexes)) = n.
Proof.
  intros (Hnd & Hall & Hsum). split; [| split].
  - assert (map IndexMetadata.name (map snd indexes) = map fst indexes) as ->; [| done].
    clear Hnd Hsum. induction Hall as [|[k ix] l [Hname _] _ IH]; [done |].
    cbn [map fst snd] in *. by rewrite IH, Hname.
  - rewrite Forall_map. eapply Forall_impl; [exact Hall |]. by intros kv [_ ?].
  - by rewrite map_map.
Qed.

(** X20: In the metadata of a table, whatever the dialect, the indexes carry
    distinct names, each of them has at least one column, and every row the
    index statement returned has added exactly one column to exactly one
    index. *)
Theorem indexes_are_grouped_by_name
    drv mods (table_name : string) (w : world) (tm : TableMetadata.t) (w' : world) :
  get_table_metadata drv mods table_name w = (Ok tm, w') ->
  NoDup (map IndexMetadata.name (TableMetadata.indexes tm)) /\
  Forall (fun ix => IndexMetadata.columns ix <> []) (TableMetadata.indexes tm) /\
  exists params rows w1 w2,
    execute_query drv mods (index_query (cls w)) params w1 = (Ok rows, w2) /\
    sum_list (map (fun ix => length (IndexMetadata.columns ix)) (TableMetadata.indexes tm))
    = length rows.
Proof.
  unfold get_table_metadata. intros H.
  apply bind_Ok_inv in H as (c & w0 & Hc & H). apply gets_inv in Hc as [-> ->].
  destruct (cls w).
  - unfold FirebirdConnector.get_table_metadata in H.
    apply bind_Ok_inv in H as (rows_c & wa & _ & H).
    destruct rows_c as [|r0 rows_c]; [discriminate |].
    apply bind_Ok_inv in H as (columns & wb & _ & H).
    apply bind_Ok_inv in H as (rows_pk & wc & _ & H).
    apply bind_Ok_inv in H as (pks & wd & _ & H).
    apply bind_Ok_inv in H as (rows_fk & we & _ & H).
    apply bind_Ok_inv in H as (fks & wf & _ & H).
    apply bind_Ok_inv in H as (rows & w2 & Hrows & H).
    apply bind_Ok_inv in H as (ixs & wg & Hixs & H).
    apply lift_Ok_inv in Hixs as [Hixs ->].
    peel H. subst tm. cbn [TableMetadata.indexes].
    apply firebird_indexes_grouped, grouped_indexes_values in Hixs as (? & ? & ?).
    split; [done |]. split; [done |]. by eexists _, rows, _, w2.
  - unfold MySQLConnector.get_table_metadata in H.
    apply bind_Ok_inv in H as (db1 & wa & _ & H).
    apply bind_Ok_inv in H as (rows_i & wb & _ & H).
    destruct (MySQLConnector.table_info_of_rows rows_i) as [[total_bytes row_count] table_comment].
    apply bind_Ok_inv in H as (db2 & wc & _ & H).
    apply bind_Ok_inv in H as (rows_c & wd & _ & H).
    destruct rows_c as [|r0 rows_c]; [discriminate |].
    apply bind_Ok_inv in H as (columns & we & _ & H).
    apply bind_Ok_inv in H as (db3 & wf & _ & H).
    apply bind_Ok_inv in H as (rows_fk & wg & _ & H).
    apply bind_Ok_inv in H as (fks & wh & _ & H).
    apply bind_Ok_inv in H as (db4 & wi & _ & H).
    apply bind_Ok_inv in H as (rows & w2 & Hrows & H).
    apply bind_Ok_inv in H as (ixs & wj & Hixs & H).
    apply lift_Ok_inv in Hixs as [Hixs ->].
    peel H. subst tm. cbn [TableMetadata.indexes].
    apply mysql_indexes_grouped, grouped_indexes_values in Hixs as (? & ? & ?).
    split; [done |]. split; [done |]. by eexists _, rows, _, w2.
  - unfold PostgreSQLConnector.get_table_metadata in H.
    apply bind_Ok_inv in H as (cfg & wa & _ & H).
    apply bind_Ok_inv in H as (exact & wb & _ & H).
    destruct exact as [exact |]; [| discriminate].
    apply bind_Ok_inv in H as (info & wc & _ & H).
    destruct info as [[total_bytes table_comment] row_count].
    apply bind_Ok_inv in H as (columns & wd & _ & H).
    apply bind_Ok_inv in H as (pks & we & _ & H).
    apply bind_Ok_inv in H as (fks & wf & _ & H).
    apply bind_Ok_inv in H as (ixs & wg & Hixs & H).
    unfold PostgreSQLConnector._get_indexes in Hixs.
    apply bind_Ok_inv in Hixs as (rows & w2 & Hrows & Hixs).
    apply lift_Ok_inv in Hixs as [Hixs ->].
    peel H. subst tm. cbn [TableMetadata.indexes].
    apply postgresql_indexes_grouped, grouped_indexes_values in Hixs as (? & ? & ?).
    split; [done |]. split; [done |]. by eexists _, rows, _, w2.
Qed.

Lemma indexes_are_grouped_by_name_witness :
  exists tm w',
    get_table_metadata (scripted_driver firebird_catalog) all_modules "orders"
      (connected_world Firebird) = (Ok tm, w') /\
    NoDup (map IndexMetadata.name (TableMetadata.indexes tm)).
Proof.
  eexists _, _. split; [vm_compute; reflexivity |].
  eapply (indexes_are_grouped_by_name (scripted_driver firebird_catalog) all_modules "orders"
            (connected_world Firebird)).
  vm_compute. reflexivity.
Defined.

Lemma result_map_nonempty {A B} (f : A -> result B) a l bs :
  result_map f (a :: l) = Ok bs -> bs <> [].
Proof.
  cbn [result_map]. intros H. peel_row H. by injection H as <-.
Qed.

Lemma mysql_primary_keys_flagged rows cols :
  result_map MySQLConnector.column_of_row rows = Ok cols ->
  Forall2 (fun r col =>
             exists cells,
               r = RowDict cells /\
               ColumnMetadata.is_primary_key col
               = contains "PRI" (py_str (dict_get_default cells "COLUMN_KEY" (PStr ""))))
    rows cols.
Proof.
  intros H. apply result_map_Forall2 in H. eapply Forall2_impl; [exact H |].
  intros r col Hcol. unfold MySQLConnector.column_of_row in Hcol.
  destruct r as [cells | cells]; [discriminate |]. cbn [MySQLConnector.as_dict result_bind] in Hcol.
  peel_row Hcol. injection Hcol as <-. by exists cells.
Qed.

(** X21: The metadata of a table always describes at least one column. For
    Firebird the table is named in upper case, no size is reported, and no
    column is ever flagged as primary key or as unique, whatever
    [primary_keys] lists. For MySQL the table is named as asked, a column is
    flagged as primary key exactly when the [COLUMN_KEY] cell of its row
    holds [PRI], and [primary_keys] lists the flagged columns, in order. *)
Theorem metadata_describes_the_columns
    drv mods (table_name : string) (w : world) (tm : TableMetadata.t) (w' : world) :
  get_table_metadata drv mods table_name w = (Ok tm, w') ->
  TableMetadata.columns tm <> [] /\
  match cls w with
  | Firebird =>
      TableMetadata.name tm = upper table_name /\
      TableMetadata.size_bytes tm = None /\
      Forall (fun col => ColumnMetadata.is_primary_key col = false /\
                         ColumnMetadata.is_unique col = false)
        (TableMetadata.columns tm)
  | MySQL =>
      TableMetadata.name tm = table_name /\
      TableMetadata.primary_keys tm
      = map ColumnMetadata.name
          (List.filter ColumnMetadata.is_primary_key (TableMetadata.columns tm)) /\
      exists params rows w1 w2,
        execute_query drv mods MySQLConnector.columns_query params w1 = (Ok rows, w2) /\
        Forall2 (fun r col =>
                   exists cells,
                     r = RowDict cells /\
                     ColumnMetadata.is_primary_key col
                     = contains "PRI"
                         (py_str (dict_get_default cells "COLUMN_KEY" (PStr ""))))
          rows (TableMetadata.columns tm)
  | PostgreSQL => True
  end.
Proof.
  unfold get_table_metadata. intros H.
  apply bind_Ok_inv in H as (c & w0 & Hc & H). apply gets_inv in Hc as [-> ->].
  destruct (cls w).
  - unfold FirebirdConnector.get_table_metadata in H.
    apply bind_Ok_inv in H as (rows_c & wa & _ & H).
    destruct rows_c as [|r0 rows_c]; [discriminate |].
    apply bind_Ok_inv in H as (columns & wb & Hcols & H).
    apply lift_Ok_inv in Hcols as [Hcols ->].
    peel H. subst tm.
    cbn [TableMetadata.columns TableMetadata.name TableMetadata.size_bytes].
    split; [by eapply result_map_nonempty |]. split; [done |]. split; [done |].
    apply result_map_Forall2 in Hcols. clear -Hcols.
    induction Hcols as [|r col rows cols Hcol _ IH]; constructor; [| exact IH].
    unfold FirebirdConnector.column_of_row in Hcol. peel_row Hcol. by injection Hcol as <-.
  - unfold MySQLConnector.get_table_metadata in H.
    apply bind_Ok_inv in H as (db1 & wa & _ & H).
    apply bind_Ok_inv in H as (rows_i & wb & _ & H).
    destruct (MySQLConnector.table_info_of_rows rows_i) as [[total_bytes row_count] table_comment].
    apply bind_Ok_inv in H as (db2 & wc & _ & H).
    apply bind_Ok_inv in H as (rows_c & wd & Hrows & H).
    destruct rows_c as [|r0 rows_c]; [discriminate |].
    apply bind_Ok_inv in H as (columns & we & Hcols & H).
    apply lift_Ok_inv in Hcols as [Hcols ->].
    peel H. subst tm.
    cbn [TableMetadata.columns TableMetadata.name TableMetadata.primary_keys].
    split; [by eapply result_map_nonempty |]. split; [done |]. split.
    + unfold MySQLConnector.primary_keys_of_columns. f_equal.
      clear. induction columns as [|col columns IH]; [done |].
      cbn [List.filter]. rewrite filter_cons.
      destruct (ColumnMetadata.is_primary_key col) eqn:Hpk.
      * rewrite decide_True by done. by rewrite IH.
      * rewrite decide_False by done. exact IH.
    + eexists _, _, _, _. split; [exact Hrows |]. by apply mysql_primary_keys_flagged.
  - unfold PostgreSQLConnector.get_table_metadata in H.
    apply bind_Ok_inv in H as (cfg & wa & _ & H).
    apply bind_Ok_inv in H as (exact & wb & _ & H).
    destruct exact as [exact |]; [| discriminate].
    apply bind_Ok_inv in H as (info & wc & _ & H).
    destruct info as [[total_bytes table_comment] row_count].
    apply bind_Ok_inv in H as (columns & wd & Hcols & H).
    peel H. subst tm. cbn [TableMetadata.columns]. split; [| done].
    unfold PostgreSQLConnector._get_columns in Hcols.
    apply bind_Ok_inv in Hcols as (rows & wx & _ & Hcols).
    destruct rows as [|r0 rows]; [discriminate |].
    apply lift_Ok_inv in Hcols as [Hcols _]. by eapply result_map_nonempty.
Qed.

Lemma metadata_describes_the_columns_witness :
  exists tm w',
    get_table_metadata (scripted_driver firebird_catalog) all_modules "orders"
      (connected_world Firebird) = (Ok tm, w') /\
    TableMetadata.name tm = "ORDERS" /\ TableMetadata.columns tm <> [].
Proof.
  eexists _, _. split; [vm_compute; reflexivity |].
  edestruct (metadata_describes_the_columns (scripted_driver firebird_catalog) all_modules
               "orders" (connected_world Firebird)) as (Hcols & Hname & _).
  { vm_compute. reflexivity. }
  split; [exact Hname | exact Hcols].
Defined.

(** A statement leaves the connector's class and configuration alone. *)
Lemma execute_query_keeps_the_configuration drv mods q ps w :
  config (execute_query drv mods q ps w).2 = config w.
Proof.
  unfold execute_query, _get_cursor, rollback_quietly.
  destruct (connection w) as [c|] eqn:Hc; explore Hc; reflexivity.
Qed.

(** X22: A table the catalog does not know is a [ValueError] that names it, and
    the introspection stops there: for Firebird when the column statement
    (asked for the name in upper case) returns no row, for PostgreSQL when
    the statement that looks the exact name up returns no row, for MySQL
    when the column statement returns no row, the table statement before it
    having returned whatever it has. *)
Theorem unknown_table_is_a_ValueError
    drv mods (table_name : string) (w w1 : world) :
  (execute_query drv mods FirebirdConnector.query_columns
     (Some [PStr (upper table_name)]) w = (Ok [], w1) ->
   FirebirdConnector.get_table_metadata drv mods table_name w
   = (Raise (ValueError ("Tabela '" +:+ upper table_name
                         +:+ "' não encontrada ou sem colunas acessíveis no Firebird.")),
      w1)) /\
  (execute_query drv mods PostgreSQLConnector.exact_table_name_query
     (Some [PStr table_name;
            PStr (py_str (dict_get_default (config w) "schema" (PStr "public")))]) w
   = (Ok [], w1) ->
   PostgreSQLConnector.get_table_metadata drv mods table_name w
   = (Raise (ValueError ("Tabela '" +:+ table_name +:+ "' não encontrada no esquema '"
                         +:+ py_str (dict_get_default (config w) "schema" (PStr "public"))
                         +:+ "'.")),
      w1)) /\
  (forall database info w0,
     config w !! "database" = Some database ->
     execute_query drv mods MySQLConnector.table_info_query
       (Some [database; PStr table_name]) w = (Ok info, w0) ->
     execute_query drv mods MySQLConnector.columns_query
       (Some [database; PStr table_name]) w0 = (Ok [], w1) ->
     MySQLConnector.get_table_metadata drv mods table_name w
     = (Raise (ValueError ("Tabela '" +:+ table_name
                           +:+ "' não encontrada ou sem colunas acessíveis no MySQL.")),
        w1)).
Proof.
  split; [| split].
  - intros H. unfold FirebirdConnector.get_table_metadata, bind. by rewrite H.
  - intros H. unfold PostgreSQLConnector.get_table_metadata,
      PostgreSQLConnector._get_exact_table_name, bind, gets. by rewrite H.
  - intros database info w0 Hdb Hinfo Hcols.
    pose proof (execute_query_keeps_the_configuration drv mods
                  MySQLConnector.table_info_query (Some [database; PStr table_name]) w) as Hcfg.
    rewrite Hinfo in Hcfg. cbn [snd] in Hcfg.
    unfold MySQLConnector.get_table_metadata, MySQLConnector.config_database, bind, gets,
      lift, dict_item.
    rewrite Hdb, Hinfo.
    destruct (MySQLConnector.table_info_of_rows info) as [[total_bytes row_count] table_comment].
    by rewrite Hcfg, Hdb, Hcols.
Qed.

Lemma unknown_table_is_a_ValueError_witness :
  exists w1,
    FirebirdConnector.get_table_metadata quiet_driver all_modules "orders"
      (connected_world Firebird)
    = (Raise (ValueError "Tabela 'ORDERS' não encontrada ou sem colunas acessíveis no Firebird."),
       w1).
Proof.
  eexists.
  refine (proj1 (unknown_table_is_a_ValueError quiet_driver all_modules "orders"
                   (connected_world Firebird) _) _).
  vm_compute. reflexivity.
Defined.

(** ** Further properties of the conversions *)

Lemma lstrip_fixed c s : is_py_space c = false -> lstrip (String c s) = String c s.
Proof. intros H. cbn [lstrip]. by rewrite H. Qed.

Lemma lstrip_head s : lstrip s = "" \/ exists c r, lstrip s = String c r /\ is_py_space c = false.
Proof.
  induction s as [|c s IH]; [by left |]. cbn [lstrip].
  destruct (is_py_space c) eqn:Hc; [exact IH | right; by exists c, s].
Qed.

Lemma rstrip_idempotent s : rstrip (rstrip s) = rstrip s.
Proof.
  induction s as [|c s IH]; [done |]. cbn [rstrip].
  destruct (is_py_space c && is_empty_string (rstrip s)) eqn:Hc; [done |].
  cbn [rstrip]. by rewrite IH, Hc.
Qed.

Lemma strip_idempotent s : strip (strip s) = strip s.
Proof.
  unfold strip. destruct (lstrip_head s) as [-> | (c & r & -> & Hc)]; [done |].
  cbn [rstrip]. rewrite Hc. cbn [andb].
  rewrite (lstrip_fixed _ _ Hc). cbn [rstrip]. rewrite Hc. cbn [andb].
  by rewrite rstrip_idempotent.
Qed.

(** X23: [_safe_int_conversion] is [int] with every refusal turned into [None]:
    it returns the integer [int(value)] gives whenever [int] accepts the
    value, and [None] whenever [int] raises, [None] and blank strings
    included; white space around a string changes nothing. *)
Theorem safe_int_conversion_is_int_or_None (value : pyval) (s : string) :
  _safe_int_conversion value
  = match py_int value with
    | Ok z => Some z
    | Raise _ => None
    end /\
  _safe_int_conversion (PStr (strip s)) = _safe_int_conversion (PStr s).
Proof.
  assert (forall s, _safe_int_conversion (PStr s)
                    = match py_int (PStr s) with Ok z => Some z | Raise _ => None end) as Hstr.
  { clear s. intros s. unfold _safe_int_conversion, py_int, int_of_string.
    rewrite strip_idempotent.
    destruct (strip s) as [|c r] eqn:Hs; cbn [is_empty_string]; [reflexivity |].
    match goal with
    | |- context [match ?o with Some _ => _ | None => _ end] => by destruct o
    end. }
  split.
  - destruct value as [| b | z | s']; [done | done | done | apply Hstr].
  - rewrite !Hstr. unfold py_int, int_of_string. rewrite strip_idempotent.
    match goal with
    | |- context [match ?o with Some _ => _ | None => _ end] => by destruct o
    end.
Qed.

(** X24: A Firebird field is reported as BOOLEAN exactly when its type code is 23,
    or 7 (SMALLINT) with sub-type 1; the sub-type plays no part for any
    other type code. *)
Theorem firebird_boolean_fields (field_type field_sub_type : Z) :
  (FirebirdConnector._map_firebird_type field_type field_sub_type = "BOOLEAN"
   <-> field_type = 23 \/ (field_type = 7 /\ field_sub_type = 1)) /\
  (field_type <> 7 -> forall other,
     FirebirdConnector._map_firebird_type field_type other
     = FirebirdConnector._map_firebird_type field_type field_sub_type).
Proof.
  unfold FirebirdConnector._map_firebird_type. split.
  - destruct (Z.eqb_spec field_type 23) as [-> | H23]; [by split; [left |] |].
    destruct (Z.eqb_spec field_type 7) as [-> | H7].
    + destruct (Z.eqb_spec field_sub_type 1) as [-> | H1]; cbn [andb].
      * split; [by right | done].
      * split; [discriminate | intros [? | [_ ?]]; done].
    + cbn [andb]. split; [| intros [? | [? _]]; done].
      intros H. exfalso.
      repeat match type of H with
             | context [match ?p with _ => _ end] => destruct p; try discriminate H
             end.
  - intros H7 other.
    destruct (Z.eqb_spec field_type 23) as [-> | H23]; [done |].
    destruct (Z.eqb_spec field_type 7) as [-> | _]; [done |]. done.
Qed.

Lemma firebird_boolean_fields_witness :
  FirebirdConnector._map_firebird_type 8 1 = FirebirdConnector._map_firebird_type 8 0.
Proof.
  refine (proj2 (firebird_boolean_fields 8 0) _ 1). discriminate.
Defined.
